(** * PULSE System Monitor: the time-series pattern and anomaly engine

    A shallow embedding of the memory monitor's analysis code
    ([memory-monitor/scripts/ml_anomaly_detector.py], [memory_monitor.py]
    and [process_tracker.py]) and the properties its specification states.

    Numbers.  The analysis works on Python and NumPy floats.  They are
    embedded as real numbers: every arithmetic operation is exact, so
    rounding error is outside the model.  What is kept is everything the
    engine decides on: thresholds, guards, divisions by zero (which raise
    in Python and are modelled as raising), window sizes and the order of
    operations.  A property that compares a computed statistic with a
    threshold is therefore a property of the code up to the rounding of
    that statistic.  The one place where the textual form of a double
    matters, the hash of a process fingerprint, is modelled on binary64
    floats: there the doubles are taken as the code computes them, and
    their arithmetic is not modelled. *)

From stdpp Require Import base decidable option list gmap strings.
From Stdlib Require Import ZArith Reals Lra Lia Ascii.
From Stdlib Require Floats DecimalString.

Local Open Scope R_scope.

(** Comparisons of reals are decided classically; [decide] plays the part
    of Python's comparison operators. *)
#[global] Instance Rlt_decision (x y : R) : Decision (x < y) := Rlt_dec x y.
#[global] Instance Rgt_decision (x y : R) : Decision (x > y) := Rgt_dec x y.
#[global] Instance Rle_decision (x y : R) : Decision (x <= y) := Rle_dec x y.
#[global] Instance Rge_decision (x y : R) : Decision (x >= y) := Rge_dec x y.
#[global] Instance Req_decision : EqDecision R := Req_dec_T.

(** ** Python values and exceptions *)

Module Py.

(** The exceptions the modelled code can raise, and the failure of the
    optional model backend. *)
Inductive exn : Type :=
| ZeroDivisionError
| ModelError (cause : string).

Inductive result (A : Type) : Type :=
| Ok (a : A)
| Raise (e : exn).
Arguments Ok {A} a.
Arguments Raise {A} e.

Definition bind {A B} (r : result A) (k : A → result B) : result B :=
  match r with
  | Ok a => k a
  | Raise e => Raise e
  end.

(** [a / b] on Python numbers: division by zero raises. *)
Definition div (a b : R) : result R :=
  if decide (b = 0) then Raise ZeroDivisionError else Ok (a / b).

(** [max(xs)] of the builtins; [max] of an empty sequence raises in
    Python, every call in the modelled code is guarded by a non-emptiness
    test. *)
Definition max (xs : list R) : R :=
  match xs with
  | [] => 0
  | x :: rest => foldl Rmax x rest
  end.

End Py.

#[global] Instance result_ret : MRet Py.result := @Py.Ok.
#[global] Instance result_bind : MBind Py.result :=
  fun A B k r => Py.bind r k.

(** ** The NumPy functions the engine calls *)

Module Np.

Definition sum (xs : list R) : R := foldr Rplus 0 xs.

(** [np.mean(xs)] *)
Definition mean (xs : list R) : R := sum xs / INR (length xs).

(** [np.std(xs)]: the population standard deviation (ddof = 0), as an
    exact real number.  NumPy computes it in binary64: its value differs
    from this one by rounding, and for equal values, whose deviation is 0
    here, it can be a tiny positive number. *)
Definition std (xs : list R) : R :=
  let m := mean xs in
  sqrt (mean (map (fun x => (x - m) * (x - m)) xs)).

(** [np.arange(n)] *)
Definition arange (n : nat) : list R := map INR (seq 0 n).

(** Column [j] of a two-dimensional array given by its rows, and the
    reductions along axis 0.  The rows are feature vectors of one length
    (the width of the array), so the default of [nth] is never read. *)
Definition column (j : nat) (rows : list (list R)) : list R :=
  map (fun row => nth j row 0) rows.

Definition width (rows : list (list R)) : nat := length (hd [] rows).

Definition mean_axis0 (rows : list (list R)) : list R :=
  map (fun j => mean (column j rows)) (seq 0 (width rows)).

Definition std_axis0 (rows : list (list R)) : list R :=
  map (fun j => std (column j rows)) (seq 0 (width rows)).

(** [np.polyfit(x, y, 1)]: the least-squares line through the points,
    as (slope, intercept).  Every call in the modelled code fits at least
    two points with distinct abscissas [np.arange(n)], for which the
    least-squares line is unique and given by these formulas (see
    [polyfit1_least_squares] below).  The line is the exact one: NumPy's
    differs from it by rounding, so that the slope through points on a
    line of slope 1 can be computed as 1.0000000000000002. *)
Definition polyfit1 (xs ys : list R) : R * R :=
  let mx := mean xs in
  let my := mean ys in
  let sxy := sum (zip_with (fun x y => (x - mx) * (y - my)) xs ys) in
  let sxx := sum (map (fun x => (x - mx) * (x - mx)) xs) in
  let slope := sxy / sxx in
  (slope, my - slope * mx).

(** [np.correlate(a, v, mode='full')]: entry [m] is the sum of
    [a[j] * v[j + (N-1) - m]], the correlation at lag [m - (N-1)]. *)
Definition correlate_full (a v : list R) : list R :=
  let n := length v in
  map (fun m =>
         sum (map (fun j =>
                     if (m <=? (n - 1) + j)%nat
                     then nth j a 0 * nth ((n - 1) + j - m) v 0
                     else 0)
                  (seq 0 (length a))))
      (seq 0 (length a + n - 1)).

(** NumPy floats do not raise on a division by zero: the quotient is
    an infinity or NaN.  [xreal] is a NumPy float that may be one of
    these. *)
Inductive xreal : Type :=
| Finite (r : R)
| PosInf
| NegInf
| NaN.

Definition divide (a : xreal) (b : R) : xreal :=
  match a with
  | Finite r =>
      if decide (b = 0) then
        if decide (r > 0) then PosInf
        else if decide (r < 0) then NegInf
        else NaN
      else Finite (r / b)
  | PosInf => if decide (b < 0) then NegInf else PosInf
  | NegInf => if decide (b < 0) then PosInf else NegInf
  | NaN => NaN
  end.

Definition times (a : xreal) (c : R) : xreal :=
  match a with
  | Finite r => Finite (r * c)
  | PosInf =>
      if decide (c > 0) then PosInf
      else if decide (c < 0) then NegInf else NaN
  | NegInf =>
      if decide (c > 0) then NegInf
      else if decide (c < 0) then PosInf else NaN
  | NaN => NaN
  end.

(** [a > c]: false on NaN. *)
Definition gt (a : xreal) (c : R) : bool :=
  match a with
  | Finite r => bool_decide (r > c)
  | PosInf => true
  | NegInf | NaN => false
  end.

(** [np.corrcoef(x, y)[0, 1]]: the covariance (ddof = 1) divided by the
    two standard deviations in turn, then clipped to [-1, 1]. *)
Definition cov (xs ys : list R) : R :=
  let mx := mean xs in
  let my := mean ys in
  sum (zip_with (fun x y => (x - mx) * (y - my)) xs ys)
  / (INR (length xs) - 1).

Definition corrcoef (xs ys : list R) : xreal :=
  match divide (divide (Finite (cov xs ys)) (sqrt (cov xs xs)))
               (sqrt (cov ys ys)) with
  | Finite r => Finite (Rmax (-1) (Rmin 1 r))
  | PosInf => Finite 1
  | NegInf => Finite (-1)
  | NaN => NaN
  end.

End Np.

(** ** Bounded history windows *)

Module History.

(** [collections.deque(maxlen=N).append(x)]: the entry is added on the
    right and, when the window then holds more than [N] entries, one is
    dropped from the left.  The detector's list, which appends and then
    pops index 0 when the length exceeds 100, is the same operation. *)
Definition append {A} (maxlen : nat) (w : list A) (x : A) : list A :=
  let w' := w ++ [x] in
  if (maxlen <? length w')%nat then drop 1 w' else w'.

(** A [defaultdict] of windows keyed by entity: reading a missing key
    gives the empty window, and [record] is
    [store[key].append(x)]. *)
Definition window {A} (store : gmap Z (list A)) (key : Z) : list A :=
  default [] (store !! key).

Definition record {A} (maxlen : nat) (store : gmap Z (list A)) (key : Z)
    (x : A) : gmap Z (list A) :=
  <[key := append maxlen (window store key) x]> store.

(** [w[-k:]] for [k > 0]. *)
Definition last_n {A} (k : nat) (w : list A) : list A :=
  drop (length w - k) w.

End History.

(** ** The anomaly detector ([ml_anomaly_detector.py]) *)

Module Detector.

(** The part of [memory_data] the detector reads:
    [memory_data['system']['physical']], the swap percentage, the
    timestamp and, per process, [rss] and [percent]. *)
Record physical : Type := Physical {
  total : R;
  available : R;
  used : R;
  percent : R
}.

Record process : Type := Process {
  rss : R;
  proc_percent : R
}.

Record memory_data : Type := MemoryData {
  timestamp : string;
  system_physical : physical;
  swap_percent : R;
  processes : list process
}.

(** [extract_features]: eight features, in this order.  The three
    divisions are Python divisions and raise on a zero divisor. *)
Definition extract_features (d : memory_data) : Py.result (list R) :=
  let sys_mem := system_physical d in
  avail ← Py.div (available sys_mem) (total sys_mem);
  let system_features := [percent sys_mem; avail; swap_percent d] in
  process_features ←
    match processes d with
    | [] => mret [0; 0; 0; 0]
    | _ =>
        let total_process_mem := Np.sum (map rss (processes d)) in
        share ← Py.div total_process_mem (total sys_mem);
        mret [INR (length (processes d));
              share;
              Py.max (map proc_percent (processes d));
              Np.std (map proc_percent (processes d))]
    end;
  fragmentation ←
    (if decide (total sys_mem > 0) then
       q ← Py.div (available sys_mem) (total sys_mem - used sys_mem);
       mret (Rmax 0 (Rmin 1 (1 - q)))
     else mret 0);
  mret (system_features ++ process_features ++ [fragmentation]).

Inductive status : Type :=
| LEARNING
| NORMAL
| LOW_ANOMALY
| MEDIUM_ANOMALY
| HIGH_ANOMALY
| ANOMALY_DETECTED
| Insufficient_historical_data.

(** The z-scores of the features whose historical standard deviation is
    positive; the other features contribute nothing. *)
Definition z_scores (current_features : list R)
    (historical_features : list (list R)) : list R :=
  let mean_features := Np.mean_axis0 historical_features in
  let std_features := Np.std_axis0 historical_features in
  omap (fun '(current, mean, std) =>
          if decide (std > 0) then Some (Rabs (current - mean) / std)
          else None)
       (zip (zip current_features mean_features) std_features).

(** [simple_anomaly_detection]: the pair (score, status). *)
Definition simple_anomaly_detection (current_features : list R)
    (historical_features : list (list R)) : R * status :=
  if (length historical_features <? 5)%nat
  then (0, Insufficient_historical_data)
  else
    let anomaly_scores := z_scores current_features historical_features in
    match anomaly_scores with
    | [] => (0, NORMAL)
    | _ =>
        let avg_anomaly_score := Np.mean anomaly_scores in
        let max_anomaly_score := Py.max anomaly_scores in
        if decide (max_anomaly_score > 3)
        then (max_anomaly_score, HIGH_ANOMALY)
        else if decide (max_anomaly_score > 2)
        then (max_anomaly_score, MEDIUM_ANOMALY)
        else if decide (avg_anomaly_score > 1.5)
        then (avg_anomaly_score, LOW_ANOMALY)
        else (avg_anomaly_score, NORMAL)
    end.

Inductive severity : Type := LOW | MEDIUM | HIGH.

Inductive pattern : Type :=
| INCREASING_MEMORY_USAGE (slope : R) (sev : severity)
| DECREASING_MEMORY_USAGE (slope : R) (sev : severity)
| PERIODIC_PATTERN (period : nat) (strength : R)
| HIGH_VARIABILITY (features : list nat).

Inductive prediction : Type :=
| UsagePrediction (time_ahead : nat) (predicted_memory_usage : R)
    (confidence : severity)
| TrendPrediction (feature_index : nat) (trend_slope : R).

(** One stored entry of [memory_sequences['global']]. *)
Record sample : Type := Sample {
  sample_timestamp : string;
  features : list R
}.

(** [item['features'][0]] *)
Definition usage (item : sample) : R := nth 0 (features item) 0.

(** The first half of [detect_trends]: the slope of the last ten usage
    values. *)
Definition trend_patterns (sequence : list sample) : list pattern :=
  let memory_usage := map usage (History.last_n 10 sequence) in
  if (5 <=? length memory_usage)%nat then
    let slope :=
      fst (Np.polyfit1 (Np.arange (length memory_usage)) memory_usage) in
    if decide (slope > 1)
    then [INCREASING_MEMORY_USAGE slope
            (if decide (slope > 5) then HIGH else MEDIUM)]
    else if decide (slope < -1)
    then [DECREASING_MEMORY_USAGE slope LOW]
    else []
  else [].

(** [autocorr[autocorr.size // 2:]] of the full autocorrelation. *)
Definition autocorr (usage_values : list R) : list R :=
  let full := Np.correlate_full usage_values usage_values in
  drop (length full / 2) full.

(** The lags [i] of [range(2, len(autocorr) - 2)] whose value is greater
    than both neighbours. *)
Definition peaks (ac : list R) : list nat :=
  filter (fun i => nth i ac 0 > nth (i - 1) ac 0 ∧
                   nth i ac 0 > nth (i + 1) ac 0)
         (seq 2 (length ac - 4)).

(** The second half of [detect_trends]. *)
Definition periodic_patterns (sequence : list sample) : list pattern :=
  if (20 <=? length sequence)%nat then
    let usage_values := map usage (History.last_n 20 sequence) in
    let ac := autocorr usage_values in
    if (5 <? length ac)%nat then
      match peaks ac with
      | [] => []
      | first_peak :: _ =>
          [PERIODIC_PATTERN first_peak
             (Py.max (map (fun i => nth i ac 0) (peaks ac)))]
      end
    else []
  else [].

Definition detect_trends (sequence : list sample) : list pattern :=
  if (length sequence <? 5)%nat then []
  else trend_patterns sequence ++ periodic_patterns sequence.

Definition simple_predictions (sequence : list sample) : list prediction :=
  if (length sequence <? 5)%nat then []
  else
    let recent_usage := map usage (History.last_n 5 sequence) in
    if (3 <=? length recent_usage)%nat then
      let fit := Np.polyfit1 (Np.arange (length recent_usage)) recent_usage in
      map (fun i =>
             let next_usage :=
               fst fit * (INR (length recent_usage) + INR i - 1) + snd fit in
             UsagePrediction (i * 30) (Rmax 0 (Rmin 100 next_usage))
               (if decide (Rabs (fst fit) > 5) then LOW else MEDIUM))
          [1; 2; 3]%nat
    else [].

(** [detect_ml_patterns]: at most one pattern, of type HIGH_VARIABILITY. *)
Definition detect_ml_patterns (X : list (list R)) : list pattern :=
  if (length X <? 10)%nat then []
  else
    let high_variance_features :=
      filter (fun i =>
                let mean := Np.mean (Np.column i X) in
                let std := Np.std (Np.column i X) in
                std > 0.5 * mean ∧ std > 0.1)
             (seq 0 (Np.width X)) in
    match high_variance_features with
    | [] => []
    | _ => [HIGH_VARIABILITY high_variance_features]
    end.

Definition ml_predictions (X : list (list R)) : list prediction :=
  if (length X <? 5)%nat then []
  else
    let recent_data := History.last_n 5 X in
    omap (fun feature_idx =>
            let values := Np.column feature_idx recent_data in
            if (3 <=? length values)%nat then
              let slope :=
                fst (Np.polyfit1 (Np.arange (length values)) values) in
              if decide (Rabs slope > 0.1)
              then Some (TrendPrediction feature_idx slope)
              else None
            else None)
         (seq 0 (Np.width X)).

Inductive method : Type :=
| statistical
| machine_learning
| statistical_fallback.

(** The text the code writes under the key [method]. *)
Definition method_name (m : method) : string :=
  match m with
  | statistical => "statistical"
  | machine_learning => "machine_learning"
  | statistical_fallback => "statistical_fallback"
  end.

(** The dictionary a detection returns; [method_tag] and [error] are the
    keys that only some of the paths set. *)
Record analysis : Type := Analysis {
  anomaly_score : R;
  status_of : status;
  patterns : list pattern;
  predictions : list prediction;
  method_tag : option method;
  error : option Py.exn
}.

Section Detection.

(** The optional model backend: whether scikit-learn could be
    imported, and what fitting the scaler and the isolation forest on
    the historical vectors and scoring the current one gives: the
    decision-function score and whether the forest predicts -1, or an
    exception. *)
Variable SKLEARN_AVAILABLE : bool.
Variable model_fit_score :
  list (list R) → list R → Py.result (R * bool).

Definition ml_anomaly_detection (current_features : list R)
    (historical_features : list (list R)) : analysis :=
  match model_fit_score historical_features current_features with
  | Py.Ok (score, is_anomaly) =>
      {| anomaly_score := score;
         status_of := if is_anomaly then ANOMALY_DETECTED else NORMAL;
         patterns := detect_ml_patterns historical_features;
         predictions := ml_predictions historical_features;
         method_tag := Some machine_learning;
         error := None |}
  | Py.Raise e =>
      let fallback :=
        simple_anomaly_detection current_features historical_features in
      {| anomaly_score := fst fallback;
         status_of := snd fallback;
         patterns := [];
         predictions := [];
         method_tag := Some statistical_fallback;
         error := Some e |}
  end.

(** What the analysis of a stored sequence returns (the code after the
    append). *)
Definition analyse (current_features : list R) (sequence : list sample)
    : analysis :=
  if (length sequence <? 5)%nat then
    {| anomaly_score := 0;
       status_of := LEARNING;
       patterns := [];
       predictions := [];
       method_tag := None;
       error := None |}
  else
    let historical_features :=
      map features (take (length sequence - 1) sequence) in
    if SKLEARN_AVAILABLE && (10 <=? length historical_features)%nat
    then ml_anomaly_detection current_features historical_features
    else
      let scored :=
        simple_anomaly_detection current_features historical_features in
      {| anomaly_score := fst scored;
         status_of := snd scored;
         patterns := detect_trends sequence;
         predictions := simple_predictions sequence;
         method_tag := Some statistical;
         error := None |}.

(** [detect_memory_patterns] on the state [memory_sequences['global']]:
    the new state and what the call returns or raises. *)
Definition detect_memory_patterns (sequence : list sample)
    (d : memory_data) : list sample * Py.result analysis :=
  match extract_features d with
  | Py.Raise e => (sequence, Py.Raise e)
  | Py.Ok current_features =>
      let sequence' :=
        History.append 100 sequence
          (Sample (timestamp d) current_features) in
      (sequence', Py.Ok (analyse current_features sequence'))
  end.

End Detection.

End Detector.

(** ** The memory monitor ([memory_monitor.py]) *)

Module Monitor.

(** One entry of [get_process_memory()]. *)
Record process : Type := Process {
  pid : Z;
  name : string;
  rss : R;
  vms : R;
  percent : R;
  shared : R;
  data : R;
  stack : R
}.

(** [self.history]: a [defaultdict] of [deque(maxlen=100)], keyed by
    pid. *)
Record leak : Type := Leak {
  leak_pid : Z;
  leak_name : string;
  growth_rate : Np.xreal;
  current_memory : R;
  risk_level : Detector.severity
}.

(** The body of the loop of [detect_memory_leak] for one process: the
    history after it and the leaks it adds. *)
Definition detect_memory_leak_step (history : gmap Z (list R))
    (proc : process) : gmap Z (list R) * list leak :=
  let history' := History.record 100 history (pid proc) (rss proc) in
  let data := History.window history' (pid proc) in
  if (10 <=? length data)%nat && (1 <? length data)%nat then
    let slope := fst (Np.polyfit1 (Np.arange (length data)) data) in
    let avg_increase :=
      Np.times (Np.divide (Np.Finite slope) (Np.mean data)) 100 in
    if Np.gt avg_increase 5 then
      (history',
       [Leak (pid proc) (name proc) avg_increase (rss proc)
          (if Np.gt avg_increase 10
           then Detector.HIGH else Detector.MEDIUM)])
    else (history', [])
  else (history', []).

(** [detect_memory_leak]: the first twenty processes, in order. *)
Definition detect_memory_leak (history : gmap Z (list R))
    (process_data : list process) : gmap Z (list R) * list leak :=
  foldl (fun '(h, leaks) proc =>
           let '(h', found) := detect_memory_leak_step h proc in
           (h', leaks ++ found))
        (history, []) (take 20 process_data).

Record fingerprint : Type := Fingerprint {
  memory_ratio : R;
  shared_ratio : R;
  data_ratio : R;
  stack_ratio : R
}.

(** [calculate_memory_fingerprint]: every ratio is guarded. *)
Definition calculate_memory_fingerprint (proc : process) : fingerprint :=
  {| memory_ratio := if decide (vms proc > 0) then rss proc / vms proc else 0;
     shared_ratio :=
       if decide (rss proc > 0) then shared proc / rss proc else 0;
     data_ratio := if decide (rss proc > 0) then data proc / rss proc else 0;
     stack_ratio :=
       if decide (rss proc > 0) then stack proc / rss proc else 0 |}.

End Monitor.

(** ** The process tracker ([process_tracker.py]) *)

Module Tracker.

(** One entry of a process history, as [get_detailed_process_info]
    builds it. *)
Record proc_info : Type := ProcInfo {
  pid : Z;
  name : string;
  rss : R;
  vms : R;
  shared : R;
  data_segment : R;
  stack_segment : R;
  memory_percent : R;
  cpu_percent : R;
  num_threads : R;
  memory_maps_count : R;
  timestamp : string
}.

(** [self.process_histories]: a [defaultdict] of [deque(maxlen=200)]. *)
Definition maxlen : nat := 200.

(** [self.process_histories[pid].append(proc_info)] *)
Definition record_sample (histories : gmap Z (list proc_info))
    (info : proc_info) : gmap Z (list proc_info) :=
  History.record maxlen histories (pid info) info.

(** [calculate_growth_rate]: the slope of the fitted line over the mean,
    0 for fewer than two values or a mean that is not positive. *)
Definition calculate_growth_rate (memory_values : list R) : R :=
  if (length memory_values <? 2)%nat then 0
  else
    let slope :=
      fst (Np.polyfit1 (Np.arange (length memory_values)) memory_values) in
    let avg_memory := Np.mean memory_values in
    if decide (avg_memory > 0) then slope / avg_memory else 0.

(** The rows of [features_array]: one per entry with a positive rss. *)
Definition feature_row (entry : proc_info) : list R :=
  [rss entry;
   vms entry;
   if decide (rss entry > 0) then shared entry / rss entry else 0;
   if decide (rss entry > 0) then data_segment entry / rss entry else 0;
   if decide (rss entry > 0) then stack_segment entry / rss entry else 0;
   memory_percent entry;
   cpu_percent entry;
   num_threads entry;
   memory_maps_count entry].

Definition feature_rows (process_history : list proc_info)
    : list (list R) :=
  map feature_row (filter (fun entry => rss entry > 0) process_history).

(** [calculate_pattern_complexity]: the mean over the columns of the
    standard deviation of the column divided by its maximum plus
    1e-10 (a divisor that is not zero for the non-negative metrics the
    collector delivers). *)
Definition calculate_pattern_complexity (features_array : list (list R))
    : R :=
  Np.mean
    (map (fun j =>
            let col := Np.column j features_array in
            Np.std (map (fun x => x / (Py.max col + 1e-10)) col))
         (seq 0 (Np.width features_array))).

(** [cpu_correlation]: the correlation coefficient, or the integer 0 of
    the [else] branch when there is a single row. *)
Inductive correlation : Type :=
| Corr (r : Np.xreal)
| IntZero.

Record dna_pattern : Type := DnaPattern {
  mean_rss : R;
  std_rss : R;
  mean_vms : R;
  std_vms : R;
  avg_shared_ratio : R;
  avg_data_ratio : R;
  avg_stack_ratio : R;
  memory_variability : R;
  cpu_correlation : correlation;
  thread_stability : R;
  map_count_avg : R;
  growth_rate : R;
  pattern_complexity : R
}.

(** The statistics of [calculate_process_dna], [None] where the code
    returns [None]: fewer than five entries, or none with a positive
    rss. *)
Definition dna_statistics (process_history : list proc_info)
    : option dna_pattern :=
  if (length process_history <? 5)%nat then None
  else
    let features_array := feature_rows process_history in
    match features_array with
    | [] => None
    | _ =>
        let col j := Np.column j features_array in
        Some {| mean_rss := Np.mean (col 0%nat);
                std_rss := Np.std (col 0%nat);
                mean_vms := Np.mean (col 1%nat);
                std_vms := Np.std (col 1%nat);
                avg_shared_ratio := Np.mean (col 2%nat);
                avg_data_ratio := Np.mean (col 3%nat);
                avg_stack_ratio := Np.mean (col 4%nat);
                memory_variability := Np.std (col 5%nat);
                cpu_correlation :=
                  if (1 <? length features_array)%nat
                  then Corr (Np.corrcoef (col 0%nat) (col 6%nat))
                  else IntZero;
                thread_stability := Np.std (col 7%nat);
                map_count_avg := Np.mean (col 8%nat);
                growth_rate := calculate_growth_rate (col 0%nat);
                pattern_complexity :=
                  calculate_pattern_complexity features_array |}
    end.

Inductive anomaly : Type :=
| MEMORY_LEAK (severity : Detector.severity) (rate : R)
| UNUSUAL_MEMORY_USAGE (current_avg expected_avg : R)
| THREAD_INSTABILITY (thread_variation : R).

(** The leak check of [detect_memory_anomalies]. *)
Definition memory_leak_check (pattern : dna_pattern) : list anomaly :=
  if decide (growth_rate pattern > 0.05)
  then [MEMORY_LEAK
          (if decide (growth_rate pattern > 0.1)
           then Detector.HIGH else Detector.MEDIUM)
          (growth_rate pattern)]
  else [].

Definition unusual_usage_check (pattern : dna_pattern)
    (recent_history : list proc_info) : list anomaly :=
  match recent_history with
  | [] => []
  | _ =>
      let current_avg := Np.mean (map rss recent_history) in
      let expected_avg := mean_rss pattern in
      if decide (Rabs (current_avg - expected_avg) > 2 * std_rss pattern)
      then [UNUSUAL_MEMORY_USAGE current_avg expected_avg]
      else []
  end.

Definition thread_check (pattern : dna_pattern) : list anomaly :=
  if decide (thread_stability pattern > 5)
  then [THREAD_INSTABILITY (thread_stability pattern)]
  else [].

Inductive report_status : Type :=
| insufficient_data
| insufficient_recent_data
| analyzed.

(** [detect_memory_anomalies] for a process whose stored fingerprint
    statistics are [dna] (absent: the pid is not in [process_dna]). *)
Definition detect_memory_anomalies (dna : option dna_pattern)
    (history : list proc_info) : report_status * list anomaly :=
  match dna with
  | None => (insufficient_data, [])
  | Some pattern =>
      let recent_history := History.last_n 10 history in
      if (length recent_history <? 5)%nat
      then (insufficient_recent_data, [])
      else
        (analyzed,
         memory_leak_check pattern
         ++ unusual_usage_check pattern recent_history
         ++ thread_check pattern)
  end.

End Tracker.

(** ** Binary64 floats and their text *)

Module Double.

Local Open Scope Z_scope.

(** The double with the given sign and value [m * 2^e]. *)
Definition make (negative : bool) (m : positive) (e : Z) : PrimFloat.float :=
  FloatOps.SF2Prim (SpecFloat.S754_finite negative m e).

Definition pow10 (k : Z) : Z := 10 ^ Z.max k 0.
Definition pow2 (k : Z) : Z := 2 ^ Z.max k 0.

(** [d * 10^k] compared with [c * 2^e], all of them integers, [d] and [c]
    positive. *)
Definition compare_scaled (d k c e : Z) : comparison :=
  (d * pow10 k * pow2 (- e)) ?= (c * pow2 e * pow10 (- k)).

(** The decimal point of [x = m * 2^e]: the [p] with
    [10^(p-1) <= x < 10^p]. *)
Definition below_pow10 (m e p : Z) : bool :=
  match compare_scaled 1 p m e with Gt => true | _ => false end.

Fixpoint raise_point (fuel : nat) (m e p : Z) : Z :=
  match fuel with
  | O => p
  | S fuel' => if below_pow10 m e p then p else raise_point fuel' m e (p + 1)
  end.

Fixpoint lower_point (fuel : nat) (m e p : Z) : Z :=
  match fuel with
  | O => p
  | S fuel' =>
      if below_pow10 m e (p - 1) then lower_point fuel' m e (p - 1) else p
  end.

Definition decimal_point (m e : Z) : Z :=
  let estimate := (Z.log2 m + e) * 30103 / 100000 + 1 in
  lower_point 4 m e (raise_point 4 m e estimate).

(** Whether the decimal [d * 10^k] reads back as the double [m * 2^e]:
    it lies between the midpoints to the neighbouring doubles, the
    midpoints themselves included when [m] is even. *)
Definition reads_back (m e d k : Z) : bool :=
  let lower_gap := if (m =? 2 ^ 52) && (-1074 <? e) then 1 else 2 in
  let inclusive := Z.even m in
  let above_low :=
    match compare_scaled d k (4 * m - lower_gap) (e - 2) with
    | Gt => true | Eq => inclusive | Lt => false
    end in
  let below_high :=
    match compare_scaled d k (4 * m + 2) (e - 2) with
    | Lt => true | Eq => inclusive | Gt => false
    end in
  above_low && below_high.

(** The best decimal with [n] digits, if one reads back: the one of the
    two neighbours of [x] at that precision that is closer to [x]. *)
Definition candidate (m e p : Z) (n : Z) : option (Z * Z) :=
  let k := p - n in
  let below := (m * pow2 e * pow10 (- k)) / (pow2 (- e) * pow10 k) in
  let above := below + 1 in
  let ok_below := (0 <? below) && reads_back m e below k in
  let ok_above := reads_back m e above k in
  if ok_below && ok_above then
    match compare_scaled (below + above) k (8 * m) (e - 2) with
    | Lt => Some (above, k)
    | Gt => Some (below, k)
    | Eq => Some (if Z.even below then below else above, k)
    end
  else if ok_below then Some (below, k)
  else if ok_above then Some (above, k)
  else None.

Fixpoint shortest (fuel : nat) (m e p n : Z) : Z * Z :=
  match fuel with
  | O => (m, 0)
  | S fuel' =>
      match candidate m e p n with
      | Some dk => dk
      | None => shortest fuel' m e p (n + 1)
      end
  end.

Fixpoint strip_zeros (fuel : nat) (d k : Z) : Z * Z :=
  match fuel with
  | O => (d, k)
  | S fuel' =>
      if (d mod 10 =? 0) && (0 <? d) then strip_zeros fuel' (d / 10) (k + 1)
      else (d, k)
  end.

Definition digits (d : Z) : string :=
  DecimalString.NilZero.string_of_uint (N.to_uint (Z.to_N d)).

Definition zeros (n : Z) : string :=
  String.string_of_list_ascii (replicate (Z.to_nat n) "0"%char).

Definition pad2 (s : string) : string :=
  if (String.length s <? 2)%nat then "0" +:+ s else s.

(** [repr] of a positive finite double: the shortest digits that read
    back, in exponent notation when the decimal point is more than 16
    places to the right of the first digit or more than 3 to its left. *)
Definition repr_positive (m e : Z) : string :=
  let p := decimal_point m e in
  let '(d, k) := shortest 17 m e p 1 in
  let '(d, k) := strip_zeros 400 d k in
  let ds := digits d in
  let n := Z.of_nat (String.length ds) in
  let decpt := k + n in
  if (16 <? decpt) || (decpt <? -3) then
    let mantissa :=
      match ds with
      | String c EmptyString => String c EmptyString
      | String c rest => String c ("." +:+ rest)
      | EmptyString => EmptyString
      end in
    let exponent := decpt - 1 in
    mantissa +:+ "e" +:+ (if exponent <? 0 then "-" else "+")
      +:+ pad2 (digits (Z.abs exponent))
  else if decpt <=? 0 then
    "0." +:+ zeros (- decpt) +:+ ds
  else if n <=? decpt then
    ds +:+ zeros (decpt - n) +:+ ".0"
  else
    String.substring 0 (Z.to_nat decpt) ds +:+ "."
      +:+ String.substring (Z.to_nat decpt) (Z.to_nat (n - decpt)) ds.

(** [float.__repr__], with the spellings [json.dumps] uses for the
    values that are not finite. *)
Definition json_repr (x : PrimFloat.float) : string :=
  match FloatOps.Prim2SF x with
  | SpecFloat.S754_zero false => "0.0"
  | SpecFloat.S754_zero true => "-0.0"
  | SpecFloat.S754_infinity false => "Infinity"
  | SpecFloat.S754_infinity true => "-Infinity"
  | SpecFloat.S754_nan => "NaN"
  | SpecFloat.S754_finite negative m e =>
      (if negative then "-" else EmptyString) +:+ repr_positive (Z.pos m) e
  end.

End Double.


(** ** MD5 *)

Module Md5.

Local Open Scope Z_scope.

Definition mask (x : Z) : Z := Z.land x 4294967295.

Definition lnot (x : Z) : Z := Z.lxor x 4294967295.

Definition rotl (x c : Z) : Z :=
  mask (Z.lor (Z.shiftl x c) (Z.shiftr x (32 - c))).

Definition shifts : list Z :=
  [7; 12; 17; 22; 7; 12; 17; 22; 7; 12; 17; 22; 7; 12; 17; 22;
   5; 9; 14; 20; 5; 9; 14; 20; 5; 9; 14; 20; 5; 9; 14; 20;
   4; 11; 16; 23; 4; 11; 16; 23; 4; 11; 16; 23; 4; 11; 16; 23;
   6; 10; 15; 21; 6; 10; 15; 21; 6; 10; 15; 21; 6; 10; 15; 21].

(** [floor(2^32 * |sin(i + 1)|)] for i = 0, ..., 63. *)
Definition sines : list Z :=
  [3614090360; 3905402710; 606105819; 3250441966; 4118548399; 1200080426;
   2821735955; 4249261313; 1770035416; 2336552879; 4294925233; 2304563134;
   1804603682; 4254626195; 2792965006; 1236535329; 4129170786; 3225465664;
   643717713; 3921069994; 3593408605; 38016083; 3634488961; 3889429448;
   568446438; 3275163606; 4107603335; 1163531501; 2850285829; 4243563512;
   1735328473; 2368359562; 4294588738; 2272392833; 1839030562; 4259657740;
   2763975236; 1272893353; 4139469664; 3200236656; 681279174; 3936430074;
   3572445317; 76029189; 3654602809; 3873151461; 530742520; 3299628645;
   4096336452; 1126891415; 2878612391; 4237533241; 1700485571; 2399980690;
   4293915773; 2240044497; 1873313359; 4264355552; 2734768916; 1309151649;
   4149444226; 3174756917; 718787259; 3951481745].

Definition state : Type := Z * Z * Z * Z.

(** One of the 64 operations on the words [M] of a block. *)
Definition operation (M : list Z) (st : state) (i : nat) : state :=
  let '(a, b, c, d) := st in
  let z := Z.of_nat i in
  let '(f, g) :=
    if (i <? 16)%nat then (Z.lor (Z.land b c) (Z.land (lnot b) d), z)
    else if (i <? 32)%nat
    then (Z.lor (Z.land d b) (Z.land (lnot d) c), (5 * z + 1) mod 16)
    else if (i <? 48)%nat
    then (Z.lxor (Z.lxor b c) d, (3 * z + 5) mod 16)
    else (Z.lxor c (Z.lor b (lnot d)), (7 * z) mod 16) in
  let f' := mask (f + a + nth i sines 0 + nth (Z.to_nat g) M 0) in
  (d, mask (b + rotl f' (nth i shifts 0)), b, c).

(** The little-endian 32-bit words of a block of bytes. *)
Fixpoint words (count : nat) (bytes : list Z) : list Z :=
  match count with
  | O => []
  | S count' =>
      match bytes with
      | b0 :: b1 :: b2 :: b3 :: rest =>
          (b0 + 256 * b1 + 65536 * b2 + 16777216 * b3) :: words count' rest
      | _ => []
      end
  end.

Definition block (st : state) (bytes : list Z) : state :=
  let '(a0, b0, c0, d0) := st in
  let '(a, b, c, d) := foldl (operation (words 16 bytes)) st (seq 0 64) in
  (mask (a0 + a), mask (b0 + b), mask (c0 + c), mask (d0 + d)).

Fixpoint blocks (count : nat) (st : state) (bytes : list Z) : state :=
  match count with
  | O => st
  | S count' => blocks count' (block st (take 64 bytes)) (drop 64 bytes)
  end.

Definition little_endian (size : nat) (x : Z) : list Z :=
  map (fun i => Z.land (Z.shiftr x (8 * Z.of_nat i)) 255) (seq 0 size).

(** The message followed by the byte 0x80, zeros up to 56 modulo 64, and
    its length in bits on 8 bytes. *)
Definition pad (message : list Z) : list Z :=
  let len := Z.of_nat (length message) in
  message ++ [128] ++ replicate (Z.to_nat ((55 - len) mod 64)) 0
    ++ little_endian 8 (8 * len).

Definition hex_digit (x : Z) : string :=
  String.substring (Z.to_nat x) 1 "0123456789abcdef".

Definition hex_byte (x : Z) : string :=
  hex_digit (x / 16) +:+ hex_digit (x mod 16).

Definition bytes_of (s : string) : list Z :=
  map (fun c => Z.of_N (N_of_ascii c)) (String.list_ascii_of_string s).

(** [hashlib.md5(s.encode()).hexdigest()] for a string of ASCII
    characters. *)
Definition hexdigest (s : string) : string :=
  let padded := pad (bytes_of s) in
  let '(a, b, c, d) :=
    blocks (length padded / 64)
      (1732584193, 4023233417, 2562383102, 271733878) padded in
  String.concat EmptyString
    (map hex_byte
       (little_endian 4 a ++ little_endian 4 b ++ little_endian 4 c
        ++ little_endian 4 d)).

End Md5.


(** ** JSON text of a dictionary of numbers *)

Module Json.

Local Open Scope Z_scope.

Inductive number : Type :=
| Float (x : PrimFloat.float)
| Int (z : Z).







End Json.

(** ** The fingerprint hash ([calculate_process_dna]) *)

Module Fingerprint.

(** The dictionary [dna_pattern] as the code holds it: doubles, and for
    [cpu_correlation] a double or the integer 0. *)
Record statistics : Type := Statistics {
  mean_rss : PrimFloat.float;
  std_rss : PrimFloat.float;
  mean_vms : PrimFloat.float;
  std_vms : PrimFloat.float;
  avg_shared_ratio : PrimFloat.float;
  avg_data_ratio : PrimFloat.float;
  avg_stack_ratio : PrimFloat.float;
  memory_variability : PrimFloat.float;
  cpu_correlation : Json.number;
  thread_stability : PrimFloat.float;
  map_count_avg : PrimFloat.float;
  growth_rate : PrimFloat.float;
  pattern_complexity : PrimFloat.float
}.

(** Its items, in the order of the dictionary display. *)
Definition items (p : statistics) : list (string * Json.number) :=
  [("mean_rss", Json.Float (mean_rss p));
   ("std_rss", Json.Float (std_rss p));
   ("mean_vms", Json.Float (mean_vms p));
   ("std_vms", Json.Float (std_vms p));
   ("avg_shared_ratio", Json.Float (avg_shared_ratio p));
   ("avg_data_ratio", Json.Float (avg_data_ratio p));
   ("avg_stack_ratio", Json.Float (avg_stack_ratio p));
   ("memory_variability", Json.Float (memory_variability p));
   ("cpu_correlation", cpu_correlation p);
   ("thread_stability", Json.Float (thread_stability p));
   ("map_count_avg", Json.Float (map_count_avg p));
   ("growth_rate", Json.Float (growth_rate p));
   ("pattern_complexity", Json.Float (pattern_complexity p))].




Section Computed.

(** The thirteen statistics as NumPy computes them, in binary64, from the
    entries of positive resident size.  The arithmetic of NumPy is outside
    the model: the hash is studied as a function of the doubles it is
    given, whatever the computation that produces them from the
    history. *)
Variable numpy_statistics : list Tracker.proc_info → statistics.


End Computed.

End Fingerprint.

(** ** Insights ([generate_insights]) *)

Module Insights.

(** The messages of [generate_insights], by kind; a message that displays
    a number carries it (the slope, the period, the predicted usage). *)
Inductive insight : Type :=
| CriticalAnomaly
| UnusualPatterns
| MinorIrregularities
| TrendingUpward (slope : R)
| PeriodicDetected (period : nat)
| HighVariability
| PredictedHigh (usage : R).

Definition status_insights (s : Detector.status) : list insight :=
  match s with
  | Detector.HIGH_ANOMALY => [CriticalAnomaly]
  | Detector.MEDIUM_ANOMALY => [UnusualPatterns]
  | Detector.LOW_ANOMALY => [MinorIrregularities]
  | _ => []
  end.

Definition pattern_insights (p : Detector.pattern) : list insight :=
  match p with
  | Detector.INCREASING_MEMORY_USAGE slope _ => [TrendingUpward slope]
  | Detector.PERIODIC_PATTERN period _ => [PeriodicDetected period]
  | Detector.HIGH_VARIABILITY _ => [HighVariability]
  | Detector.DECREASING_MEMORY_USAGE _ _ => []
  end.

(** Only a prediction that has the key [predicted_memory_usage] is
    looked at. *)
Definition prediction_insights (p : Detector.prediction) : list insight :=
  match p with
  | Detector.UsagePrediction _ usage _ =>
      if decide (usage > 90) then [PredictedHigh usage] else []
  | Detector.TrendPrediction _ _ => []
  end.

Definition generate_insights (analysis_result : Detector.analysis)
    : list insight :=
  status_insights (Detector.status_of analysis_result)
  ++ concat (map pattern_insights (Detector.patterns analysis_result))
  ++ concat (map prediction_insights
               (take 2 (Detector.predictions analysis_result))).

End Insights.

(** ** The monitor's anomalies and suggestions ([memory_monitor.py]) *)

Module MonitorAnalysis.

(** The keys of a fingerprint, in the order of the dictionary. *)
Inductive metric : Type :=
| memory_ratio
| shared_ratio
| data_ratio
| stack_ratio.

Definition metrics : list metric :=
  [memory_ratio; shared_ratio; data_ratio; stack_ratio].

(** [fingerprint[metric]] *)
Definition value (f : Monitor.fingerprint) (m : metric) : R :=
  match m with
  | memory_ratio => Monitor.memory_ratio f
  | shared_ratio => Monitor.shared_ratio f
  | data_ratio => Monitor.data_ratio f
  | stack_ratio => Monitor.stack_ratio f
  end.

(** One entry of [self.process_patterns]. *)
Record pattern_entry : Type := PatternEntry {
  samples : list Monitor.fingerprint;
  name : string
}.

Record anomaly : Type := Anomaly {
  anomaly_pid : Z;
  anomaly_name : string;
  anomaly_metric : metric;
  z_score : R;
  current_value : R;
  expected_mean : R;
  expected_std : R;
  severity : Detector.severity
}.

(** [self.anomaly_threshold] *)
Definition anomaly_threshold : R := 2.0.

(** The anomaly of one metric, if any, of the current fingerprint against
    the stored ones ([patterns], the current one last). *)
Definition metric_anomaly (proc : Monitor.process)
    (fingerprint : Monitor.fingerprint)
    (patterns : list Monitor.fingerprint) (m : metric) : list anomaly :=
  let values :=
    map (fun p => value p m) (take (length patterns - 1) patterns) in
  match values with
  | [] => []
  | _ =>
      let mean := Np.mean values in
      let std := Np.std values in
      if decide (std > 0) then
        let z := Rabs (value fingerprint m - mean) / std in
        if decide (z > anomaly_threshold) then
          [Anomaly (Monitor.pid proc) (Monitor.name proc) m z
             (value fingerprint m) mean std
             (if decide (z > 3) then Detector.HIGH else Detector.MEDIUM)]
        else []
      else []
  end.

(** The body of the loop of [detect_anomalies] for one process. *)
Definition detect_anomalies_step (process_patterns : gmap Z pattern_entry)
    (proc : Monitor.process) : gmap Z pattern_entry * list anomaly :=
  let fingerprint := Monitor.calculate_memory_fingerprint proc in
  let entry :=
    default (PatternEntry [] (Monitor.name proc))
      (process_patterns !! Monitor.pid proc) in
  let patterns := History.append 20 (samples entry) fingerprint in
  let process_patterns' :=
    <[Monitor.pid proc := PatternEntry patterns (name entry)]>
      process_patterns in
  if (5 <=? length patterns)%nat then
    (process_patterns',
     concat (map (metric_anomaly proc fingerprint patterns) metrics))
  else (process_patterns', []).

(** [detect_anomalies]: the first fifty processes, in order. *)
Definition detect_anomalies (process_patterns : gmap Z pattern_entry)
    (current_data : list Monitor.process)
    : gmap Z pattern_entry * list anomaly :=
  foldl (fun '(patterns, anomalies) proc =>
           let '(patterns', found) := detect_anomalies_step patterns proc in
           (patterns', anomalies ++ found))
        (process_patterns, []) (take 50 current_data).

(** What [generate_optimization_suggestions] reads of
    [system_mem]. *)
Record system_memory : Type := SystemMemory {
  physical_percent : R;
  physical_total : R;
  physical_cached : R;
  swap_percent : R
}.

Inductive suggestion : Type :=
| HighMemoryUsage (percent : R)
| HighSwapUsage (percent : R)
| HeavyProcess (pid : Z) (process : string) (proc_percent : R)
| LowCacheUtilization.

(** The keys [type] and [priority] of a suggestion. *)
Inductive suggestion_type : Type := SYSTEM | PROCESS | CACHE.

Definition type_of (s : suggestion) : suggestion_type :=
  match s with
  | HighMemoryUsage _ | HighSwapUsage _ => SYSTEM
  | HeavyProcess _ _ _ => PROCESS
  | LowCacheUtilization => CACHE
  end.

Definition priority (s : suggestion) : Detector.severity :=
  match s with
  | HighMemoryUsage _ => Detector.HIGH
  | HighSwapUsage _ | HeavyProcess _ _ _ => Detector.MEDIUM
  | LowCacheUtilization => Detector.LOW
  end.

(** The loop over the first ten processes: the share of each in the total
    resident size, a Python division. *)
Fixpoint process_suggestions (total_mem : R) (procs : list Monitor.process)
    : Py.result (list suggestion) :=
  match procs with
  | [] => mret []
  | proc :: rest =>
      share ← Py.div (Monitor.rss proc) total_mem;
      let proc_percent := share * 100 in
      others ← process_suggestions total_mem rest;
      mret ((if decide (proc_percent > 20)
             then [HeavyProcess (Monitor.pid proc) (Monitor.name proc)
                     proc_percent]
             else []) ++ others)
  end.

Definition generate_optimization_suggestions (system_mem : system_memory)
    (process_data : list Monitor.process) : Py.result (list suggestion) :=
  let system_suggestions :=
    (if decide (physical_percent system_mem > 80)
     then [HighMemoryUsage (physical_percent system_mem)] else [])
    ++ (if decide (swap_percent system_mem > 50)
        then [HighSwapUsage (swap_percent system_mem)] else []) in
  let total_mem := Np.sum (map Monitor.rss process_data) in
  heavy ← process_suggestions total_mem (take 10 process_data);
  cache_ratio ← Py.div (physical_cached system_mem)
                  (physical_total system_mem);
  mret (system_suggestions ++ heavy
        ++ (if decide (cache_ratio < 0.1) then [LowCacheUtilization] else [])).

End MonitorAnalysis.

(** ** Tracking ([track_processes], [update_process_dna]) *)

Module Tracking.

(** The tracker's state: the process histories and the statistics of the
    fingerprints in [self.process_dna]. *)
Record state : Type := State {
  process_histories : gmap Z (list Tracker.proc_info);
  process_dna : gmap Z Tracker.dna_pattern
}.

Definition initial : state := State ∅ ∅.

(** [update_process_dna]; [stored] tells whether the database statements
    succeeded: the fingerprint is cached after them, inside the same
    [try]. *)
Definition update_process_dna (stored : bool) (st : state) (pid : Z)
    : state :=
  let history := History.window (process_histories st) pid in
  if (length history <? 5)%nat then st
  else
    match Tracker.dna_statistics history with
    | None => st
    | Some pattern =>
        if stored
        then State (process_histories st) (<[pid := pattern]> (process_dna st))
        else st
    end.

(** What the loop of [track_processes] does with one process
    information. *)
Definition track_one (stored : bool) (st : state) (info : Tracker.proc_info)
    : state :=
  let st' :=
    State (Tracker.record_sample (process_histories st) info)
      (process_dna st) in
  let pid := Tracker.pid info in
  if (length (History.window (process_histories st') pid) mod 10 =? 0)%nat
  then update_process_dna stored st' pid
  else st'.

(** [detect_memory_anomalies(pid)] on the state. *)
Definition detect_memory_anomalies (st : state) (pid : Z)
    : Tracker.report_status * list Tracker.anomaly :=
  Tracker.detect_memory_anomalies (process_dna st !! pid)
    (History.window (process_histories st) pid).

End Tracking.

(** ** Notions the properties are stated with *)

(** The sum of squared residuals of the line [a * x + b] on the points
    [(x, y)]: what an ordinary-least-squares fit minimises. *)
Definition squared_error (xs ys : list R) (a b : R) : R :=
  Np.sum (zip_with (fun x y => (y - (a * x + b)) * (y - (a * x + b))) xs ys).

(** The autocorrelation at lag [k] of the values [xs]. *)
Definition lag_product (xs : list R) (k : nat) : R :=
  Np.sum (map (fun i => nth (i + k) xs 0 * nth i xs 0)
              (seq 0 (length xs - k))).

(** A lag is a peak when its autocorrelation is greater than that of both
    neighbouring lags. *)
Definition is_peak (ac : list R) (i : nat) : Prop :=
  nth i ac 0 > nth (i - 1) ac 0 ∧ nth i ac 0 > nth (i + 1) ac 0.




(** The sample a detection call stores, if feature extraction returns, and
    the sequence after a series of calls from the empty one. *)
Definition stored_sample (d : Detector.memory_data) : option Detector.sample :=
  match Detector.extract_features d with
  | Py.Ok current_features =>
      Some (Detector.Sample (Detector.timestamp d) current_features)
  | Py.Raise _ => None
  end.

Definition detector_run (sklearn : bool)
    (backend : list (list R) → list R → Py.result (R * bool))
    (calls : list Detector.memory_data) : list Detector.sample :=
  foldl (fun sequence d =>
           (Detector.detect_memory_patterns sklearn backend sequence d).1)
        [] calls.

(** What a leak reported for a process of the scan satisfies. *)
Definition leak_of (proc : Monitor.process) (l : Monitor.leak) : Prop :=
  Monitor.leak_pid l = Monitor.pid proc ∧
  Monitor.leak_name l = Monitor.name proc ∧
  Monitor.current_memory l = Monitor.rss proc ∧
  Np.gt (Monitor.growth_rate l) 5 = true ∧
  Monitor.risk_level l
  = (if Np.gt (Monitor.growth_rate l) 10
     then Detector.HIGH else Detector.MEDIUM).


(** What an anomaly reported for a process of the scan satisfies: the
    current value of the metric lies more than two historical standard
    deviations from the historical mean. *)
Definition anomaly_of (proc : Monitor.process) (a : MonitorAnalysis.anomaly)
    : Prop :=
  MonitorAnalysis.anomaly_pid a = Monitor.pid proc ∧
  MonitorAnalysis.anomaly_name a = Monitor.name proc ∧
  MonitorAnalysis.current_value a
  = MonitorAnalysis.value (Monitor.calculate_memory_fingerprint proc)
      (MonitorAnalysis.anomaly_metric a) ∧
  MonitorAnalysis.expected_std a > 0 ∧
  MonitorAnalysis.z_score a
  = Rabs (MonitorAnalysis.current_value a - MonitorAnalysis.expected_mean a)
    / MonitorAnalysis.expected_std a ∧
  Rabs (MonitorAnalysis.current_value a - MonitorAnalysis.expected_mean a)
  > 2 * MonitorAnalysis.expected_std a ∧
  MonitorAnalysis.severity a
  = (if decide (MonitorAnalysis.z_score a > 3)
     then Detector.HIGH else Detector.MEDIUM).

(** The tracker's state after a series of samples, from the initial one;
    with each sample comes whether the database accepted the statements of
    [update_process_dna], should the sample trigger it. *)
Definition tracking_run (steps : list (bool * Tracker.proc_info))
    : Tracking.state :=
  foldl (fun st step => Tracking.track_one step.1 st step.2)
        Tracking.initial steps.
(** ** Inputs of the concrete instances *)

(** The sample data used for the concrete instances below: 8 units of
    memory, half of them available, no processes. *)
Definition sample_data : Detector.memory_data :=
  Detector.MemoryData "t0" (Detector.Physical 8 4 4 50) 10 [].

Definition sample_features : list R :=
  [50; 4 / 8; 10; 0; 0; 0; 0; Rmax 0 (Rmin 1 (1 - 4 / (8 - 4)))].

(** The memory sizes of the specification's example, about 5% growth per
    step. *)
Definition spec_sequence : list R :=
  [1000; 1050; 1102; 1157; 1215; 1276; 1339; 1406; 1477; 1551].

(** A process history with these resident sizes. *)
Definition history_of (sizes : list R) : list Tracker.proc_info :=
  map (fun size => Tracker.ProcInfo 42 "worker" size 0 0 0 0 0 0 1 0 "t")
      sizes.

(** A sequence of samples whose utilisation feature takes the given
    values. *)
Definition series (values : list R) : list Detector.sample :=
  map (fun v => Detector.Sample "t" [v]) values.

(** The sinusoid of period 5 and amplitude [A], sampled 20 times. *)
Definition wave (A : R) (i : nat) : R := A * sin (2 * PI * INR i / 5).

Definition sinusoid (A : R) : list R := map (wave A) (seq 0 20).

(** The same sinusoid around the level [c]. *)
Definition offset_sinusoid (c A : R) : list R := map (Rplus c) (sinusoid A).

(** The twenty samples are four repetitions of [0, s1, s2, -s2, -s1] with
    [s1 = A sin(2 pi / 5)] and [s2 = A sin(pi / 5)]. *)
Definition five_cycle (s1 s2 : R) : list R :=
  [0; s1; s2; - s2; - s1;  0; s1; s2; - s2; - s1;
   0; s1; s2; - s2; - s1;  0; s1; s2; - s2; - s1].

(** The autocorrelations of the cycle at the lags 0, ..., 19. *)
Definition five_cycle_autocorr (s1 s2 : R) : list R :=
  [8 * s1 * s1 + 8 * s2 * s2;  8 * s1 * s2 - 4 * s2 * s2;
   - 8 * s1 * s2 - 3 * s1 * s1;  - 4 * s1 * s1 - 6 * s1 * s2;
   6 * s1 * s2 - 3 * s2 * s2;  6 * s1 * s1 + 6 * s2 * s2;
   6 * s1 * s2 - 3 * s2 * s2;  - 6 * s1 * s2 - 2 * s1 * s1;
   - 3 * s1 * s1 - 4 * s1 * s2;  4 * s1 * s2 - 2 * s2 * s2;
   4 * s1 * s1 + 4 * s2 * s2;  4 * s1 * s2 - 2 * s2 * s2;
   - 4 * s1 * s2 - s1 * s1;  - 2 * s1 * s1 - 2 * s1 * s2;
   2 * s1 * s2 - s2 * s2;  2 * s1 * s1 + 2 * s2 * s2;
   2 * s1 * s2 - s2 * s2;  - 2 * s1 * s2;
   - s1 * s1;  0].

(** The two series of the counterexample: sparse spikes whose first peak
    is not the strongest, and two spikes eighteen samples apart. *)
Definition spikes : list R :=
  [1; 0; 1; 0; 0; 0; 0; 3; 0; 0; 0; 0; 3; 0; 0; 0; 0; 0; 0; 0].

Definition far_spikes : list R :=
  [1; 0; 0; 0; 0; 0; 0; 0; 0; 0; 0; 0; 0; 0; 0; 0; 0; 0; 1; 0].




(** * Properties *)

(** ** Bounded windows *)

Section Windows.

Context {A : Type}.
Implicit Types (w : list A) (x : A) (store : gmap Z (list A)).

Lemma append_below N w x :
  (length w < N)%nat → History.append N w x = w ++ [x].
Proof.
  intros Hlt. unfold History.append.
  rewrite length_app. simpl.
  destruct (Nat.ltb_spec N (length w + 1)); [lia | done].
Qed.

Lemma append_full N w x :
  (0 < N)%nat → length w = N → History.append N w x = drop 1 w ++ [x].
Proof.
  intros Hpos Hlen. unfold History.append.
  rewrite length_app. simpl.
  destruct (Nat.ltb_spec N (length w + 1)); [| lia].
  destruct w as [| y w']; simpl in *; [lia | done].
Qed.

Lemma append_length_bound N w x :
  (length w ≤ N)%nat → (length (History.append N w x) ≤ N)%nat.
Proof.
  intros Hle. unfold History.append.
  rewrite length_app. simpl.
  destruct (Nat.ltb_spec N (length w + 1)) as [Hgt | Hfit].
  - rewrite length_drop, length_app. simpl. lia.
  - rewrite length_app. simpl. lia.
Qed.

Lemma window_record N store key x :
  History.window (History.record N store key x) key
  = History.append N (History.window store key) x.
Proof.
  unfold History.record, History.window at 1.
  by rewrite lookup_insert_eq.
Qed.

Lemma window_record_other N store key key' x :
  key ≠ key' →
  History.window (History.record N store key x) key'
  = History.window store key'.
Proof.
  intros Hne. unfold History.record, History.window at 1 3.
  by rewrite lookup_insert_ne.
Qed.

(** Every window of a store built by appends stays within the
    capacity. *)
Lemma store_bounded N (ops : list (Z * A)) store key :
  (length (History.window store key) ≤ N)%nat →
  (length (History.window
             (foldl (fun s op => History.record N s op.1 op.2) store ops)
             key) ≤ N)%nat.
Proof.
  revert store. induction ops as [| [k x] ops IH]; intros store Hle.
  - done.
  - simpl. apply IH.
    destruct (decide (k = key)) as [-> | Hne].
    + rewrite window_record. by apply append_length_bound.
    + by rewrite window_record_other.
Qed.

End Windows.

Lemma append_last_n {A} (N : nat) (xs : list A) (x : A) :
  (0 < N)%nat →
  History.append N (History.last_n N xs) x = History.last_n N (xs ++ [x]).
Proof.
  intros Hpos. unfold History.append, History.last_n.
  rewrite !length_app, length_drop. simpl.
  destruct (decide (length xs < N)%nat) as [Hlt | Hge].
  - replace (length xs - N)%nat with 0%nat by lia.
    replace (length xs + 1 - N)%nat with 0%nat by lia.
    rewrite !drop_0.
    destruct (Nat.ltb_spec N (length xs - 0 + 1)); [lia | done].
  - destruct (Nat.ltb_spec N (length xs - (length xs - N) + 1)); [| lia].
    rewrite (drop_app_le xs [x] (length xs + 1 - N)) by lia.
    rewrite drop_app_le by (rewrite length_drop; lia).
    rewrite drop_drop. f_equal. f_equal. lia.
Qed.

Lemma last_n_nil {A} (N : nat) : History.last_n N ([] : list A) = [].
Proof. done. Qed.

(** The window of an entity after a series of appends holds the last [N]
    values appended for it. *)
Lemma window_is_recent {A : Type} (N : nat) (ops : list (Z * A)) (key : Z) :
  (0 < N)%nat →
  History.window (foldl (fun s op => History.record N s op.1 op.2) ∅ ops) key
  = History.last_n N (map snd (filter (fun op => op.1 = key) ops)).
Proof.
  intros Hpos. induction ops as [| [k x] ops IH] using rev_ind.
  - simpl. unfold History.window. by rewrite lookup_empty.
  - rewrite foldl_app, filter_app, map_app. cbn [foldl fst snd].
    destruct (decide (k = key)) as [-> | Hne].
    + rewrite filter_cons_True by done. rewrite filter_nil. cbn [map].
      rewrite window_record, IH. by apply append_last_n.
    + rewrite filter_cons_False by done. rewrite filter_nil. cbn [map].
      rewrite app_nil_r. by rewrite window_record_other.
Qed.

(** C4.  For every entity and every sequence of appends to a store of
    windows of capacity [N], the entity's window holds exactly the last
    [N] values appended for that entity, in the order of the appends.  So
    it never holds more than [N] entries and holds [N] of them once [N]
    have been appended; an append to a window that holds [N] entries gives
    the window without its first entry, in order, followed by the new one,
    an append to a shorter window adds the new entry at the end, and the
    windows of the other entities are left as they are. *)
Theorem history_window_bounded_fifo {A : Type} (N : nat)
    (ops : list (Z * A)) (key : Z) :
  (0 < N)%nat →
  let store := foldl (fun s op => History.record N s op.1 op.2) ∅ ops in
  let appended := map snd (filter (fun op => op.1 = key) ops) in
  (length (History.window store key) ≤ N)%nat ∧
  (∀ x : A,
     length (History.window store key) = N →
     History.window (History.record N store key x) key
     = drop 1 (History.window store key) ++ [x]) ∧
  History.window store key = History.last_n N appended ∧
  length (History.window store key) = Nat.min N (length appended) ∧
  ∀ x : A,
    History.window (History.record N store key x) key
    = History.last_n N (appended ++ [x]) ∧
    ((N ≤ length appended)%nat →
     History.window (History.record N store key x) key
     = drop 1 (History.window store key) ++ [x]) ∧
    ((length appended < N)%nat →
     History.window (History.record N store key x) key
     = History.window store key ++ [x]) ∧
    ∀ other : Z,
      other ≠ key →
      History.window (History.record N store key x) other
      = History.window store other.
Proof.
  intros Hpos store appended.
  assert (Hwindow : History.window store key = History.last_n N appended)
    by (by apply window_is_recent).
  assert (Hlen : length (History.window store key)
                 = Nat.min N (length appended)).
  { rewrite Hwindow. unfold History.last_n. rewrite length_drop. lia. }
  split; [lia |].
  split; [intros x Hfull; rewrite window_record; by apply append_full |].
  split; [exact Hwindow |]. split; [exact Hlen |].
  intros x. split; [| split; [| split]].
  - rewrite window_record, Hwindow. by apply append_last_n.
  - intros Hfull. rewrite window_record. apply append_full; [done | lia].
  - intros Hroom. rewrite window_record. apply append_below. lia.
  - intros other Hother. by apply window_record_other.
Qed.

(** The tracker's process histories hold at most 200 entries each, and the
    monitor's histories of resident sizes at most 100. *)
Lemma process_histories_bounded (samples : list Tracker.proc_info) (p : Z) :
  (length (History.window (foldl Tracker.record_sample ∅ samples) p)
   ≤ Tracker.maxlen)%nat.
Proof.
  assert (Hgen : ∀ histories,
            (length (History.window histories p) ≤ Tracker.maxlen)%nat →
            (length (History.window
                       (foldl Tracker.record_sample histories samples) p)
             ≤ Tracker.maxlen)%nat).
  { induction samples as [| info samples IH]; intros histories Hle; [done |].
    simpl. apply IH. unfold Tracker.record_sample.
    destruct (decide (Tracker.pid info = p)) as [<- | Hne].
    - rewrite window_record. by apply append_length_bound.
    - by rewrite window_record_other. }
  apply Hgen. unfold History.window. rewrite lookup_empty. simpl. lia.
Qed.

Lemma monitor_history_bounded (history : gmap Z (list R))
    (proc : Monitor.process) (p : Z) :
  (length (History.window history p) ≤ 100)%nat →
  (length (History.window (Monitor.detect_memory_leak_step history proc).1 p)
   ≤ 100)%nat.
Proof.
  intros Hle.
  assert (Hstep : (Monitor.detect_memory_leak_step history proc).1
                  = History.record 100 history (Monitor.pid proc)
                      (Monitor.rss proc)).
  { unfold Monitor.detect_memory_leak_step.
    repeat match goal with
           | |- context [if ?b then _ else _] => destruct b
           end; done. }
  rewrite Hstep.
  destruct (decide (Monitor.pid proc = p)) as [<- | Hne].
  - rewrite window_record. by apply append_length_bound.
  - by rewrite window_record_other.
Qed.

(** A window of capacity 2 after three appends for the entity 7 and one
    for another: it holds the last two values appended for 7, and a
    further append evicts the older of them. *)
Lemma history_window_bounded_fifo_witness :
  let ops := [(7%Z, 1%nat); (7%Z, 2%nat); (8%Z, 5%nat); (7%Z, 3%nat)] in
  let store :=
    foldl (fun s op => History.record 2 s op.1 op.2) (∅ : gmap Z (list nat))
      ops in
  (0 < 2)%nat ∧
  History.window store 7%Z = [2; 3]%nat ∧
  length (History.window store 7%Z) = 2%nat ∧
  History.window (History.record 2 store 7%Z 4%nat) 7%Z = [3; 4]%nat.
Proof.
  intros ops store.
  assert (Hpos : (0 < 2)%nat) by lia.
  destruct (history_window_bounded_fifo 2 ops 7%Z Hpos)
    as (_ & Hfifo & Hwindow & Hlen & _).
  fold store in Hfifo, Hwindow, Hlen.
  assert (Hcontent : History.window store 7%Z = [2; 3]%nat)
    by (rewrite Hwindow; reflexivity).
  assert (Hfull : length (History.window store 7%Z) = 2%nat)
    by (by rewrite Hcontent).
  split; [exact Hpos |]. split; [exact Hcontent |]. split; [exact Hfull |].
  rewrite (Hfifo 4%nat Hfull), Hcontent. reflexivity.
Defined.

(** ** The builtin [max] and the reductions along axis 0 *)

Lemma foldl_Rmax_ge_init (xs : list R) (x : R) : x <= foldl Rmax x xs.
Proof.
  revert x. induction xs as [| y xs IH]; intros x; simpl.
  - lra.
  - specialize (IH (Rmax x y)). pose proof (Rmax_l x y). lra.
Qed.

Lemma foldl_Rmax_upper (xs : list R) (x y : R) :
  y ∈ xs → y <= foldl Rmax x xs.
Proof.
  revert x. induction xs as [| a xs IH]; intros x Hin.
  - by apply elem_of_nil in Hin.
  - apply elem_of_cons in Hin as [-> | Hin]; simpl.
    + pose proof (foldl_Rmax_ge_init xs (Rmax x a)).
      pose proof (Rmax_r x a). lra.
    + by apply IH.
Qed.

Lemma foldl_Rmax_elem (xs : list R) (x : R) :
  foldl Rmax x xs = x ∨ foldl Rmax x xs ∈ xs.
Proof.
  revert x. induction xs as [| a xs IH]; intros x; simpl.
  - by left.
  - destruct (IH (Rmax x a)) as [Heq | Hin].
    + rewrite Heq. unfold Rmax. destruct (Rle_dec x a).
      * right. apply elem_of_cons. by left.
      * by left.
    + right. apply elem_of_cons. by right.
Qed.

Lemma py_max_upper (xs : list R) (y : R) : y ∈ xs → y <= Py.max xs.
Proof.
  destruct xs as [| x xs]; intros Hin.
  - by apply elem_of_nil in Hin.
  - simpl. apply elem_of_cons in Hin as [-> | Hin].
    + apply foldl_Rmax_ge_init.
    + by apply foldl_Rmax_upper.
Qed.

Lemma py_max_elem (xs : list R) : xs ≠ [] → Py.max xs ∈ xs.
Proof.
  destruct xs as [| x xs]; intros Hne; [done |].
  simpl. destruct (foldl_Rmax_elem xs x) as [-> | Hin].
  - apply elem_of_cons. by left.
  - apply elem_of_cons. by right.
Qed.

Lemma mean_axis0_lookup (rows : list (list R)) (j : nat) (m : R) :
  Np.mean_axis0 rows !! j = Some m
  ↔ (j < Np.width rows)%nat ∧ m = Np.mean (Np.column j rows).
Proof.
  unfold Np.mean_axis0. rewrite list_lookup_fmap.
  destruct (seq 0 (Np.width rows) !! j) as [k |] eqn:Hk; simpl.
  - apply lookup_seq in Hk as [-> Hlt]. simpl. split.
    + intros [= <-]. done.
    + intros [_ ->]. done.
  - split; [done |]. intros [Hlt _].
    assert (Hsome : seq 0 (Np.width rows) !! j = Some (0 + j)%nat)
      by (by apply lookup_seq).
    congruence.
Qed.

Lemma std_axis0_lookup (rows : list (list R)) (j : nat) (s : R) :
  Np.std_axis0 rows !! j = Some s
  ↔ (j < Np.width rows)%nat ∧ s = Np.std (Np.column j rows).
Proof.
  unfold Np.std_axis0. rewrite list_lookup_fmap.
  destruct (seq 0 (Np.width rows) !! j) as [k |] eqn:Hk; simpl.
  - apply lookup_seq in Hk as [-> Hlt]. simpl. split.
    + intros [= <-]. done.
    + intros [_ ->]. done.
  - split; [done |]. intros [Hlt _].
    assert (Hsome : seq 0 (Np.width rows) !! j = Some (0 + j)%nat)
      by (by apply lookup_seq).
    congruence.
Qed.

(** The z-scores are exactly the values [|current - mean| / std] of the
    features whose historical standard deviation is positive. *)
Lemma z_scores_elem (cur : list R) (hist : list (list R)) (z : R) :
  z ∈ Detector.z_scores cur hist
  ↔ ∃ (j : nat) (c : R),
      cur !! j = Some c ∧ (j < Np.width hist)%nat ∧
      Np.std (Np.column j hist) > 0 ∧
      z = Rabs (c - Np.mean (Np.column j hist)) / Np.std (Np.column j hist).
Proof.
  unfold Detector.z_scores. rewrite list_elem_of_omap. split.
  - intros [[[c m] s] [Hin Hz]].
    apply list_elem_of_lookup in Hin as [j Hj].
    apply lookup_zip_Some in Hj as [Hcm Hs].
    apply lookup_zip_Some in Hcm as [Hc Hm].
    apply mean_axis0_lookup in Hm as [Hlt ->].
    apply std_axis0_lookup in Hs as [_ ->].
    destruct (decide (Np.std (Np.column j hist) > 0)) as [Hpos |]; [| done].
    injection Hz as <-. by exists j, c.
  - intros (j & c & Hc & Hlt & Hpos & ->).
    exists (c, Np.mean (Np.column j hist), Np.std (Np.column j hist)).
    split.
    + apply list_elem_of_lookup. exists j.
      apply lookup_zip_Some. split.
      * apply lookup_zip_Some. split; [done |].
        by apply mean_axis0_lookup.
      * by apply std_axis0_lookup.
    + by rewrite decide_True.
Qed.

(** ** The statistical method *)

(** A history of one feature with mean 4 and standard deviation 2. *)
Lemma mean_71534 : Np.mean [7; 1; 5; 3; 4] = 4.
Proof. unfold Np.mean, Np.sum. simpl. lra. Qed.

Lemma std_71534 : Np.std [7; 1; 5; 3; 4] = 2.
Proof.
  unfold Np.std. rewrite mean_71534. unfold Np.mean, Np.sum. simpl.
  replace (_ / _) with (2 * 2) by lra.
  apply sqrt_square. lra.
Qed.

(** C1 (the claim as stated fails).  Five samples of two features, each
    with mean 4 and standard deviation 2, and a current vector one and
    half a standard deviation away: max_z is 1, the status is NORMAL, and
    the reported score is the mean z-score 0.75, not max_z. *)
Lemma statistical_score_is_not_always_max_z :
  let hist := [[7; 7]; [1; 1]; [5; 5]; [3; 3]; [4; 4]] in
  let cur := [6; 5] in
  (5 ≤ length hist)%nat ∧
  Np.std (Np.column 0 hist) > 0 ∧
  Detector.z_scores cur hist = [1; 0.5] ∧
  Py.max (Detector.z_scores cur hist) = 1 ∧
  Detector.simple_anomaly_detection cur hist = (0.75, Detector.NORMAL) ∧
  fst (Detector.simple_anomaly_detection cur hist)
  ≠ Py.max (Detector.z_scores cur hist).
Proof.
  intros hist cur.
  assert (Hz : Detector.z_scores cur hist = [1; 0.5]).
  { unfold Detector.z_scores, Np.mean_axis0, Np.std_axis0, Np.width.
    simpl. rewrite mean_71534, std_71534.
    rewrite !decide_True by lra.
    replace (6 - 4) with 2 by lra. replace (5 - 4) with 1 by lra.
    rewrite !Rabs_right by lra.
    f_equal; [lra | f_equal; lra]. }
  assert (Hmax : Py.max (Detector.z_scores cur hist) = 1).
  { rewrite Hz. simpl. apply Rmax_left. lra. }
  assert (Hres : Detector.simple_anomaly_detection cur hist
                 = (0.75, Detector.NORMAL)).
  { unfold Detector.simple_anomaly_detection.
    change (length hist <? 5)%nat with false. cbv iota.
    rewrite Hz. cbv zeta. rewrite <- Hz, Hmax, Hz.
    unfold Np.mean, Np.sum. simpl.
    rewrite !decide_False by lra. f_equal. lra. }
  split; [simpl; lia |].
  split; [simpl; rewrite std_71534; lra |].
  split; [exact Hz |]. split; [exact Hmax |]. split; [exact Hres |].
  rewrite Hres, Hmax. simpl. lra.
Qed.

(** C1 (as amended).  For a history of at least five samples in which a
    feature has a positive standard deviation, the z-scores are
    [|current - mean| / std] over the features with a positive standard
    deviation; the status is HIGH_ANOMALY if max_z > 3, else
    MEDIUM_ANOMALY if max_z > 2, else LOW_ANOMALY if mean_z > 1.5, else
    NORMAL; the reported score is max_z for HIGH_ANOMALY and
    MEDIUM_ANOMALY and mean_z for LOW_ANOMALY and NORMAL.  A feature that
    deviates by exactly 3.5 standard deviations gives HIGH_ANOMALY with
    score max_z, which is 3.5 unless another feature deviates more. *)
Theorem statistical_classification (cur : list R) (hist : list (list R)) :
  (5 ≤ length hist)%nat →
  (∃ j : nat, (j < length cur)%nat ∧ (j < Np.width hist)%nat ∧
              Np.std (Np.column j hist) > 0) →
  let zs := Detector.z_scores cur hist in
  let max_z := Py.max zs in
  let mean_z := Np.mean zs in
  let result := Detector.simple_anomaly_detection cur hist in
  (∀ z : R,
     z ∈ zs ↔
     ∃ (j : nat) (c : R),
       cur !! j = Some c ∧ (j < Np.width hist)%nat ∧
       Np.std (Np.column j hist) > 0 ∧
       z = Rabs (c - Np.mean (Np.column j hist))
           / Np.std (Np.column j hist)) ∧
  (max_z > 3 → result = (max_z, Detector.HIGH_ANOMALY)) ∧
  (max_z <= 3 → max_z > 2 → result = (max_z, Detector.MEDIUM_ANOMALY)) ∧
  (max_z <= 2 → mean_z > 1.5 → result = (mean_z, Detector.LOW_ANOMALY)) ∧
  (max_z <= 2 → mean_z <= 1.5 → result = (mean_z, Detector.NORMAL)) ∧
  (∀ (j : nat) (c : R),
     cur !! j = Some c → (j < Np.width hist)%nat →
     Np.std (Np.column j hist) > 0 →
     Rabs (c - Np.mean (Np.column j hist))
     = 3.5 * Np.std (Np.column j hist) →
     result = (max_z, Detector.HIGH_ANOMALY) ∧
     3.5 <= max_z ∧
     ((∀ z : R, z ∈ zs → z <= 3.5) → max_z = 3.5)).
Proof.
  intros Hlen (j0 & Hj0 & Hw0 & Hs0) zs max_z mean_z result.
  assert (Hne : zs ≠ []).
  { apply lookup_lt_is_Some in Hj0 as [c0 Hc0].
    assert (Hin : Rabs (c0 - Np.mean (Np.column j0 hist))
                  / Np.std (Np.column j0 hist) ∈ zs).
    { apply z_scores_elem. by exists j0, c0. }
    intros Hnil. rewrite Hnil in Hin. by apply elem_of_nil in Hin. }
  assert (Hres : result =
            if decide (max_z > 3) then (max_z, Detector.HIGH_ANOMALY)
            else if decide (max_z > 2) then (max_z, Detector.MEDIUM_ANOMALY)
            else if decide (mean_z > 1.5) then (mean_z, Detector.LOW_ANOMALY)
            else (mean_z, Detector.NORMAL)).
  { subst result. unfold Detector.simple_anomaly_detection.
    destruct (Nat.ltb_spec (length hist) 5) as [Hshort |]; [lia |].
    fold zs. subst max_z mean_z.
    destruct zs as [| z0 zs']; [done | done]. }
  split; [apply z_scores_elem |].
  split; [intros H; rewrite Hres; by rewrite decide_True |].
  split.
  { intros H3 H2. rewrite Hres.
    rewrite decide_False by lra. by rewrite decide_True. }
  split.
  { intros H2 Hm. rewrite Hres.
    rewrite !decide_False by lra. by rewrite decide_True. }
  split.
  { intros H2 Hm. rewrite Hres. by rewrite !decide_False by lra. }
  intros j c Hc Hw Hs Hdev.
  assert (Hin : 3.5 ∈ zs).
  { apply z_scores_elem. exists j, c. repeat split; try done.
    rewrite Hdev. field. lra. }
  assert (Hge : 3.5 <= max_z) by (by apply py_max_upper).
  split; [rewrite Hres; rewrite decide_True; [done | lra] |].
  split; [done |].
  intros Hall. apply Rle_antisym; [| done].
  apply Hall. by apply py_max_elem.
Qed.

(** A single feature with mean 4 and standard deviation 2, and the current
    value 11 = 4 + 3.5 * 2. *)
Lemma statistical_classification_witness :
  let hist := [[7]; [1]; [5]; [3]; [4]] in
  let cur := [11] in
  (5 ≤ length hist)%nat ∧
  (∃ j : nat, (j < length cur)%nat ∧ (j < Np.width hist)%nat ∧
              Np.std (Np.column j hist) > 0) ∧
  Detector.simple_anomaly_detection cur hist
  = (Py.max (Detector.z_scores cur hist), Detector.HIGH_ANOMALY) ∧
  3.5 <= Py.max (Detector.z_scores cur hist).
Proof.
  intros hist cur.
  assert (Hstd : Np.std (Np.column 0 hist) > 0).
  { simpl. rewrite std_71534. lra. }
  assert (Hex : ∃ j : nat, (j < length cur)%nat ∧ (j < Np.width hist)%nat ∧
                           Np.std (Np.column j hist) > 0).
  { exists 0%nat. repeat split; [simpl; lia | unfold Np.width; simpl; lia |].
    exact Hstd. }
  split; [simpl; lia |]. split; [exact Hex |].
  destruct (statistical_classification cur hist) as (_ & _ & _ & _ & _ & H35);
    [simpl; lia | exact Hex |].
  destruct (H35 0%nat 11) as (Hres & Hge & _).
  - done.
  - unfold Np.width. simpl. lia.
  - exact Hstd.
  - simpl. rewrite mean_71534, std_71534.
    replace (11 - 4) with 7 by lra. rewrite Rabs_right by lra. lra.
  - split; [exact Hres | exact Hge].
Defined.

(** ** Feature extraction *)

Lemma py_div_ok (a b : R) : b ≠ 0 → Py.div a b = Py.Ok (a / b).
Proof. intros Hb. unfold Py.div. by rewrite decide_False. Qed.

Lemma py_div_zero (a : R) : Py.div a 0 = Py.Raise Py.ZeroDivisionError.
Proof. unfold Py.div. by rewrite decide_True. Qed.

(** Whenever [extract_features] returns, it returns eight features. *)
Lemma extract_features_length (d : Detector.memory_data) (cur : list R) :
  Detector.extract_features d = Py.Ok cur → length cur = 8%nat.
Proof.
  unfold Detector.extract_features.
  set (sys_mem := Detector.system_physical d).
  destruct (decide (Detector.total sys_mem = 0)) as [Hzero | Hnz].
  { rewrite Hzero, (py_div_zero (Detector.available sys_mem)). done. }
  rewrite (py_div_ok (Detector.available sys_mem) (Detector.total sys_mem))
    by done.
  simpl.
  assert (Hfrag : ∀ (prefix process_features : list R),
            length prefix = 3%nat → length process_features = 4%nat →
            ((if decide (Detector.total sys_mem > 0)
              then q ← Py.div (Detector.available sys_mem)
                         (Detector.total sys_mem - Detector.used sys_mem);
                   mret (Rmax 0 (Rmin 1 (1 - q)))
              else mret 0) ≫= fun fragmentation =>
             mret (prefix ++ process_features ++ [fragmentation]))
            = Py.Ok cur → length cur = 8%nat).
  { intros prefix pf Hp Hpf.
    destruct (decide (Detector.total sys_mem > 0)).
    - destruct (decide (Detector.total sys_mem - Detector.used sys_mem = 0))
        as [Hz | Hz].
      + rewrite Hz, py_div_zero. done.
      + rewrite py_div_ok by done. simpl. intros [= <-].
        rewrite !length_app, Hp, Hpf. done.
    - simpl. intros [= <-]. rewrite !length_app, Hp, Hpf. done. }
  destruct (Detector.processes d) as [| p ps].
  - apply (Hfrag [_; _; _] [_; _; _; _]); done.
  - rewrite (py_div_ok _ (Detector.total sys_mem)) by done.
    apply (Hfrag [_; _; _] [_; _; _; _]); done.
Qed.

(** It returns when neither divisor is zero, and raises when one is. *)
Lemma extract_features_returns (d : Detector.memory_data) :
  let sys_mem := Detector.system_physical d in
  Detector.total sys_mem ≠ 0 →
  (Detector.total sys_mem > 0 →
   Detector.total sys_mem ≠ Detector.used sys_mem) →
  ∃ cur : list R, Detector.extract_features d = Py.Ok cur.
Proof.
  intros sys_mem Htotal Hused. unfold Detector.extract_features.
  fold sys_mem.
  rewrite !(py_div_ok _ (Detector.total sys_mem)) by done.
  destruct (Detector.processes d) as [| p ps];
    (destruct (decide (Detector.total sys_mem > 0)) as [Hpos |];
     [rewrite (py_div_ok _ (_ - _)) by (specialize (Hused Hpos); lra) |]);
    simpl; eauto.
Qed.

Lemma extract_features_zero_total (d : Detector.memory_data) :
  Detector.total (Detector.system_physical d) = 0 →
  Detector.extract_features d = Py.Raise Py.ZeroDivisionError.
Proof.
  intros Hzero. unfold Detector.extract_features.
  rewrite Hzero, (py_div_zero (Detector.available _)). done.
Qed.

Lemma extract_features_nothing_remaining (d : Detector.memory_data) :
  let sys_mem := Detector.system_physical d in
  Detector.total sys_mem > 0 →
  Detector.total sys_mem = Detector.used sys_mem →
  Detector.extract_features d = Py.Raise Py.ZeroDivisionError.
Proof.
  intros sys_mem Hpos Hused. unfold Detector.extract_features.
  fold sys_mem.
  rewrite !(py_div_ok _ (Detector.total sys_mem)) by lra.
  replace (Detector.total sys_mem - Detector.used sys_mem) with 0 by lra.
  rewrite py_div_zero, decide_True by done.
  by destruct (Detector.processes d) as [| p ps].
Qed.

(** The monitor's per-process ratios, by contrast, are all guarded: a
    ratio whose denominator is zero is 0. *)
Lemma calculate_memory_fingerprint_guarded (proc : Monitor.process) :
  let fingerprint := Monitor.calculate_memory_fingerprint proc in
  (Monitor.vms proc = 0 → Monitor.memory_ratio fingerprint = 0) ∧
  (Monitor.rss proc = 0 →
   Monitor.shared_ratio fingerprint = 0 ∧
   Monitor.data_ratio fingerprint = 0 ∧
   Monitor.stack_ratio fingerprint = 0).
Proof.
  unfold Monitor.calculate_memory_fingerprint. simpl. split.
  - intros Hz. by rewrite decide_False by lra.
  - intros Hz. by rewrite !decide_False by lra.
Qed.

(** C8.  [extract_features] is not total.  With a zero system-memory
    total the first ratio divides by zero and the call raises
    ZeroDivisionError, although the code's later test [total > 0] provides
    the value 0 for that case; with all memory used the
    available-over-remaining ratio divides by zero and the call raises as
    well.  An empty process list is handled: the four process features
    are 0. *)
Theorem extract_features_raises_on_zero_denominator :
  Detector.extract_features
    (Detector.MemoryData "t0" (Detector.Physical 0 0 0 0) 0 [])
  = Py.Raise Py.ZeroDivisionError ∧
  Detector.extract_features
    (Detector.MemoryData "t0" (Detector.Physical 8 0 8 100) 0
       [Detector.Process 8 100])
  = Py.Raise Py.ZeroDivisionError ∧
  Detector.extract_features
    (Detector.MemoryData "t0" (Detector.Physical 8 4 4 50) 10 [])
  = Py.Ok [50; 4 / 8; 10; 0; 0; 0; 0; Rmax 0 (Rmin 1 (1 - 4 / (8 - 4)))].
Proof.
  split; [| split].
  - by apply extract_features_zero_total.
  - apply extract_features_nothing_remaining; simpl; lra.
  - unfold Detector.extract_features. simpl.
    rewrite decide_True by lra.
    rewrite !py_div_ok by lra. done.
Qed.

(** ** Detection *)

Lemma extract_sample_data :
  Detector.extract_features sample_data = Py.Ok sample_features.
Proof.
  unfold Detector.extract_features, sample_data, sample_features. simpl.
  rewrite decide_True by lra.
  rewrite !py_div_ok by lra. done.
Qed.

Lemma detect_memory_patterns_ok sklearn backend sequence d cur :
  Detector.extract_features d = Py.Ok cur →
  Detector.detect_memory_patterns sklearn backend sequence d
  = (History.append 100 sequence (Detector.Sample (Detector.timestamp d) cur),
     Py.Ok (Detector.analyse sklearn backend cur
              (History.append 100 sequence
                 (Detector.Sample (Detector.timestamp d) cur)))).
Proof.
  intros Hcur. unfold Detector.detect_memory_patterns. by rewrite Hcur.
Qed.

(** The detector's sequence stays within 100 entries, and every stored
    vector has the eight features of [extract_features]. *)
Lemma detect_memory_patterns_bounded sklearn backend sequence d :
  (length sequence ≤ 100)%nat →
  (length (Detector.detect_memory_patterns sklearn backend sequence d).1
   ≤ 100)%nat.
Proof.
  intros Hle. unfold Detector.detect_memory_patterns.
  destruct (Detector.extract_features d) as [cur | e]; simpl; [| done].
  by apply append_length_bound.
Qed.

Lemma detect_memory_patterns_rectangular sklearn backend sequence d :
  Forall (fun item => length (Detector.features item) = 8%nat) sequence →
  Forall (fun item => length (Detector.features item) = 8%nat)
    (Detector.detect_memory_patterns sklearn backend sequence d).1.
Proof.
  intros Hall. unfold Detector.detect_memory_patterns.
  destruct (Detector.extract_features d) as [cur | e] eqn:Hcur; simpl;
    [| done].
  unfold History.append.
  assert (Hnew : Forall (fun item => length (Detector.features item) = 8%nat)
                   (sequence ++ [Detector.Sample (Detector.timestamp d) cur])).
  { apply Forall_app. split; [done |].
    apply Forall_singleton. simpl. by apply extract_features_length in Hcur. }
  destruct (_ <? _)%nat; [by apply Forall_drop | done].
Qed.

Lemma simple_status_cases (cur : list R) (hist : list (list R)) :
  let result := Detector.simple_anomaly_detection cur hist in
  ((length hist < 5)%nat →
   result = (0, Detector.Insufficient_historical_data)) ∧
  ((5 ≤ length hist)%nat →
   result.2 = Detector.NORMAL ∨ result.2 = Detector.LOW_ANOMALY ∨
   result.2 = Detector.MEDIUM_ANOMALY ∨ result.2 = Detector.HIGH_ANOMALY).
Proof.
  unfold Detector.simple_anomaly_detection.
  destruct (Nat.ltb_spec (length hist) 5); (split; [intros | intros]);
    try lia; try done.
  destruct (Detector.z_scores cur hist); [by left |].
  repeat destruct (decide _); simpl; auto.
Qed.





(** *** Samples are not validated *)

Lemma append_last {A} (N : nat) (w : list A) (x : A) :
  (0 < N)%nat → last (History.append N w x) = Some x.
Proof.
  intros Hpos. unfold History.append. rewrite length_app. simpl.
  destruct (Nat.ltb_spec N (length w + 1)) as [Hgt |].
  - destruct w as [| y w']; simpl in *; [lia |].
    rewrite drop_0. apply last_snoc.
  - apply last_snoc.
Qed.

(** C3 (the claim as stated fails).  A process with a negative resident
    size is recorded by the monitor, and a sample with a negative
    utilisation percentage is stored by the detector: both windows grow
    from empty to one entry and nothing is raised. *)
Lemma negative_sample_is_stored :
  let proc := Monitor.Process 42 "worker" (-1) 0 0 0 0 0 in
  let backend := fun (_ : list (list R)) (_ : list R) =>
                   Py.Ok (0, false) in
  let d := Detector.MemoryData "t0" (Detector.Physical 8 4 4 (-50)) 10 [] in
  History.window (Monitor.detect_memory_leak_step ∅ proc).1 42 = [-1] ∧
  length (History.window (∅ : gmap Z (list R)) 42) = 0%nat ∧
  length (History.window (Monitor.detect_memory_leak_step ∅ proc).1 42)
  = 1%nat ∧
  (Detector.detect_memory_patterns false backend [] d).1
  = [Detector.Sample "t0"
       [-50; 4 / 8; 10; 0; 0; 0; 0; Rmax 0 (Rmin 1 (1 - 4 / (8 - 4)))]] ∧
  ∃ a, (Detector.detect_memory_patterns false backend [] d).2 = Py.Ok a.
Proof.
  intros proc backend d.
  assert (Hwin :
    History.window (Monitor.detect_memory_leak_step ∅ proc).1 42 = [-1]).
  { unfold Monitor.detect_memory_leak_step. simpl.
    rewrite window_record. done. }
  assert (Hcur : Detector.extract_features d
                 = Py.Ok [-50; 4 / 8; 10; 0; 0; 0; 0;
                          Rmax 0 (Rmin 1 (1 - 4 / (8 - 4)))]).
  { unfold Detector.extract_features, d. simpl.
    rewrite decide_True by lra. rewrite !py_div_ok by lra. done. }
  split; [exact Hwin |]. split; [done |].
  split; [by rewrite Hwin |].
  rewrite (detect_memory_patterns_ok _ _ _ _ _ Hcur). simpl.
  split; [done | eauto].
Qed.

Lemma detect_memory_leak_step_window history proc :
  History.window (Monitor.detect_memory_leak_step history proc).1
    (Monitor.pid proc)
  = History.append 100 (History.window history (Monitor.pid proc))
      (Monitor.rss proc).
Proof.
  unfold Monitor.detect_memory_leak_step.
  repeat match goal with |- context [if ?b then _ else _] => destruct b end;
    simpl; apply window_record.
Qed.

(** C3 (as amended).  No append validates the sample: whatever its metric
    values, negative ones included, the sample becomes the last entry of
    the entity's window (the oldest entry is dropped when the window is
    full) and no error is raised for it.  This holds for the monitor's
    history of resident sizes, for the tracker's process histories and,
    whenever feature extraction returns, for the detector's sequence. *)
Theorem samples_are_stored_unvalidated :
  (∀ (history : gmap Z (list R)) (proc : Monitor.process),
     let history' := (Monitor.detect_memory_leak_step history proc).1 in
     History.window history' (Monitor.pid proc)
     = History.append 100 (History.window history (Monitor.pid proc))
         (Monitor.rss proc) ∧
     last (History.window history' (Monitor.pid proc))
     = Some (Monitor.rss proc)) ∧
  (∀ (histories : gmap Z (list Tracker.proc_info)) (info : Tracker.proc_info),
     last (History.window (Tracker.record_sample histories info)
             (Tracker.pid info)) = Some info) ∧
  (∀ (sklearn : bool) backend (sequence : list Detector.sample)
     (d : Detector.memory_data) (cur : list R),
     Detector.extract_features d = Py.Ok cur →
     let outcome :=
       Detector.detect_memory_patterns sklearn backend sequence d in
     outcome.1
     = History.append 100 sequence
         (Detector.Sample (Detector.timestamp d) cur) ∧
     last outcome.1 = Some (Detector.Sample (Detector.timestamp d) cur) ∧
     ∃ a, outcome.2 = Py.Ok a).
Proof.
  split; [| split].
  - intros history proc history'. subst history'.
    rewrite detect_memory_leak_step_window.
    split; [done | apply append_last; lia].
  - intros histories info. unfold Tracker.record_sample.
    rewrite window_record. apply append_last. unfold Tracker.maxlen. lia.
  - intros sklearn backend sequence d cur Hcur outcome. subst outcome.
    rewrite (detect_memory_patterns_ok _ _ _ _ _ Hcur). simpl.
    split; [done |]. split; [apply append_last; lia | eauto].
Qed.

Lemma samples_are_stored_unvalidated_witness :
  let backend := fun (_ : list (list R)) (_ : list R) =>
                   Py.Ok (0, false) in
  let d := Detector.MemoryData "t0" (Detector.Physical 8 4 4 (-50)) 10 [] in
  let cur := [-50; 4 / 8; 10; 0; 0; 0; 0; Rmax 0 (Rmin 1 (1 - 4 / (8 - 4)))] in
  Detector.extract_features d = Py.Ok cur ∧
  last (Detector.detect_memory_patterns false backend [] d).1
  = Some (Detector.Sample "t0" cur).
Proof.
  intros backend d cur.
  assert (Hcur : Detector.extract_features d = Py.Ok cur).
  { unfold Detector.extract_features, d, cur. simpl.
    rewrite decide_True by lra. rewrite !py_div_ok by lra. done. }
  split; [exact Hcur |].
  destruct samples_are_stored_unvalidated as (_ & _ & Hdetector).
  destruct (Hdetector false backend [] d cur Hcur) as (_ & Hlast & _).
  exact Hlast.
Defined.

(** *** The model path and its fallback *)

Section ModelPath.

Variable backend : list (list R) → list R → Py.result (R * bool).

(** With the backend available and at least ten historical vectors the
    detection is the model-based one. *)
Lemma analyse_model_path (cur : list R) (sequence : list Detector.sample) :
  (10 ≤ length (take (length sequence - 1) sequence))%nat →
  Detector.analyse true backend cur sequence
  = Detector.ml_anomaly_detection backend cur
      (map Detector.features (take (length sequence - 1) sequence)).
Proof.
  intros Hlen. unfold Detector.analyse.
  assert (Hseq : (10 ≤ length sequence)%nat).
  { rewrite length_take in Hlen. lia. }
  destruct (Nat.ltb_spec (length sequence) 5); [lia |].
  rewrite length_map, (proj2 (Nat.leb_le 10 _) Hlen). done.
Qed.

Lemma detect_ml_patterns_only_variability (X : list (list R))
    (p : Detector.pattern) :
  p ∈ Detector.detect_ml_patterns X →
  ∃ fs : list nat, p = Detector.HIGH_VARIABILITY fs.
Proof.
  unfold Detector.detect_ml_patterns.
  destruct (length X <? 10)%nat.
  - intros Hin. by apply elem_of_nil in Hin.
  - destruct (filter _ _) as [| i hv] eqn:Hhv.
    + intros Hin. by apply elem_of_nil in Hin.
    + intros Hin. apply list_elem_of_singleton in Hin. eauto.
Qed.

End ModelPath.

(** C9 (the claim as stated fails).  A detection on the model path whose
    fit raises returns a result whose method is the text
    [statistical_fallback], not [model_fallback]: no result of the code
    carries the method [model_fallback]. *)
Lemma fallback_tag_is_not_model_fallback :
  let backend := fun (_ : list (list R)) (_ : list R) =>
                   Py.Raise (Py.ModelError "singular matrix")
                   : Py.result (R * bool) in
  let sequence := replicate 10 (Detector.Sample "t" sample_features) in
  (∃ a : Detector.analysis,
     (Detector.detect_memory_patterns true backend sequence sample_data).2
     = Py.Ok a ∧
     Detector.error a = Some (Py.ModelError "singular matrix") ∧
     Detector.method_name <$> Detector.method_tag a
     = Some "statistical_fallback" ∧
     Detector.method_name <$> Detector.method_tag a
     ≠ Some "model_fallback") ∧
  ∀ m : Detector.method, Detector.method_name m ≠ "model_fallback".
Proof.
  intros backend sequence. split; [| by intros []].
  rewrite (detect_memory_patterns_ok _ _ _ _ _ extract_sample_data).
  cbn [snd]. rewrite analyse_model_path by (simpl; lia).
  unfold Detector.ml_anomaly_detection, backend.
  eexists. split; [reflexivity |]. cbn. by split_and!.
Qed.

(** C9 (as amended).  On the model path, an exception raised by fitting or
    scoring does not propagate: the same call returns the score and status
    of the statistical method on the same vectors, with the method
    [statistical_fallback] and the cause attached. *)
Theorem model_failure_falls_back
    (backend : list (list R) → list R → Py.result (R * bool))
    (sequence : list Detector.sample) (d : Detector.memory_data)
    (cur : list R) (e : Py.exn) :
  Detector.extract_features d = Py.Ok cur →
  let sequence' :=
    History.append 100 sequence
      (Detector.Sample (Detector.timestamp d) cur) in
  let historical :=
    map Detector.features (take (length sequence' - 1) sequence') in
  (10 ≤ length historical)%nat →
  backend historical cur = Py.Raise e →
  Detector.detect_memory_patterns true backend sequence d
  = (sequence',
     Py.Ok {| Detector.anomaly_score :=
                (Detector.simple_anomaly_detection cur historical).1;
              Detector.status_of :=
                (Detector.simple_anomaly_detection cur historical).2;
              Detector.patterns := [];
              Detector.predictions := [];
              Detector.method_tag := Some Detector.statistical_fallback;
              Detector.error := Some e |}).
Proof.
  intros Hcur sequence' historical Hlen Hraise.
  rewrite (detect_memory_patterns_ok _ _ _ _ _ Hcur). fold sequence'.
  f_equal. f_equal.
  subst historical. rewrite length_map in Hlen.
  rewrite analyse_model_path by done.
  unfold Detector.ml_anomaly_detection. by rewrite Hraise.
Qed.

(** Ten stored samples and a backend whose fit always fails. *)
Lemma model_failure_falls_back_witness :
  let backend := fun (_ : list (list R)) (_ : list R) =>
                   Py.Raise (Py.ModelError "singular matrix") in
  let sequence := replicate 10 (Detector.Sample "t" sample_features) in
  let sequence' :=
    History.append 100 sequence (Detector.Sample "t0" sample_features) in
  let historical :=
    map Detector.features (take (length sequence' - 1) sequence') in
  Detector.extract_features sample_data = Py.Ok sample_features ∧
  (10 ≤ length historical)%nat ∧
  (Detector.detect_memory_patterns true backend sequence sample_data).2
  = Py.Ok {| Detector.anomaly_score :=
               (Detector.simple_anomaly_detection sample_features
                  historical).1;
             Detector.status_of :=
               (Detector.simple_anomaly_detection sample_features
                  historical).2;
             Detector.patterns := [];
             Detector.predictions := [];
             Detector.method_tag := Some Detector.statistical_fallback;
             Detector.error := Some (Py.ModelError "singular matrix") |}.
Proof.
  intros backend sequence sequence' historical.
  assert (Hlen : (10 ≤ length historical)%nat) by (simpl; lia).
  split; [exact extract_sample_data |]. split; [exact Hlen |].
  rewrite (model_failure_falls_back backend sequence sample_data
             sample_features (Py.ModelError "singular matrix")
             extract_sample_data Hlen eq_refl).
  done.
Defined.

(** C10.  With the backend available and at least ten historical vectors,
    the detection is the model-based one; when the fit succeeds its result
    is tagged [machine_learning] and every pattern in it is a
    HIGH_VARIABILITY pattern.  On every path, a result that carries a trend
    or a periodic pattern is tagged [statistical]. *)
Theorem model_path_patterns
    (backend : list (list R) → list R → Py.result (R * bool))
    (sequence : list Detector.sample) (d : Detector.memory_data)
    (cur : list R) :
  Detector.extract_features d = Py.Ok cur →
  let sequence' :=
    History.append 100 sequence
      (Detector.Sample (Detector.timestamp d) cur) in
  let historical :=
    map Detector.features (take (length sequence' - 1) sequence') in
  (10 ≤ length historical)%nat →
  (Detector.detect_memory_patterns true backend sequence d).2
  = Py.Ok (Detector.ml_anomaly_detection backend cur historical) ∧
  (∀ (score : R) (is_anomaly : bool),
     backend historical cur = Py.Ok (score, is_anomaly) →
     ∃ a : Detector.analysis,
       (Detector.detect_memory_patterns true backend sequence d).2 = Py.Ok a ∧
       Detector.anomaly_score a = score ∧
       Detector.method_tag a = Some Detector.machine_learning ∧
       ∀ p : Detector.pattern,
         p ∈ Detector.patterns a →
         ∃ fs : list nat, p = Detector.HIGH_VARIABILITY fs) ∧
  (∀ (sklearn : bool) (a : Detector.analysis) (p : Detector.pattern),
     (Detector.detect_memory_patterns sklearn backend sequence d).2
     = Py.Ok a →
     p ∈ Detector.patterns a →
     (∀ fs : list nat, p ≠ Detector.HIGH_VARIABILITY fs) →
     Detector.method_tag a = Some Detector.statistical).
Proof.
  intros Hcur sequence' historical Hlen.
  assert (Hpath : (Detector.detect_memory_patterns true backend sequence d).2
                  = Py.Ok (Detector.ml_anomaly_detection backend cur
                             historical)).
  { rewrite (detect_memory_patterns_ok _ _ _ _ _ Hcur). fold sequence'.
    simpl. f_equal. subst historical. rewrite length_map in Hlen.
    by apply analyse_model_path. }
  split; [exact Hpath |]. split.
  - intros score is_anomaly Hfit.
    exists (Detector.ml_anomaly_detection backend cur historical).
    split; [exact Hpath |].
    unfold Detector.ml_anomaly_detection. rewrite Hfit. simpl.
    split; [done |]. split; [done |].
    apply detect_ml_patterns_only_variability.
  - intros sklearn a p Hres Hin Hnot.
    rewrite (detect_memory_patterns_ok _ _ _ _ _ Hcur) in Hres.
    fold sequence' in Hres. simpl in Hres. injection Hres as <-.
    unfold Detector.analyse in *.
    destruct (length sequence' <? 5)%nat.
    { simpl in Hin. by apply elem_of_nil in Hin. }
    destruct (sklearn && _); [| done].
    unfold Detector.ml_anomaly_detection in *.
    destruct (backend _ cur) as [[score is_anomaly] | e]; simpl in *.
    + apply detect_ml_patterns_only_variability in Hin as [fs ->].
      by destruct (Hnot fs).
    + by apply elem_of_nil in Hin.
Qed.

(** Ten stored samples and a backend whose fit succeeds. *)
Lemma model_path_patterns_witness :
  let backend := fun (_ : list (list R)) (_ : list R) =>
                   Py.Ok (-0.25, true) in
  let sequence := replicate 10 (Detector.Sample "t" sample_features) in
  Detector.extract_features sample_data = Py.Ok sample_features ∧
  ∃ a : Detector.analysis,
    (Detector.detect_memory_patterns true backend sequence sample_data).2
    = Py.Ok a ∧
    Detector.status_of a = Detector.ANOMALY_DETECTED ∧
    Detector.method_tag a = Some Detector.machine_learning.
Proof.
  intros backend sequence.
  split; [exact extract_sample_data |].
  destruct (model_path_patterns backend sequence sample_data sample_features
              extract_sample_data) as (Hpath & _ & _).
  { simpl. lia. }
  eexists. split; [exact Hpath |]. done.
Defined.

(** ** Least squares and the growth rate *)

Section LeastSquares.

Implicit Types (xs ys : list R).

Lemma sum_squares_nonneg xs (m : R) :
  0 <= Np.sum (map (fun x => (x - m) * (x - m)) xs).
Proof.
  induction xs as [| x xs IH]; simpl; [lra |].
  pose proof (Rle_0_sqr (x - m)) as Hsq. unfold Rsqr in Hsq. lra.
Qed.

Lemma squared_error_expand xs ys (a b : R) :
  length xs = length ys →
  squared_error xs ys a b
  = Np.sum (map (fun y => y * y) ys)
    - 2 * a * Np.sum (zip_with Rmult xs ys)
    - 2 * b * Np.sum ys
    + a * a * Np.sum (map (fun x => x * x) xs)
    + 2 * a * b * Np.sum xs
    + b * b * INR (length xs).
Proof.
  unfold squared_error. revert ys.
  induction xs as [| x xs IH]; intros [| y ys] Hlen; try discriminate.
  - simpl. ring.
  - injection Hlen as Hlen.
    cbn [zip_with map Np.sum foldr length]. rewrite S_INR.
    unfold Np.sum in IH. rewrite (IH ys Hlen). ring.
Qed.

Lemma centered_products xs ys (mx my : R) :
  length xs = length ys →
  Np.sum (zip_with (fun x y => (x - mx) * (y - my)) xs ys)
  = Np.sum (zip_with Rmult xs ys) - my * Np.sum xs - mx * Np.sum ys
    + INR (length xs) * mx * my.
Proof.
  revert ys. induction xs as [| x xs IH]; intros [| y ys] Hlen;
    try discriminate.
  - simpl. ring.
  - injection Hlen as Hlen.
    cbn [zip_with map Np.sum foldr length]. rewrite S_INR.
    unfold Np.sum in IH. rewrite (IH ys Hlen). ring.
Qed.

Lemma centered_squares xs (mx : R) :
  Np.sum (map (fun x => (x - mx) * (x - mx)) xs)
  = Np.sum (map (fun x => x * x) xs) - 2 * mx * Np.sum xs
    + INR (length xs) * mx * mx.
Proof.
  induction xs as [| x xs IH].
  - simpl. ring.
  - cbn [map Np.sum foldr length]. rewrite S_INR.
    unfold Np.sum in IH. rewrite IH. ring.
Qed.

(** The fitted line minimises the squared error, and it is the only line
    that does, whenever the abscissas are not all equal. *)
Lemma polyfit1_least_squares xs ys (a b : R) :
  length xs = length ys →
  0 < Np.sum (map (fun x => (x - Np.mean xs) * (x - Np.mean xs)) xs) →
  let fit := Np.polyfit1 xs ys in
  squared_error xs ys fit.1 fit.2 <= squared_error xs ys a b ∧
  (squared_error xs ys a b = squared_error xs ys fit.1 fit.2 →
   a = fit.1 ∧ b = fit.2).
Proof.
  intros Hlen Hspread fit.
  assert (Hn : 0 < INR (length xs)).
  { destruct xs as [| x xs]; [simpl in Hspread; lra |].
    apply lt_0_INR. simpl. lia. }
  set (n := INR (length xs)) in *.
  set (D := Np.sum (map (fun x => (x - Np.mean xs) * (x - Np.mean xs)) xs))
    in *.
  assert (HD : D = Np.sum (map (fun x => x * x) xs)
                   - Np.sum xs * Np.sum xs / n).
  { subst D. rewrite centered_squares. fold n. unfold Np.mean. fold n.
    field. lra. }
  assert (Hslope : fit.1 * D
                   = Np.sum (zip_with Rmult xs ys)
                     - Np.sum xs * Np.sum ys / n).
  { subst fit. unfold Np.polyfit1. cbn [fst]. fold D.
    rewrite (centered_products xs ys _ _ Hlen). fold n.
    unfold Np.mean. rewrite <- Hlen. fold n. field. split; lra. }
  assert (Hicpt : fit.2 = Np.sum ys / n - fit.1 * (Np.sum xs / n)).
  { subst fit. unfold Np.polyfit1. cbn [fst snd].
    unfold Np.mean. rewrite <- Hlen. done. }
  assert (Hgap : squared_error xs ys a b - squared_error xs ys fit.1 fit.2
                 = n * ((b - fit.2 + (a - fit.1) * (Np.sum xs / n))
                        * (b - fit.2 + (a - fit.1) * (Np.sum xs / n)))
                   + (a - fit.1) * (a - fit.1) * D).
  { rewrite !squared_error_expand by done. fold n.
    assert (Hxy : Np.sum (zip_with Rmult xs ys)
                  = fit.1 * D + Np.sum xs * Np.sum ys / n) by lra.
    rewrite Hxy, Hicpt, HD. field. lra. }
  pose proof (Rle_0_sqr (b - fit.2 + (a - fit.1) * (Np.sum xs / n))) as Hsq1.
  pose proof (Rle_0_sqr (a - fit.1)) as Hsq2.
  unfold Rsqr in Hsq1, Hsq2.
  assert (Hterm1 : 0 <= n * ((b - fit.2 + (a - fit.1) * (Np.sum xs / n))
                        * (b - fit.2 + (a - fit.1) * (Np.sum xs / n))))
    by (apply Rmult_le_pos; lra).
  assert (Hterm2 : 0 <= (a - fit.1) * (a - fit.1) * D)
    by (apply Rmult_le_pos; lra).
  split; [lra |].
  intros Heq.
  assert (Hz2 : (a - fit.1) * (a - fit.1) * D = 0) by lra.
  assert (Hz1 : n * ((b - fit.2 + (a - fit.1) * (Np.sum xs / n))
                        * (b - fit.2 + (a - fit.1) * (Np.sum xs / n))) = 0)
    by lra.
  assert (Ha : a = fit.1).
  { apply Rmult_integral in Hz2 as [Hz2 | Hz2]; [| lra].
    apply Rmult_integral in Hz2 as [Hz2 | Hz2]; lra. }
  split; [exact Ha |].
  apply Rmult_integral in Hz1 as [Hz1 | Hz1]; [lra |].
  rewrite Ha in Hz1.
  apply Rmult_integral in Hz1 as [Hz1 | Hz1]; lra.
Qed.

(** The indices [0, 1, ..., n-1] of at least two values are not all
    equal. *)
Lemma arange_spread (n : nat) :
  (2 ≤ n)%nat →
  let xs := Np.arange n in
  0 < Np.sum (map (fun x => (x - Np.mean xs) * (x - Np.mean xs)) xs).
Proof.
  intros Hn xs. set (m := Np.mean xs). subst xs.
  destruct n as [| [| n]]; [lia | lia |].
  unfold Np.arange. cbn [seq map Np.sum foldr].
  pose proof (sum_squares_nonneg (map INR (seq 2 n)) m) as Hrest.
  unfold Np.sum in Hrest. simpl INR.
  nra.
Qed.

End LeastSquares.

(** ** The leak detector *)

Lemma spec_sequence_mean : Np.mean spec_sequence = 12573 / 10.
Proof. unfold Np.mean, Np.sum, spec_sequence. simpl. lra. Qed.

Lemma spec_sequence_slope :
  (Np.polyfit1 (Np.arange (length spec_sequence)) spec_sequence).1
  = 2015 / 33.
Proof.
  unfold Np.polyfit1, Np.arange, spec_sequence.
  cbn [fst length seq map zip_with].
  unfold Np.mean, Np.sum. cbn [foldr length map zip_with]. simpl INR.
  field.
Qed.

Lemma spec_sequence_growth_rate :
  Tracker.calculate_growth_rate spec_sequence = 20150 / 414909.
Proof.
  unfold Tracker.calculate_growth_rate.
  change (length spec_sequence <? 2)%nat with false. cbv iota.
  rewrite spec_sequence_slope, spec_sequence_mean.
  rewrite decide_True by lra. lra.
Qed.

Lemma column_rss_feature_rows (entries : list Tracker.proc_info) :
  Np.column 0 (map Tracker.feature_row entries) = map Tracker.rss entries.
Proof.
  unfold Np.column. rewrite map_map. done.
Qed.

(** The growth rate stored in a fingerprint is that of the positive
    resident sizes of the history. *)
Lemma dna_statistics_growth_rate (history : list Tracker.proc_info)
    (pattern : Tracker.dna_pattern) :
  Tracker.dna_statistics history = Some pattern →
  Tracker.growth_rate pattern
  = Tracker.calculate_growth_rate
      (map Tracker.rss
         (filter (fun entry => Tracker.rss entry > 0) history)).
Proof.
  unfold Tracker.dna_statistics.
  destruct (length history <? 5)%nat; [done |].
  pose proof (column_rss_feature_rows
                (filter (fun entry => Tracker.rss entry > 0) history))
    as Hcol.
  fold (Tracker.feature_rows history) in Hcol.
  destruct (Tracker.feature_rows history) as [| row rows]; [done |].
  intros [= <-]. cbn [Tracker.growth_rate]. by rewrite <- Hcol.
Qed.

Lemma memory_leak_check_cases (pattern : Tracker.dna_pattern) :
  let g := Tracker.growth_rate pattern in
  (Tracker.memory_leak_check pattern
   = [Tracker.MEMORY_LEAK Detector.HIGH g] ↔ g > 0.1) ∧
  (Tracker.memory_leak_check pattern
   = [Tracker.MEMORY_LEAK Detector.MEDIUM g] ↔ 0.05 < g ∧ g <= 0.1) ∧
  (Tracker.memory_leak_check pattern = [] ↔ g <= 0.05).
Proof.
  intros g. unfold Tracker.memory_leak_check. fold g.
  destruct (decide (g > 0.05)) as [Hleak | Hnone];
    [destruct (decide (g > 0.1)) as [Hhigh | Hmedium] |].
  - split; [split; [lra | done] |]. split; split; try done; lra.
  - split; [split; [done | lra] |]. split; split; try done; lra.
  - split; [split; [done | lra] |]. split; split; try done; lra.
Qed.

Lemma filter_all {A} (P : A → Prop) `{!∀ x, Decision (P x)} (l : list A) :
  Forall P l → filter P l = l.
Proof.
  induction 1 as [| x l Hx Hl IH]; [done |].
  rewrite filter_cons_True by done. by rewrite IH.
Qed.

Lemma spec_history_positive :
  filter (fun entry => Tracker.rss entry > 0) (history_of spec_sequence)
  = history_of spec_sequence.
Proof.
  apply filter_all. unfold history_of, spec_sequence. simpl map.
  repeat (apply Forall_cons; split; [simpl; lra |]). apply Forall_nil.
  done.
Qed.

(** Only the leak check produces MEMORY_LEAK anomalies. *)
Lemma leak_reported_iff (pattern : Tracker.dna_pattern)
    (history : list Tracker.proc_info) (sev : Detector.severity) (r : R) :
  Tracker.MEMORY_LEAK sev r
    ∈ (Tracker.detect_memory_anomalies (Some pattern) history).2 →
  Tracker.growth_rate pattern > 0.05.
Proof.
  unfold Tracker.detect_memory_anomalies.
  destruct (length (History.last_n 10 history) <? 5)%nat; simpl.
  { intros Hin. by apply elem_of_nil in Hin. }
  rewrite !elem_of_app. intros [Hin | [Hin | Hin]].
  - unfold Tracker.memory_leak_check in Hin.
    destruct (decide (Tracker.growth_rate pattern > 0.05)); [done |].
    by apply elem_of_nil in Hin.
  - unfold Tracker.unusual_usage_check in Hin.
    destruct (History.last_n 10 history); [by apply elem_of_nil in Hin |].
    destruct (decide _).
    + by apply list_elem_of_singleton in Hin.
    + by apply elem_of_nil in Hin.
  - unfold Tracker.thread_check in Hin. destruct (decide _).
    + by apply list_elem_of_singleton in Hin.
    + by apply elem_of_nil in Hin.
Qed.

(** The leaks one step of the monitor adds depend on the window after the
    append only. *)
Lemma detect_memory_leak_step_leaks history proc :
  let data :=
    History.append 100 (History.window history (Monitor.pid proc))
      (Monitor.rss proc) in
  let avg_increase :=
    Np.times
      (Np.divide
         (Np.Finite (Np.polyfit1 (Np.arange (length data)) data).1)
         (Np.mean data))
      100 in
  (Monitor.detect_memory_leak_step history proc).2
  = if (10 <=? length data)%nat && (1 <? length data)%nat then
      if Np.gt avg_increase 5 then
        [Monitor.Leak (Monitor.pid proc) (Monitor.name proc) avg_increase
           (Monitor.rss proc)
           (if Np.gt avg_increase 10 then Detector.HIGH else Detector.MEDIUM)]
      else []
    else [].
Proof.
  intros data avg_increase. unfold Monitor.detect_memory_leak_step.
  rewrite window_record. fold data. fold avg_increase.
  destruct ((10 <=? length data)%nat && (1 <? length data)%nat); [| done].
  by destruct (Np.gt avg_increase 5).
Qed.

(** C5 (the claim as stated fails).  For the specification's sequence the
    fitted slope is 2015/33 (about 61.06) and the mean 1257.3, so the
    growth rate is 20150/414909, about 0.0486: below the 0.05 threshold.
    The tracker reports no leak for a process with these resident sizes,
    and the monitor, which compares the same quotient times 100 with 5,
    reports none when the tenth size arrives. *)
Lemma spec_sequence_reports_no_leak :
  Tracker.calculate_growth_rate spec_sequence = 20150 / 414909 ∧
  20150 / 414909 < 0.05 ∧
  (∃ pattern : Tracker.dna_pattern,
     Tracker.dna_statistics (history_of spec_sequence) = Some pattern ∧
     Tracker.growth_rate pattern = 20150 / 414909 ∧
     Tracker.memory_leak_check pattern = [] ∧
     ∀ (sev : Detector.severity) (r : R),
       Tracker.MEMORY_LEAK sev r
         ∉ (Tracker.detect_memory_anomalies (Some pattern)
              (history_of spec_sequence)).2) ∧
  (Monitor.detect_memory_leak_step
     {[ 42%Z := take 9 spec_sequence ]}
     (Monitor.Process 42 "worker" 1551 0 0 0 0 0)).2 = [].
Proof.
  split; [exact spec_sequence_growth_rate |]. split; [lra |]. split.
  - destruct (Tracker.dna_statistics (history_of spec_sequence))
      as [pattern |] eqn:Hdna.
    2: { unfold Tracker.dna_statistics, Tracker.feature_rows in Hdna.
         rewrite spec_history_positive in Hdna. done. }
    exists pattern. split; [done |].
    assert (Hg : Tracker.growth_rate pattern = 20150 / 414909).
    { rewrite (dna_statistics_growth_rate _ _ Hdna), spec_history_positive.
      exact spec_sequence_growth_rate. }
    split; [exact Hg |]. split.
    + apply memory_leak_check_cases. rewrite Hg. lra.
    + intros sev r Hin. apply leak_reported_iff in Hin. rewrite Hg in Hin.
      lra.
  - rewrite detect_memory_leak_step_leaks. cbn [Monitor.pid Monitor.rss].
    assert (Hdata : History.append 100
                      (History.window {[ 42%Z := take 9 spec_sequence ]} 42)
                      1551 = spec_sequence).
    { unfold History.window. by rewrite lookup_singleton_eq. }
    rewrite Hdata.
    change ((10 <=? length spec_sequence)%nat
            && (1 <? length spec_sequence)%nat) with true.
    cbv iota.
    rewrite spec_sequence_slope, spec_sequence_mean.
    unfold Np.divide, Np.times, Np.gt.
    rewrite decide_False by lra.
    rewrite bool_decide_eq_false_2 by lra. done.
Qed.

(** A leak is in the report exactly when the leak check of the statistics
    gives it. *)
Lemma leak_in_report (pattern : Tracker.dna_pattern)
    (current : list Tracker.proc_info) (sev : Detector.severity) (r : R) :
  (5 ≤ length current)%nat →
  Tracker.MEMORY_LEAK sev r
    ∈ (Tracker.detect_memory_anomalies (Some pattern) current).2
  ↔ Tracker.MEMORY_LEAK sev r ∈ Tracker.memory_leak_check pattern.
Proof.
  intros Hlen. unfold Tracker.detect_memory_anomalies.
  assert (Hrecent : (5 ≤ length (History.last_n 10 current))%nat).
  { unfold History.last_n. rewrite length_drop. lia. }
  destruct (Nat.ltb_spec (length (History.last_n 10 current)) 5); [lia |].
  cbn [snd]. rewrite !elem_of_app. split; [| by left].
  intros [Hin | [Hin | Hin]]; [done | |].
  - unfold Tracker.unusual_usage_check in Hin.
    destruct (History.last_n 10 current); [by apply elem_of_nil in Hin |].
    destruct (decide _).
    + by apply list_elem_of_singleton in Hin.
    + by apply elem_of_nil in Hin.
  - unfold Tracker.thread_check in Hin. destruct (decide _).
    + by apply list_elem_of_singleton in Hin.
    + by apply elem_of_nil in Hin.
Qed.

(** C5 (as amended).  For every sequence of at least two memory sizes the
    growth rate is the slope of the ordinary-least-squares line through
    the (index, value) pairs divided by the mean of the sequence, and 0
    when the mean is not positive; for a shorter sequence it is 0.  The
    tracker reports leaks from the fingerprint statistics of a process
    only.  A history has statistics only if it holds at least five
    entries; their growth rate is that of the positive resident sizes of
    the history, and the report of a process with these statistics and at
    least five entries holds a leak of severity HIGH iff
    growth_rate > 0.10, one of severity MEDIUM iff
    0.05 < growth_rate <= 0.10, and no leak otherwise.  A history of fewer
    than five entries has no statistics, and without statistics nothing is
    reported, however the sizes grow.  For the sequence
    [1000, 1050, 1102, 1157, 1215, 1276, 1339, 1406, 1477, 1551] the
    growth rate is 20150/414909 (about 0.0486) and no leak is reported. *)
Theorem leak_detector_growth_rate :
  (∀ memory_values : list R,
     (2 ≤ length memory_values)%nat →
     let index := Np.arange (length memory_values) in
     let fit := Np.polyfit1 index memory_values in
     let growth_rate := Tracker.calculate_growth_rate memory_values in
     (∀ a b : R,
        squared_error index memory_values fit.1 fit.2
        <= squared_error index memory_values a b ∧
        (squared_error index memory_values a b
         = squared_error index memory_values fit.1 fit.2 →
         a = fit.1 ∧ b = fit.2)) ∧
     (Np.mean memory_values > 0 →
      growth_rate = fit.1 / Np.mean memory_values) ∧
     (Np.mean memory_values <= 0 → growth_rate = 0) ∧
     ∀ pattern : Tracker.dna_pattern,
       Tracker.growth_rate pattern = growth_rate →
       (Tracker.memory_leak_check pattern
        = [Tracker.MEMORY_LEAK Detector.HIGH growth_rate]
        ↔ growth_rate > 0.1) ∧
       (Tracker.memory_leak_check pattern
        = [Tracker.MEMORY_LEAK Detector.MEDIUM growth_rate]
        ↔ 0.05 < growth_rate ∧ growth_rate <= 0.1) ∧
       (Tracker.memory_leak_check pattern = [] ↔ growth_rate <= 0.05)) ∧
  (∀ memory_values : list R,
     (length memory_values < 2)%nat →
     Tracker.calculate_growth_rate memory_values = 0) ∧
  (∀ (history : list Tracker.proc_info) (pattern : Tracker.dna_pattern),
     Tracker.dna_statistics history = Some pattern →
     let sizes :=
       map Tracker.rss
         (filter (fun entry => Tracker.rss entry > 0) history) in
     let growth_rate := Tracker.calculate_growth_rate sizes in
     (5 ≤ length history)%nat ∧
     sizes ≠ [] ∧
     Tracker.growth_rate pattern = growth_rate ∧
     ∀ current : list Tracker.proc_info,
       (5 ≤ length current)%nat →
       let report :=
         Tracker.detect_memory_anomalies (Some pattern) current in
       report.1 = Tracker.analyzed ∧
       (Tracker.MEMORY_LEAK Detector.HIGH growth_rate ∈ report.2
        ↔ growth_rate > 0.1) ∧
       (Tracker.MEMORY_LEAK Detector.MEDIUM growth_rate ∈ report.2
        ↔ 0.05 < growth_rate ∧ growth_rate <= 0.1) ∧
       ((∀ (sev : Detector.severity) (r : R),
           Tracker.MEMORY_LEAK sev r ∉ report.2)
        ↔ growth_rate <= 0.05) ∧
       (∀ (sev : Detector.severity) (r : R),
          Tracker.MEMORY_LEAK sev r ∈ report.2 → r = growth_rate)) ∧
  (∀ history : list Tracker.proc_info,
     (length history < 5)%nat →
     Tracker.dna_statistics history = None ∧
     ∀ current : list Tracker.proc_info,
       Tracker.detect_memory_anomalies (Tracker.dna_statistics history)
         current
       = (Tracker.insufficient_data, [])) ∧
  Tracker.calculate_growth_rate spec_sequence = 20150 / 414909 ∧
  (∀ pattern : Tracker.dna_pattern,
     Tracker.growth_rate pattern
     = Tracker.calculate_growth_rate spec_sequence →
     Tracker.memory_leak_check pattern = []) ∧
  ∃ pattern : Tracker.dna_pattern,
    Tracker.dna_statistics (history_of spec_sequence) = Some pattern ∧
    ∀ (sev : Detector.severity) (r : R),
      Tracker.MEMORY_LEAK sev r
        ∉ (Tracker.detect_memory_anomalies (Some pattern)
             (history_of spec_sequence)).2.
Proof.
  split_and!.
  - intros memory_values Hlen index fit growth_rate.
    split; [| split; [| split]].
    + intros a b. apply polyfit1_least_squares.
      * subst index. unfold Np.arange. by rewrite length_map, length_seq.
      * by apply arange_spread.
    + intros Hpos. subst growth_rate. unfold Tracker.calculate_growth_rate.
      destruct (Nat.ltb_spec (length memory_values) 2); [lia |].
      by rewrite decide_True.
    + intros Hnonpos. subst growth_rate.
      unfold Tracker.calculate_growth_rate.
      destruct (Nat.ltb_spec (length memory_values) 2); [lia |].
      by rewrite decide_False by lra.
    + intros pattern <-. apply memory_leak_check_cases.
  - intros memory_values Hshort. unfold Tracker.calculate_growth_rate.
    by destruct (Nat.ltb_spec (length memory_values) 2); [| lia].
  - intros history pattern Hstat sizes growth_rate.
    assert (Hrate : Tracker.growth_rate pattern = growth_rate)
      by (by apply dna_statistics_growth_rate).
    assert (Hlong : (5 ≤ length history)%nat ∧ sizes ≠ []).
    { unfold Tracker.dna_statistics in Hstat.
      destruct (Nat.ltb_spec (length history) 5); [done |].
      split; [done |]. intros Hnil. unfold Tracker.feature_rows in Hstat.
      subst sizes. apply fmap_nil_inv in Hnil. by rewrite Hnil in Hstat. }
    destruct Hlong as [Hlong Hsizes].
    split; [exact Hlong |]. split; [exact Hsizes |]. split; [exact Hrate |].
    intros current Hcurrent report.
    assert (Hin : ∀ sev r,
              Tracker.MEMORY_LEAK sev r ∈ report.2
              ↔ Tracker.MEMORY_LEAK sev r ∈ Tracker.memory_leak_check pattern)
      by (intros sev r; by apply leak_in_report).
    assert (Hstatus : report.1 = Tracker.analyzed).
    { subst report. unfold Tracker.detect_memory_anomalies.
      assert (Hrecent : (5 ≤ length (History.last_n 10 current))%nat).
      { unfold History.last_n. rewrite length_drop. lia. }
      by destruct (Nat.ltb_spec (length (History.last_n 10 current)) 5);
        [lia |]. }
    split; [exact Hstatus |].
    unfold Tracker.memory_leak_check in Hin. rewrite Hrate in Hin.
    split_and!.
    + rewrite Hin. destruct (decide (growth_rate > 0.05));
        [destruct (decide (growth_rate > 0.1)) |].
      * split; [done |]. intros _. by apply list_elem_of_singleton.
      * split; [| lra]. intros Hhigh.
        by apply list_elem_of_singleton in Hhigh.
      * split; [| lra]. intros Hnone. by apply elem_of_nil in Hnone.
    + rewrite Hin. destruct (decide (growth_rate > 0.05));
        [destruct (decide (growth_rate > 0.1)) |].
      * split; [| lra]. intros Hmedium.
        by apply list_elem_of_singleton in Hmedium.
      * split; [intros _; lra |]. intros _. by apply list_elem_of_singleton.
      * split; [| lra]. intros Hnone. by apply elem_of_nil in Hnone.
    + split.
      * intros Hnone. destruct (decide (growth_rate > 0.05)) as [Hleak |];
          [| lra].
        exfalso.
        apply (Hnone (if decide (growth_rate > 0.1)
                      then Detector.HIGH else Detector.MEDIUM) growth_rate).
        apply Hin. by apply list_elem_of_singleton.
      * intros Hlow sev r Hleak. apply Hin in Hleak.
        rewrite (decide_False (P := growth_rate > 0.05)) in Hleak by lra.
        by apply elem_of_nil in Hleak.
    + intros sev r Hleak. apply Hin in Hleak.
      destruct (decide (growth_rate > 0.05));
        [| by apply elem_of_nil in Hleak].
      apply list_elem_of_singleton in Hleak. by injection Hleak.
  - intros history Hshort.
    assert (Hnone : Tracker.dna_statistics history = None).
    { unfold Tracker.dna_statistics.
      by destruct (Nat.ltb_spec (length history) 5); [| lia]. }
    split; [exact Hnone |]. intros current. by rewrite Hnone.
  - exact spec_sequence_growth_rate.
  - intros pattern Hg. apply memory_leak_check_cases.
    rewrite Hg, spec_sequence_growth_rate. lra.
  - destruct (Tracker.dna_statistics (history_of spec_sequence))
      as [pattern |] eqn:Hdna.
    2: { unfold Tracker.dna_statistics, Tracker.feature_rows in Hdna.
         rewrite spec_history_positive in Hdna. done. }
    exists pattern. split; [done |].
    assert (Hg : Tracker.growth_rate pattern = 20150 / 414909).
    { rewrite (dna_statistics_growth_rate _ _ Hdna), spec_history_positive.
      exact spec_sequence_growth_rate. }
    intros sev r Hin. apply leak_reported_iff in Hin. rewrite Hg in Hin. lra.
Qed.

(** A history of ten entries with the resident sizes of the example: it
    has statistics, their growth rate is the slope over the mean of the
    ten sizes, and the report for it is analyzed. *)
Lemma leak_detector_growth_rate_witness :
  (2 ≤ length spec_sequence)%nat ∧
  Np.mean spec_sequence > 0 ∧
  Tracker.calculate_growth_rate spec_sequence
  = (Np.polyfit1 (Np.arange (length spec_sequence)) spec_sequence).1
    / Np.mean spec_sequence ∧
  ∃ pattern : Tracker.dna_pattern,
    Tracker.dna_statistics (history_of spec_sequence) = Some pattern ∧
    (5 ≤ length (history_of spec_sequence))%nat ∧
    (Tracker.detect_memory_anomalies (Some pattern)
       (history_of spec_sequence)).1 = Tracker.analyzed.
Proof.
  assert (Hlen : (2 ≤ length spec_sequence)%nat) by (simpl; lia).
  assert (Hmean : Np.mean spec_sequence > 0)
    by (rewrite spec_sequence_mean; lra).
  assert (Hfive : (5 ≤ length (history_of spec_sequence))%nat)
    by (simpl; lia).
  split; [exact Hlen |]. split; [exact Hmean |].
  destruct leak_detector_growth_rate
    as (Hgeneral & _ & Hreport & _ & _ & _ & (pattern & Hstat & _)).
  destruct (Hgeneral spec_sequence Hlen) as (_ & Hrate & _).
  split; [exact (Hrate Hmean) |].
  exists pattern. split; [exact Hstat |]. split; [exact Hfive |].
  destruct (Hreport (history_of spec_sequence) pattern Hstat)
    as (_ & _ & _ & Hcurrent).
  exact (proj1 (Hcurrent (history_of spec_sequence) Hfive)).
Defined.

(** ** Periodicity *)

Section Sums.

Lemma sum_app (l1 l2 : list R) : Np.sum (l1 ++ l2) = Np.sum l1 + Np.sum l2.
Proof.
  unfold Np.sum. induction l1 as [| x l1 IH]; simpl; [lra |].
  rewrite IH. lra.
Qed.

Lemma sum_map_ext {A} (f g : A → R) (l : list A) :
  (∀ x, x ∈ l → f x = g x) → Np.sum (map f l) = Np.sum (map g l).
Proof.
  unfold Np.sum. intros Hext. induction l as [| x l IH]; [done |].
  simpl. rewrite (Hext x) by (apply elem_of_cons; by left).
  rewrite IH; [done |].
  intros y Hy. apply Hext. apply elem_of_cons. by right.
Qed.

Lemma sum_map_zero {A} (f : A → R) (l : list A) :
  (∀ x, x ∈ l → f x = 0) → Np.sum (map f l) = 0.
Proof.
  unfold Np.sum. intros Hzero. induction l as [| x l IH]; [done |].
  simpl. rewrite (Hzero x) by (apply elem_of_cons; by left).
  rewrite IH; [lra |].
  intros y Hy. apply Hzero. apply elem_of_cons. by right.
Qed.

End Sums.

(** The slice of the full correlation that [detect_trends] keeps holds the
    autocorrelations at the lags 0, 1, ..., n-1. *)
Lemma autocorr_lags (xs : list R) :
  Detector.autocorr xs = map (lag_product xs) (seq 0 (length xs)).
Proof.
  unfold Detector.autocorr, Np.correlate_full.
  set (n := length xs).
  rewrite length_map, length_seq.
  assert (Hhalf : ((n + n - 1) / 2 = n - 1)%nat).
  { destruct n as [| n']; [done |].
    symmetry. apply (Nat.div_unique _ 2 _ 1); lia. }
  rewrite Hhalf, skipn_map, skipn_seq.
  replace (n + n - 1 - (n - 1))%nat with n by lia.
  replace (0 + (n - 1))%nat with (n - 1 + 0)%nat by lia.
  rewrite <- fmap_add_seq.
  change (Nat.add (n - 1) <$> seq 0 n) with (map (Nat.add (n - 1)) (seq 0 n)).
  rewrite map_map. apply map_ext_in. intros k Hk.
  apply in_seq in Hk. unfold lag_product. fold n.
  replace n with (k + (n - k))%nat at 1 by lia.
  rewrite seq_app, map_app, sum_app.
  rewrite sum_map_zero.
  2: { intros j Hj. apply elem_of_seq in Hj.
       destruct (Nat.leb_spec (n - 1 + k) (n - 1 + j)); [lia | done]. }
  rewrite Rplus_0_l.
  replace (0 + k)%nat with (k + 0)%nat by lia.
  rewrite <- fmap_add_seq.
  change (Nat.add k <$> seq 0 (n - k)) with (map (Nat.add k) (seq 0 (n - k))).
  rewrite map_map. apply sum_map_ext. intros i Hi.
  destruct (Nat.leb_spec (n - 1 + k) (n - 1 + (k + i))); [| lia].
  replace (n - 1 + (k + i) - (n - 1 + k))%nat with i by lia.
  by rewrite (Nat.add_comm i k).
Qed.

Lemma autocorr_length (xs : list R) :
  length (Detector.autocorr xs) = length xs.
Proof. by rewrite autocorr_lags, length_map, length_seq. Qed.

Lemma autocorr_nth (xs : list R) (k : nat) :
  (k < length xs)%nat → nth k (Detector.autocorr xs) 0 = lag_product xs k.
Proof.
  intros Hk. rewrite autocorr_lags.
  rewrite (nth_indep _ 0 (lag_product xs 0))
    by (by rewrite length_map, length_seq).
  rewrite (map_nth (lag_product xs)), seq_nth by done. done.
Qed.

Lemma peaks_elem (ac : list R) (i : nat) :
  i ∈ Detector.peaks ac ↔ (2 ≤ i < length ac - 2)%nat ∧ is_peak ac i.
Proof.
  unfold Detector.peaks. rewrite list_elem_of_filter, elem_of_seq.
  unfold is_peak. split; intros [H1 H2].
  - split; [lia | done].
  - split; [done | lia].
Qed.

Lemma filter_none {A} (P : A → Prop) `{!∀ x, Decision (P x)} (l : list A) :
  (∀ x, x ∈ l → ¬ P x) → filter P l = [].
Proof.
  intros Hnone. induction l as [| x l IH]; [done |].
  rewrite filter_cons_False by (apply Hnone, elem_of_cons; by left).
  apply IH. intros y Hy. apply Hnone, elem_of_cons. by right.
Qed.

(** The first entry of [peaks] is the smallest peak of the scanned
    range. *)
Lemma peaks_first (ac : list R) (p : nat) :
  (2 ≤ p < length ac - 2)%nat → is_peak ac p →
  (∀ i, (2 ≤ i < p)%nat → ¬ is_peak ac i) →
  ∃ rest, Detector.peaks ac = p :: rest.
Proof.
  intros Hrange Hpeak Hbefore. unfold Detector.peaks.
  replace (length ac - 4)%nat
    with ((p - 2) + S (length ac - 4 - (p - 2) - 1))%nat by lia.
  rewrite seq_app, filter_app.
  replace (2 + (p - 2))%nat with p by lia.
  rewrite (filter_none _ (seq 2 (p - 2))).
  2: { intros i Hin Hi. apply elem_of_seq in Hin.
       apply (Hbefore i); [lia | exact Hi]. }
  cbn [seq app]. rewrite filter_cons_True by exact Hpeak. eauto.
Qed.

Lemma peaks_none (ac : list R) :
  (∀ i, (2 ≤ i < length ac - 2)%nat → ¬ is_peak ac i) →
  Detector.peaks ac = [].
Proof.
  intros Hnone. unfold Detector.peaks.
  apply filter_none. intros i Hin Hi.
  apply elem_of_seq in Hin. apply (Hnone i); [lia | exact Hi].
Qed.

(** The reported strength is the largest autocorrelation among all the
    peaks. *)
Lemma strength_is_maximum (ac : list R) :
  Detector.peaks ac ≠ [] →
  ∃ q, q ∈ Detector.peaks ac ∧
       Py.max (map (fun i => nth i ac 0) (Detector.peaks ac)) = nth q ac 0 ∧
       ∀ i, i ∈ Detector.peaks ac → nth i ac 0 <= nth q ac 0.
Proof.
  intros Hne.
  assert (Hin : Py.max (map (fun i => nth i ac 0) (Detector.peaks ac))
                ∈ map (fun i => nth i ac 0) (Detector.peaks ac)).
  { apply py_max_elem. by destruct (Detector.peaks ac). }
  apply list_elem_of_fmap in Hin as (q & Hq & Hqin).
  exists q. split; [done |]. split; [done |].
  intros i Hi. rewrite <- Hq. apply py_max_upper.
  apply list_elem_of_fmap. by exists i.
Qed.

Lemma wave_period (A : R) (i : nat) :
  wave A (S (S (S (S (S i))))) = wave A i.
Proof.
  unfold wave. f_equal. rewrite !S_INR.
  replace (2 * PI * (INR i + 1 + 1 + 1 + 1 + 1) / 5)
    with (2 * PI * INR i / 5 + 2 * INR 1 * PI) by (simpl; field).
  apply sin_period.
Qed.

Lemma wave_0 (A : R) : wave A 0 = 0.
Proof.
  unfold wave. simpl.
  replace (2 * PI * 0 / 5) with 0 by field. rewrite sin_0. ring.
Qed.

Lemma wave_1 (A : R) : wave A 1 = A * sin (2 * PI / 5).
Proof.
  unfold wave. simpl. f_equal. f_equal. field.
Qed.

Lemma wave_2 (A : R) : wave A 2 = A * sin (PI / 5).
Proof.
  unfold wave. f_equal. simpl.
  replace (2 * PI * (1 + 1) / 5) with (PI - PI / 5) by field.
  apply sin_PI_x.
Qed.

Lemma wave_3 (A : R) : wave A 3 = - (A * sin (PI / 5)).
Proof.
  unfold wave. simpl.
  replace (2 * PI * (1 + 1 + 1) / 5) with (PI / 5 + PI) by field.
  rewrite neg_sin. ring.
Qed.

Lemma wave_4 (A : R) : wave A 4 = - (A * sin (2 * PI / 5)).
Proof.
  unfold wave. simpl.
  replace (2 * PI * (1 + 1 + 1 + 1) / 5)
    with (- (2 * PI / 5) + 2 * INR 1 * PI) by (simpl; field).
  rewrite sin_period, sin_neg. ring.
Qed.

Lemma sinusoid_values (A : R) :
  sinusoid A = five_cycle (A * sin (2 * PI / 5)) (A * sin (PI / 5)).
Proof.
  unfold sinusoid. cbn [seq map].
  rewrite !wave_period.
  by rewrite wave_0, wave_1, wave_2, wave_3, wave_4.
Qed.

Lemma sinusoid_amplitudes (A : R) :
  A > 0 → 0 < A * sin (PI / 5) ∧ A * sin (PI / 5) < A * sin (2 * PI / 5).
Proof.
  intros HA. pose proof PI_RGT_0 as Hpi.
  assert (H2 : 0 < sin (PI / 5)) by (apply sin_gt_0; lra).
  assert (H1 : sin (PI / 5) < sin (2 * PI / 5))
    by (apply sin_increasing_1; lra).
  split; nra.
Qed.

Lemma usage_series (values : list R) :
  map Detector.usage (series values) = values.
Proof.
  unfold series. rewrite map_map. simpl. apply map_id.
Qed.

Ltac list_eq_by tac :=
  repeat (apply (f_equal2 cons); [tac |]); reflexivity.

Lemma autocorr_five_cycle (s1 s2 : R) :
  Detector.autocorr (five_cycle s1 s2) = five_cycle_autocorr s1 s2.
Proof.
  rewrite autocorr_lags. unfold lag_product, five_cycle, Np.sum.
  simpl. unfold five_cycle_autocorr. list_eq_by ltac:(ring).
Qed.

Lemma five_cycle_patterns (s1 s2 : R) :
  0 < s2 → s2 < s1 →
  Detector.periodic_patterns (series (five_cycle s1 s2))
  = [Detector.PERIODIC_PATTERN 5 (6 * s1 * s1 + 6 * s2 * s2)].
Proof.
  intros Hs2 Hs1.
  assert (Hp : 0 < s1 * s2) by nra.
  assert (Hq : 0 < s2 * s2) by nra.
  assert (Hr : s2 * s2 < s1 * s2) by nra.
  assert (Ht : s1 * s2 < s1 * s1) by nra.
  unfold Detector.periodic_patterns.
  change (20 <=? length (series (five_cycle s1 s2)))%nat with true. cbv iota.
  change (History.last_n 20 (series (five_cycle s1 s2)))
    with (series (five_cycle s1 s2)).
  rewrite usage_series. cbv zeta.
  rewrite autocorr_five_cycle.
  change (5 <? length (five_cycle_autocorr s1 s2))%nat with true. cbv iota.
  assert (Hpeaks : Detector.peaks (five_cycle_autocorr s1 s2)
                   = [5; 10; 15]%nat).
  { unfold Detector.peaks, five_cycle_autocorr. cbn [length Nat.sub seq].
    repeat (first
      [ rewrite filter_cons_True by (simpl; split; nra)
      | rewrite filter_cons_False by (simpl; intros [? ?]; nra) ]).
    by rewrite filter_nil. }
  rewrite Hpeaks. unfold five_cycle_autocorr. simpl.
  f_equal. f_equal.
  rewrite (Rmax_left (6 * s1 * s1 + 6 * s2 * s2)
             (4 * s1 * s1 + 4 * s2 * s2)) by nra.
  apply Rmax_left. nra.
Qed.

Lemma autocorr_spikes :
  Detector.autocorr spikes
  = [20; 0; 1; 0; 0; 12; 0; 3; 0; 0; 3; 0; 3; 0; 0; 0; 0; 0; 0; 0].
Proof.
  rewrite autocorr_lags. unfold lag_product, spikes, Np.sum.
  simpl. list_eq_by ltac:(lra).
Qed.

Lemma autocorr_far_spikes :
  Detector.autocorr far_spikes
  = [2; 0; 0; 0; 0; 0; 0; 0; 0; 0; 0; 0; 0; 0; 0; 0; 0; 0; 1; 0].
Proof.
  rewrite autocorr_lags. unfold lag_product, far_spikes, Np.sum.
  simpl. list_eq_by ltac:(lra).
Qed.

Lemma offset_sinusoid_no_pattern (c s1 s2 : R) :
  c = 50 → 0 < s2 → s2 < s1 → s1 <= 10 →
  Detector.periodic_patterns (series (map (Rplus c) (five_cycle s1 s2))) = [].
Proof.
  intros Hc Hs2 Hs1 Hbound.
  assert (Hp : 0 < s1 * s2) by nra.
  assert (Hq : 0 < s2 * s2) by nra.
  assert (Hr : s2 * s2 < s1 * s2) by nra.
  assert (Ht : s1 * s2 < s1 * s1) by nra.
  assert (Hu : s1 * s1 <= 100) by nra.
  unfold Detector.periodic_patterns.
  change (20 <=? length (series (map (Rplus c) (five_cycle s1 s2))))%nat
    with true.
  cbv iota.
  change (History.last_n 20 (series (map (Rplus c) (five_cycle s1 s2))))
    with (series (map (Rplus c) (five_cycle s1 s2))).
  rewrite usage_series. cbv zeta.
  rewrite autocorr_lags. unfold lag_product, five_cycle, Np.sum. simpl.
  subst c.
  unfold Detector.peaks. cbn [length Nat.sub seq].
  repeat (rewrite filter_cons_False
            by (cbn [nth Nat.sub Nat.add]; intros [Hup _]; nra)).
  by rewrite filter_nil.
Qed.

(** C6 (the claim as stated fails).  For the first series the peaks are
    the lags 2, 5, 7, 10 and 12; the reported period is 2, whose
    autocorrelation is 1, but the reported strength is 12, the
    autocorrelation of lag 5.  For the second series the only lag greater
    than both its neighbours is 18, which the scan of the lags 2 to 17
    does not reach: no pattern is reported.  For the sinusoid of period 5
    and amplitude 10 around the level 50 no pattern is reported either:
    the series is correlated as it is, without removing its mean, and its
    autocorrelation decreases from lag to lag. *)
Lemma periodicity_claim_fails :
  Detector.periodic_patterns (series spikes)
  = [Detector.PERIODIC_PATTERN 2 12] ∧
  nth 2 (Detector.autocorr spikes) 0 = 1 ∧
  Detector.periodic_patterns (series far_spikes) = [] ∧
  is_peak (Detector.autocorr far_spikes) 18 ∧
  (∀ i : nat, (1 ≤ i < 18)%nat → ¬ is_peak (Detector.autocorr far_spikes) i) ∧
  Detector.periodic_patterns (series (offset_sinusoid 50 10)) = [].
Proof.
  split; [| split; [| split; [| split; [| split]]]].
  - unfold Detector.periodic_patterns.
    change (20 <=? length (series spikes))%nat with true. cbv iota.
    change (History.last_n 20 (series spikes)) with (series spikes).
    rewrite usage_series. cbv zeta. rewrite autocorr_spikes.
    unfold Detector.peaks. cbn [length Nat.sub seq Nat.ltb Nat.leb].
    repeat (first
      [ rewrite filter_cons_True by (simpl; lra)
      | rewrite filter_cons_False by (simpl; lra) ]).
    rewrite filter_nil. simpl. f_equal. f_equal.
    rewrite (Rmax_right 1 12) by lra.
    by rewrite !(Rmax_left 12 3) by lra.
  - rewrite autocorr_spikes. done.
  - unfold Detector.periodic_patterns.
    change (20 <=? length (series far_spikes))%nat with true. cbv iota.
    change (History.last_n 20 (series far_spikes)) with (series far_spikes).
    rewrite usage_series. cbv zeta. rewrite autocorr_far_spikes.
    unfold Detector.peaks. cbn [length Nat.sub seq Nat.ltb Nat.leb].
    repeat (first
      [ rewrite filter_cons_True by (simpl; lra)
      | rewrite filter_cons_False by (simpl; lra) ]).
    by rewrite filter_nil.
  - rewrite autocorr_far_spikes. unfold is_peak. simpl. lra.
  - intros i Hi. rewrite autocorr_far_spikes. unfold is_peak.
    do 18 (destruct i as [| i]; [simpl; lra |]). lia.
  - unfold offset_sinusoid. rewrite sinusoid_values.
    destruct (sinusoid_amplitudes 10) as [Hs2 Hs1]; [lra |].
    apply offset_sinusoid_no_pattern; [done | done | done |].
    pose proof (SIN_bound (2 * PI / 5)) as [_ Hle]. lra.
Qed.

(** *** What the scan reports *)

Lemma lag_product_zero_cons (x : R) (l : list R) :
  lag_product (x :: l) 0 = x * x + lag_product l 0.
Proof.
  unfold lag_product. cbn [length]. rewrite !Nat.sub_0_r.
  cbn [seq map Np.sum foldr nth Nat.add]. f_equal.
  rewrite <- seq_shift, map_map. done.
Qed.

Lemma lag_product_one_cons (x : R) (l : list R) :
  lag_product (x :: l) 1 = hd 0 l * x + lag_product l 1.
Proof.
  unfold lag_product. destruct l as [| y r].
  - simpl. lra.
  - cbn [length hd]. replace (S (S (length r)) - 1)%nat
      with (S (length r)) by lia.
    replace (S (length r) - 1)%nat with (length r) by lia.
    cbn [seq map Np.sum foldr nth Nat.add]. f_equal.
    rewrite <- seq_shift, map_map. done.
Qed.

(** The autocorrelation at lag 1 never exceeds that at lag 0, so lag 1 is
    never a peak. *)
Lemma lag_one_le_lag_zero (xs : list R) :
  lag_product xs 1 <= lag_product xs 0 - hd 0 xs * hd 0 xs / 2.
Proof.
  induction xs as [| x l IH].
  - unfold lag_product. simpl. lra.
  - rewrite lag_product_zero_cons, lag_product_one_cons. cbn [hd].
    pose proof (Rle_0_sqr (hd 0 l - x)) as Hsq. unfold Rsqr in Hsq.
    lra.
Qed.

Lemma lag_one_not_peak (xs : list R) : ¬ is_peak (Detector.autocorr xs) 1.
Proof.
  intros [Hup _]. cbn [Nat.sub] in Hup.
  destruct (decide (2 ≤ length xs)%nat) as [Hlen | Hshort].
  - rewrite !autocorr_nth in Hup by lia.
    pose proof (lag_one_le_lag_zero xs) as Hle.
    pose proof (Rle_0_sqr (hd 0 xs)) as Hsq. unfold Rsqr in Hsq. lra.
  - rewrite (nth_overflow _ 0 (n := 1)) in Hup
      by (rewrite autocorr_length; lia).
    destruct xs as [| x [| y r]]; [simpl in Hup; lra | | simpl in Hshort; lia].
    rewrite autocorr_nth in Hup by (simpl; lia).
    unfold lag_product in Hup. simpl in Hup.
    pose proof (Rle_0_sqr x) as Hsq. unfold Rsqr in Hsq. lra.
Qed.

(** C6 (as amended).  For every sequence of at least 20 samples the
    periodicity detection correlates the last 20 utilisation values with
    themselves and keeps the lags 0 to 19; it scans the lags 2 to 17 for
    values greater than both neighbours (lag 1 can never be one, the lags
    18 and 19 are not examined).  When there is none, no periodic pattern
    is emitted; otherwise the period reported is the smallest such lag and
    the strength reported is the largest autocorrelation among all such
    lags.  For the sinusoid [A sin(2 pi i / 5)], [A > 0], sampled at
    i = 0, ..., 19, the pattern reported has period 5 and as strength the
    autocorrelation at lag 5. *)
Theorem periodicity_detection :
  (∀ sequence : list Detector.sample,
     (20 ≤ length sequence)%nat →
     let xs := map Detector.usage (History.last_n 20 sequence) in
     let ac := Detector.autocorr xs in
     length xs = 20%nat ∧
     ac = map (lag_product xs) (seq 0 20) ∧
     ¬ is_peak ac 1 ∧
     Detector.detect_trends sequence
     = Detector.trend_patterns sequence
       ++ Detector.periodic_patterns sequence ∧
     ((∀ i : nat, (2 ≤ i ≤ 17)%nat → ¬ is_peak ac i) →
      Detector.periodic_patterns sequence = []) ∧
     (∀ p : nat,
        (2 ≤ p ≤ 17)%nat → is_peak ac p →
        (∀ i : nat, (2 ≤ i < p)%nat → ¬ is_peak ac i) →
        ∃ q : nat,
          (2 ≤ q ≤ 17)%nat ∧ is_peak ac q ∧
          (∀ i : nat, (2 ≤ i ≤ 17)%nat → is_peak ac i →
                      nth i ac 0 <= nth q ac 0) ∧
          Detector.periodic_patterns sequence
          = [Detector.PERIODIC_PATTERN p (nth q ac 0)])) ∧
  (∀ A : R,
     A > 0 →
     Detector.periodic_patterns (series (sinusoid A))
     = [Detector.PERIODIC_PATTERN 5
          (nth 5 (Detector.autocorr (sinusoid A)) 0)] ∧
     Detector.PERIODIC_PATTERN 5 (nth 5 (Detector.autocorr (sinusoid A)) 0)
       ∈ Detector.detect_trends (series (sinusoid A))).
Proof.
  split.
  - intros sequence Hlen xs ac.
    assert (Hxs : length xs = 20%nat).
    { subst xs. unfold History.last_n.
      rewrite length_map, length_drop. lia. }
    assert (Hac : length ac = 20%nat)
      by (subst ac; by rewrite autocorr_length).
    assert (Hpat : Detector.periodic_patterns sequence
                   = match Detector.peaks ac with
                     | [] => []
                     | first_peak :: _ =>
                         [Detector.PERIODIC_PATTERN first_peak
                            (Py.max (map (fun i => nth i ac 0)
                                         (Detector.peaks ac)))]
                     end).
    { unfold Detector.periodic_patterns.
      rewrite (proj2 (Nat.leb_le 20 _) Hlen). cbv zeta.
      fold xs. fold ac. by rewrite Hac. }
    split; [done |].
    split; [subst ac; by rewrite autocorr_lags, Hxs |].
    split; [apply lag_one_not_peak |].
    split.
    { unfold Detector.detect_trends.
      destruct (Nat.ltb_spec (length sequence) 5); [lia | done]. }
    split.
    + intros Hnone. rewrite Hpat, peaks_none; [done |].
      intros i Hi. apply Hnone. lia.
    + intros p Hp Hpeak Hbefore.
      destruct (peaks_first ac p) as [rest Hfirst]; [lia | done | done |].
      destruct (strength_is_maximum ac) as (q & Hq & Hmax & Hupper).
      { by rewrite Hfirst. }
      apply peaks_elem in Hq as [Hqrange Hqpeak].
      exists q. split; [lia |]. split; [done |]. split.
      * intros i Hi Hipeak. apply Hupper, peaks_elem. split; [lia | done].
      * rewrite Hpat, Hmax, Hfirst. done.
  - intros A HA.
    destruct (sinusoid_amplitudes A HA) as [Hs2 Hs1].
    assert (Hpat : Detector.periodic_patterns (series (sinusoid A))
                   = [Detector.PERIODIC_PATTERN 5
                        (nth 5 (Detector.autocorr (sinusoid A)) 0)]).
    { rewrite sinusoid_values, autocorr_five_cycle.
      by rewrite five_cycle_patterns. }
    split; [exact Hpat |].
    unfold Detector.detect_trends.
    change (length (series (sinusoid A)) <? 5)%nat with false. cbv iota.
    rewrite Hpat, elem_of_app. right. by apply list_elem_of_singleton.
Qed.

Lemma periodicity_detection_witness :
  (20 ≤ length (series spikes))%nat ∧
  (1 : R) > 0 ∧
  Detector.periodic_patterns (series (sinusoid 1))
  = [Detector.PERIODIC_PATTERN 5 (nth 5 (Detector.autocorr (sinusoid 1)) 0)] ∧
  ¬ is_peak
      (Detector.autocorr
         (map Detector.usage (History.last_n 20 (series spikes)))) 1.
Proof.
  assert (Hlen : (20 ≤ length (series spikes))%nat) by (simpl; lia).
  assert (Hamp : (1 : R) > 0) by lra.
  split; [exact Hlen |]. split; [exact Hamp |].
  destruct periodicity_detection as [Hgeneral Hsin]. split.
  - exact (proj1 (Hsin 1 Hamp)).
  - destruct (Hgeneral (series spikes) Hlen) as (_ & _ & Hone & _).
    exact Hone.
Defined.

(** ** The fingerprint hash *)

(** The model of [repr] and of MD5 on known values. *)
Example repr_examples :
  map Double.json_repr
    [Double.make false 0x1999999999999a (-56);
     Double.make false 0x15555555555555 (-54);
     Double.make false 0x11c37937e08000 1;
     Double.make false 0x1c6bf526340000 (-3);
     Double.make false 0x14f8b588e368f1 (-69);
     Double.make false 0x1a36e2eb1c432d (-66);
     Double.make false 1 (-1074);
     Double.make false 0x1fffffffffffff 971;
     Double.make false 0x152d02c7e14af6 24;
     Double.make true 0x13000000000000 (-49);
     Double.make false 0x1b69b4ba630f35 4;
     PrimFloat.zero; PrimFloat.nan; PrimFloat.neg_infinity]
  = ["0.1"; "0.3333333333333333"; "1e+16"; "1000000000000000.0"; "1e-05";
     "0.0001"; "5e-324"; "1.7976931348623157e+308"; "1e+23"; "-9.5";
     "1.2345678901234568e+17"; "0.0"; "NaN"; "-Infinity"].
Proof. vm_compute. reflexivity. Qed.

Example md5_examples :
  map Md5.hexdigest
    [EmptyString; "abc"; "The quick brown fox jumps over the lazy dog"]
  = ["d41d8cd98f00b204e9800998ecf8427e"; "900150983cd24fb0d6963f7d28e17f72";
     "9e107d9d372bb6826bd81d3542a419d6"].
Proof. vm_compute. reflexivity. Qed.



(** *** The JSON text can be read back *)























(** * Further properties of the code *)

(** ** What the windows hold *)

(** X1.  A process history is exactly the last 200 samples recorded for
    that process, in the order they were recorded: samples of other
    processes neither enter nor displace them. *)
Theorem process_history_is_recent_window
    (samples : list Tracker.proc_info) (p : Z) :
  History.window (foldl Tracker.record_sample ∅ samples) p
  = History.last_n 200
      (filter (fun info => Tracker.pid info = p) samples).
Proof.
  induction samples as [| info samples IH] using rev_ind.
  - simpl. unfold History.window. by rewrite lookup_empty.
  - rewrite foldl_app, filter_app. cbn [foldl].
    unfold Tracker.record_sample at 1.
    destruct (decide (Tracker.pid info = p)) as [Heq | Hne].
    + rewrite filter_cons_True by done. rewrite filter_nil.
      rewrite <- Heq at 1. rewrite window_record, Heq, IH.
      apply append_last_n. unfold Tracker.maxlen. lia.
    + rewrite filter_cons_False by done. rewrite filter_nil, app_nil_r.
      by rewrite window_record_other.
Qed.

Lemma detect_memory_patterns_state sklearn backend sequence d :
  (Detector.detect_memory_patterns sklearn backend sequence d).1
  = match stored_sample d with
    | Some item => History.append 100 sequence item
    | None => sequence
    end.
Proof.
  unfold Detector.detect_memory_patterns, stored_sample.
  by destruct (Detector.extract_features d).
Qed.

(** X2.  After any series of detection calls the stored sequence is
    exactly the last 100 samples whose feature extraction returned, in
    call order; a call that raises stores nothing.  Every stored vector
    has eight features. *)
Theorem detector_sequence_is_recent_window (sklearn : bool)
    (backend : list (list R) → list R → Py.result (R * bool))
    (calls : list Detector.memory_data) :
  detector_run sklearn backend calls
  = History.last_n 100 (omap stored_sample calls) ∧
  (length (detector_run sklearn backend calls) ≤ 100)%nat ∧
  Forall (fun item => length (Detector.features item) = 8%nat)
    (detector_run sklearn backend calls).
Proof.
  assert (Hrun : detector_run sklearn backend calls
                 = History.last_n 100 (omap stored_sample calls)).
  { unfold detector_run.
    induction calls as [| d calls IH] using rev_ind; [done |].
    rewrite foldl_app, omap_app. cbn [foldl omap].
    rewrite detect_memory_patterns_state, IH.
    destruct (stored_sample d) as [item |] eqn:Hd; simpl; rewrite Hd.
    - apply append_last_n. lia.
    - by rewrite app_nil_r. }
  split; [exact Hrun |]. split.
  - rewrite Hrun. unfold History.last_n. rewrite length_drop. lia.
  - rewrite Hrun. unfold History.last_n. apply Forall_drop.
    apply Forall_forall. intros item Hin.
    apply list_elem_of_omap in Hin as (d & _ & Hd).
    unfold stored_sample in Hd.
    destruct (Detector.extract_features d) as [cur |] eqn:Hcur; [| done].
    injection Hd as <-. simpl. by apply extract_features_length in Hcur.
Qed.

(** ** The outcome of feature extraction *)

(** X3.  [extract_features] raises exactly when the memory total is zero
    or when it is positive and equal to the used memory, and then it is a
    ZeroDivisionError; otherwise it returns eight features: the
    utilisation percentage, the available fraction, the swap percentage,
    four process features (all 0 without processes, the first the number
    of processes otherwise) and a fragmentation indicator in [0, 1]. *)
Theorem extract_features_outcome (d : Detector.memory_data) :
  let sys_mem := Detector.system_physical d in
  (Detector.extract_features d = Py.Raise Py.ZeroDivisionError
   ↔ Detector.total sys_mem = 0
     ∨ (Detector.total sys_mem > 0
        ∧ Detector.total sys_mem = Detector.used sys_mem)) ∧
  (∀ e : Py.exn,
     Detector.extract_features d = Py.Raise e → e = Py.ZeroDivisionError) ∧
  (∀ cur : list R,
     Detector.extract_features d = Py.Ok cur →
     length cur = 8%nat ∧
     nth 0 cur 0 = Detector.percent sys_mem ∧
     nth 1 cur 0 = Detector.available sys_mem / Detector.total sys_mem ∧
     nth 2 cur 0 = Detector.swap_percent d ∧
     (Detector.processes d = [] →
      nth 3 cur 0 = 0 ∧ nth 4 cur 0 = 0 ∧ nth 5 cur 0 = 0
      ∧ nth 6 cur 0 = 0) ∧
     (Detector.processes d ≠ [] →
      nth 3 cur 0 = INR (length (Detector.processes d))) ∧
     0 <= nth 7 cur 0 <= 1).
Proof.
  intros sys_mem.
  assert (Hclamp : ∀ q, 0 <= Rmax 0 (Rmin 1 q) <= 1).
  { intros q. split; [apply Rmax_l |].
    apply Rmax_lub; [lra | apply Rmin_l]. }
  destruct (decide (Detector.total sys_mem = 0)) as [Hzero | Hnz].
  { rewrite (extract_features_zero_total d Hzero).
    split; [split; [by left | done] |].
    split; [by intros e [= <-] | done]. }
  destruct (decide (Detector.total sys_mem > 0
                    ∧ Detector.total sys_mem = Detector.used sys_mem))
    as [[Hpos Hused] | Hfine].
  { rewrite (extract_features_nothing_remaining d Hpos Hused).
    split; [split; [by right | done] |].
    split; [by intros e [= <-] | done]. }
  assert (Hval : ∃ p3 p4 p5 p6 frag,
            Detector.extract_features d
            = Py.Ok [Detector.percent sys_mem;
                     Detector.available sys_mem / Detector.total sys_mem;
                     Detector.swap_percent d; p3; p4; p5; p6; frag]
            ∧ (Detector.processes d = [] →
               p3 = 0 ∧ p4 = 0 ∧ p5 = 0 ∧ p6 = 0)
            ∧ (Detector.processes d ≠ [] →
               p3 = INR (length (Detector.processes d)))
            ∧ 0 <= frag <= 1).
  { unfold Detector.extract_features. fold sys_mem.
    rewrite !(py_div_ok _ (Detector.total sys_mem)) by done.
    destruct (decide (Detector.total sys_mem > 0)) as [Hpos |].
    - rewrite (py_div_ok _ (_ - _)) by (intros Hz; apply Hfine; lra).
      destruct (Detector.processes d) as [| p ps]; simpl;
        do 5 eexists; (split; [reflexivity |]);
        (split; [by intros | split; [by intros | apply Hclamp]]).
    - destruct (Detector.processes d) as [| p ps]; simpl;
        do 5 eexists; (split; [reflexivity |]);
        (split; [by intros | split; [by intros | lra]]). }
  destruct Hval as (p3 & p4 & p5 & p6 & frag & Hval & Hnone & Hsome & Hfrag).
  rewrite Hval. split.
  { split; [done |]. intros [Hz | Hbad]; [done | by destruct Hfine]. }
  split; [done |].
  intros cur [= <-]. simpl.
  split; [done |]. split; [done |]. split; [done |]. split; [done |].
  split; [exact Hnone |]. split; [exact Hsome | exact Hfrag].
Qed.

(** ** The statistical method on steady and arbitrary histories *)

Lemma sum_bounds (xs : list R) (lo hi : R) :
  (∀ x, x ∈ xs → lo <= x <= hi) →
  INR (length xs) * lo <= Np.sum xs <= INR (length xs) * hi.
Proof.
  unfold Np.sum. induction xs as [| x xs IH]; intros Hall.
  - simpl. lra.
  - cbn [foldr length]. rewrite S_INR.
    destruct (Hall x) as [Hlo Hhi]; [apply elem_of_cons; by left |].
    destruct IH as [IHlo IHhi].
    { intros y Hy. apply Hall, elem_of_cons. by right. }
    lra.
Qed.

Lemma mean_bounds (xs : list R) (lo hi : R) :
  xs ≠ [] → (∀ x, x ∈ xs → lo <= x <= hi) → lo <= Np.mean xs <= hi.
Proof.
  intros Hne Hall. unfold Np.mean.
  assert (Hn : 0 < INR (length xs)).
  { destruct xs; [done |]. apply lt_0_INR. simpl. lia. }
  destruct (sum_bounds xs lo hi Hall) as [Hlo Hhi].
  split.
  - apply Rmult_le_reg_l with (INR (length xs)); [done |].
    replace (INR (length xs) * (Np.sum xs / INR (length xs)))
      with (Np.sum xs) by (field; lra).
    done.
  - apply Rmult_le_reg_l with (INR (length xs)); [done |].
    replace (INR (length xs) * (Np.sum xs / INR (length xs)))
      with (Np.sum xs) by (field; lra).
    done.
Qed.

Lemma mean_replicate (n : nat) (c : R) :
  (0 < n)%nat → Np.mean (replicate n c) = c.
Proof.
  intros Hn.
  assert (Hne : replicate n c ≠ []) by (destruct n; [lia | done]).
  destruct (mean_bounds (replicate n c) c c Hne) as [Hlo Hhi].
  { intros x Hx. apply elem_of_replicate in Hx as [-> _]. lra. }
  lra.
Qed.

Lemma std_replicate (n : nat) (c : R) :
  (0 < n)%nat → Np.std (replicate n c) = 0.
Proof.
  intros Hn. unfold Np.std. rewrite mean_replicate by done.
  change (map (fun x => (x - c) * (x - c)) (replicate n c))
    with ((fun x => (x - c) * (x - c)) <$> replicate n c).
  rewrite fmap_replicate.
  replace ((c - c) * (c - c)) with 0 by ring.
  rewrite mean_replicate by done. apply sqrt_0.
Qed.

Lemma column_replicate (j n : nat) (row : list R) :
  Np.column j (replicate n row) = replicate n (nth j row 0).
Proof.
  unfold Np.column.
  exact (fmap_replicate (fun r : list R => nth j r 0) n row).
Qed.

Lemma z_scores_nonneg (cur : list R) (hist : list (list R)) (z : R) :
  z ∈ Detector.z_scores cur hist → 0 <= z.
Proof.
  intros Hz. apply z_scores_elem in Hz as (j & c & _ & _ & Hstd & ->).
  apply Rmult_le_pos; [apply Rabs_pos |].
  left. by apply Rinv_0_lt_compat.
Qed.

(** X4.  Against a history of at least five feature vectors that are all
    the current vector, the status of the statistical method is NORMAL. *)
Theorem steady_history_is_normal (row : list R) (n : nat) :
  (5 ≤ n)%nat →
  (Detector.simple_anomaly_detection row (replicate n row)).2
  = Detector.NORMAL.
Proof.
  intros Hn.
  assert (Hzs : Detector.z_scores row (replicate n row) = []).
  { destruct (Detector.z_scores row (replicate n row)) as [| z zs] eqn:Hz;
      [done |].
    assert (Hin : z ∈ Detector.z_scores row (replicate n row)).
    { rewrite Hz. apply elem_of_cons. by left. }
    apply z_scores_elem in Hin as (j & c & _ & _ & Hstd & _).
    rewrite column_replicate, std_replicate in Hstd by lia. lra. }
  unfold Detector.simple_anomaly_detection.
  rewrite length_replicate.
  destruct (Nat.ltb_spec n 5); [lia |]. by rewrite Hzs.
Qed.

Lemma steady_history_is_normal_witness :
  (5 ≤ 6)%nat ∧
  (Detector.simple_anomaly_detection [50; 1] (replicate 6 [50; 1])).2
  = Detector.NORMAL.
Proof.
  split; [lia |].
  apply (steady_history_is_normal [50; 1] 6). lia.
Defined.

(** X5.  The score of the statistical method is never negative and lies
    in the band of its status: above 3 for HIGH_ANOMALY, in (2, 3] for
    MEDIUM_ANOMALY, in (1.5, 2] for LOW_ANOMALY, at most 1.5 for NORMAL,
    and 0 for fewer than five historical vectors.  The method never
    answers LEARNING or ANOMALY_DETECTED. *)
Theorem statistical_score_bands (cur : list R) (hist : list (list R)) :
  let result := Detector.simple_anomaly_detection cur hist in
  0 <= result.1 ∧
  (result.2 = Detector.HIGH_ANOMALY → 3 < result.1) ∧
  (result.2 = Detector.MEDIUM_ANOMALY → 2 < result.1 <= 3) ∧
  (result.2 = Detector.LOW_ANOMALY → 1.5 < result.1 <= 2) ∧
  (result.2 = Detector.NORMAL → result.1 <= 1.5) ∧
  (result.2 = Detector.Insufficient_historical_data
   ↔ (length hist < 5)%nat) ∧
  ((length hist < 5)%nat → result.1 = 0) ∧
  result.2 ≠ Detector.LEARNING ∧
  result.2 ≠ Detector.ANOMALY_DETECTED.
Proof.
  intros result. subst result. unfold Detector.simple_anomaly_detection.
  destruct (Nat.ltb_spec (length hist) 5) as [Hshort | Hlong].
  { simpl. repeat split; try done; try lra. }
  destruct (Detector.z_scores cur hist) as [| z zs] eqn:Hzs.
  { simpl. repeat split; try done; try lra; lia. }
  rewrite <- Hzs.
  assert (Hne : Detector.z_scores cur hist ≠ []) by (by rewrite Hzs).
  set (scores := Detector.z_scores cur hist) in *.
  assert (Hmax_in : Py.max scores ∈ scores) by (by apply py_max_elem).
  assert (Hmax0 : 0 <= Py.max scores) by (by eapply z_scores_nonneg).
  destruct (mean_bounds scores 0 (Py.max scores) Hne) as [Hmean0 Hmean_max].
  { intros x Hx. split; [by eapply z_scores_nonneg | by apply py_max_upper]. }
  destruct (decide (Py.max scores > 3));
    [simpl; repeat split; try done; try lra; lia |].
  destruct (decide (Py.max scores > 2));
    [simpl; repeat split; try done; try lra; lia |].
  destruct (decide (Np.mean scores > 1.5));
    simpl; repeat split; try done; try lra; lia.
Qed.

(** ** Trends and predictions *)

Lemma squared_error_nonneg (xs ys : list R) (a b : R) :
  0 <= squared_error xs ys a b.
Proof.
  unfold squared_error, Np.sum. revert ys.
  induction xs as [| x xs IH]; intros [| y ys]; simpl; try lra.
  specialize (IH ys).
  pose proof (Rle_0_sqr (y - (a * x + b))) as Hsq. unfold Rsqr in Hsq. lra.
Qed.

Lemma squared_error_on_line (xs : list R) (a b : R) :
  squared_error xs (map (fun x => a + b * x) xs) b a = 0.
Proof.
  unfold squared_error, Np.sum.
  induction xs as [| x xs IH]; simpl; [done |].
  rewrite IH. ring.
Qed.

(** The fit of points that lie on a line is that line. *)
Lemma polyfit1_on_line (n : nat) (a b : R) :
  (2 ≤ n)%nat →
  Np.polyfit1 (Np.arange n) (map (fun x => a + b * x) (Np.arange n))
  = (b, a).
Proof.
  intros Hn.
  set (xs := Np.arange n). set (ys := map (fun x => a + b * x) xs).
  assert (Hlen : length xs = length ys) by (subst ys; by rewrite length_map).
  destruct (polyfit1_least_squares xs ys b a Hlen (arange_spread n Hn))
    as [Hmin Hunique].
  pose proof (squared_error_nonneg xs ys (Np.polyfit1 xs ys).1
                (Np.polyfit1 xs ys).2) as Hpos.
  assert (Hline : squared_error xs ys b a = 0)
    by apply squared_error_on_line.
  destruct Hunique as [Hb Ha]; [lra |].
  destruct (Np.polyfit1 xs ys) as [slope intercept]. simpl in *.
  by rewrite Hb, Ha.
Qed.

Lemma replicate_as_line (n : nat) (c : R) :
  replicate n c = map (fun x => c + 0 * x) (Np.arange n).
Proof.
  unfold Np.arange. rewrite map_map.
  assert (Hgen : ∀ start, replicate n c
                          = map (fun i => c + 0 * INR i) (seq start n)).
  { induction n as [| n IH]; intros start; [done |].
    simpl. rewrite <- IH. f_equal. ring. }
  apply Hgen.
Qed.

Lemma map_usage_steady (c : R) (items : list Detector.sample) :
  Forall (fun item => Detector.usage item = c) items →
  map Detector.usage items = replicate (length items) c.
Proof.
  induction 1 as [| item items Hitem _ IH]; [done |].
  simpl. by rewrite Hitem, IH.
Qed.

Lemma steady_series_has_no_peak (c : R) :
  Detector.peaks (Detector.autocorr (replicate 20 c)) = [].
Proof.
  pose proof (Rle_0_sqr c) as Hsq. unfold Rsqr in Hsq.
  rewrite autocorr_lags. unfold lag_product, Np.sum. simpl.
  unfold Detector.peaks. cbn [length Nat.sub seq].
  repeat (rewrite filter_cons_False
            by (cbn [nth Nat.sub Nat.add]; intros [Hup _]; lra)).
  by rewrite filter_nil.
Qed.

(** When the utilisation feature has the same value in every stored
    sample, [detect_trends] reports nothing: the fitted slope is 0 and the
    autocorrelation has no peak. *)
Lemma steady_usage_has_no_pattern (sequence : list Detector.sample)
    (c : R) :
  Forall (fun item => Detector.usage item = c) sequence →
  Detector.detect_trends sequence = [].
Proof.
  intros Hsteady. unfold Detector.detect_trends.
  destruct (Nat.ltb_spec (length sequence) 5) as [| Hlen]; [done |].
  assert (Htrend : Detector.trend_patterns sequence = []).
  { unfold Detector.trend_patterns.
    rewrite (map_usage_steady c) by (by apply Forall_drop).
    rewrite length_replicate.
    destruct (5 <=? _)%nat eqn:Hfive; [| done].
    apply Nat.leb_le in Hfive.
    rewrite replicate_as_line, polyfit1_on_line by lia. simpl.
    rewrite !decide_False by lra. done. }
  assert (Hperiodic : Detector.periodic_patterns sequence = []).
  { unfold Detector.periodic_patterns.
    destruct (Nat.leb_spec 20 (length sequence)) as [Htwenty |]; [| done].
    rewrite (map_usage_steady c) by (by apply Forall_drop).
    assert (Hlast : length (History.last_n 20 sequence) = 20%nat).
    { unfold History.last_n. rewrite length_drop. lia. }
    rewrite Hlast, steady_series_has_no_peak.
    by destruct (5 <? _)%nat. }
  by rewrite Htrend, Hperiodic.
Qed.

(** X6.  When the last ten utilisation values (all of them, if there are
    fewer) grow linearly, [a + b * i], the trend found depends on the step
    [b] alone, and is stated here for the steps off the thresholds 1, 5
    and -1 of the code: INCREASING with slope [b] and severity HIGH for
    [b > 5], INCREASING with slope [b] and severity MEDIUM for
    [1 < b < 5], no trend pattern for [-1 < b < 1], and DECREASING with
    slope [b] and severity LOW for [b < -1].  The trend comes before any
    periodic pattern. *)
Theorem linear_usage_trend (sequence : list Detector.sample) (a b : R) :
  (5 ≤ length sequence)%nat →
  map Detector.usage (History.last_n 10 sequence)
  = map (fun x => a + b * x)
        (Np.arange (length (History.last_n 10 sequence))) →
  (5 < b →
   Detector.detect_trends sequence
   = Detector.INCREASING_MEMORY_USAGE b Detector.HIGH
     :: Detector.periodic_patterns sequence) ∧
  (1 < b < 5 →
   Detector.detect_trends sequence
   = Detector.INCREASING_MEMORY_USAGE b Detector.MEDIUM
     :: Detector.periodic_patterns sequence) ∧
  (-1 < b < 1 →
   Detector.detect_trends sequence = Detector.periodic_patterns sequence) ∧
  (b < -1 →
   Detector.detect_trends sequence
   = Detector.DECREASING_MEMORY_USAGE b Detector.LOW
     :: Detector.periodic_patterns sequence).
Proof.
  intros Hlen Hline.
  assert (Htrend : Detector.detect_trends sequence
    = (if decide (b > 1) then
         [Detector.INCREASING_MEMORY_USAGE b
            (if decide (b > 5) then Detector.HIGH else Detector.MEDIUM)]
       else if decide (b < -1) then
         [Detector.DECREASING_MEMORY_USAGE b Detector.LOW]
       else [])
      ++ Detector.periodic_patterns sequence).
  { unfold Detector.detect_trends.
    destruct (Nat.ltb_spec (length sequence) 5); [lia |].
    f_equal. unfold Detector.trend_patterns.
    assert (Hwindow : (5 ≤ length (History.last_n 10 sequence))%nat).
    { unfold History.last_n. rewrite length_drop. lia. }
    rewrite length_map, (proj2 (Nat.leb_le 5 _) Hwindow).
    rewrite Hline, polyfit1_on_line by lia. done. }
  rewrite Htrend. split_and!; intros Hb.
  - rewrite (decide_True (P := b > 1)) by lra.
    by rewrite (decide_True (P := b > 5)) by lra.
  - rewrite (decide_True (P := b > 1)) by lra.
    by rewrite (decide_False (P := b > 5)) by lra.
  - rewrite (decide_False (P := b > 1)) by lra.
    by rewrite (decide_False (P := b < -1)) by lra.
  - rewrite (decide_False (P := b > 1)) by lra.
    by rewrite (decide_True (P := b < -1)) by lra.
Qed.

Lemma linear_usage_trend_witness :
  let sequence := series (map (fun x => 10 + 6 * x) (Np.arange 6)) in
  (5 ≤ length sequence)%nat ∧
  map Detector.usage (History.last_n 10 sequence)
  = map (fun x => 10 + 6 * x)
        (Np.arange (length (History.last_n 10 sequence))) ∧
  Detector.detect_trends sequence
  = [Detector.INCREASING_MEMORY_USAGE 6 Detector.HIGH].
Proof.
  intros sequence.
  assert (Hlen : (5 ≤ length sequence)%nat) by (simpl; lia).
  assert (Hline : map Detector.usage (History.last_n 10 sequence)
                  = map (fun x => 10 + 6 * x)
                        (Np.arange (length (History.last_n 10 sequence)))).
  { change (History.last_n 10 sequence) with sequence.
    subst sequence. by rewrite usage_series. }
  split; [exact Hlen |]. split; [exact Hline |].
  destruct (linear_usage_trend sequence 10 6 Hlen Hline) as [Hhigh _].
  rewrite Hhigh by lra. done.
Defined.

(** X7.  [simple_predictions] returns nothing for fewer than five samples
    and otherwise exactly three predictions, 30, 60 and 90 seconds ahead,
    of one common confidence, each predicted usage within [0, 100]. *)
Theorem predictions_are_clamped (sequence : list Detector.sample) :
  ((length sequence < 5)%nat → Detector.simple_predictions sequence = []) ∧
  ((5 ≤ length sequence)%nat →
   ∃ (u1 u2 u3 : R) (confidence : Detector.severity),
     Detector.simple_predictions sequence
     = [Detector.UsagePrediction 30 u1 confidence;
        Detector.UsagePrediction 60 u2 confidence;
        Detector.UsagePrediction 90 u3 confidence] ∧
     0 <= u1 <= 100 ∧ 0 <= u2 <= 100 ∧ 0 <= u3 <= 100 ∧
     (confidence = Detector.LOW ∨ confidence = Detector.MEDIUM)).
Proof.
  assert (Hclamp : ∀ q, 0 <= Rmax 0 (Rmin 100 q) <= 100).
  { intros q. split; [apply Rmax_l |].
    apply Rmax_lub; [lra | apply Rmin_l]. }
  unfold Detector.simple_predictions. split.
  - intros Hshort.
    by destruct (Nat.ltb_spec (length sequence) 5); [| lia].
  - intros Hlen.
    destruct (Nat.ltb_spec (length sequence) 5); [lia |].
    assert (Hfive : length (map Detector.usage (History.last_n 5 sequence))
                    = 5%nat).
    { unfold History.last_n. rewrite length_map, length_drop. lia. }
    rewrite Hfive. cbn [Nat.leb map Nat.mul Nat.add].
    do 4 eexists. split; [reflexivity |].
    split; [apply Hclamp |]. split; [apply Hclamp |].
    split; [apply Hclamp |].
    destruct (decide _); [by left | by right].
Qed.

Lemma predictions_are_clamped_witness :
  (5 ≤ length (series spikes))%nat ∧
  length (Detector.simple_predictions (series spikes)) = 3%nat.
Proof.
  assert (Hlen : (5 ≤ length (series spikes))%nat) by (simpl; lia).
  split; [exact Hlen |].
  destruct (predictions_are_clamped (series spikes)) as [_ Hthree].
  destruct (Hthree Hlen) as (u1 & u2 & u3 & conf & -> & _). done.
Defined.

(** X8.  When the last five utilisation values grow linearly,
    [a + b * i] for i = 0, ..., 4, the three predictions continue the
    line, [a + 5 b], [a + 6 b] and [a + 7 b], cut to [0, 100]; their
    common confidence is LOW for [|b| > 5] and MEDIUM for [|b| < 5]. *)
Theorem linear_usage_is_extrapolated (sequence : list Detector.sample)
    (a b : R) :
  (5 ≤ length sequence)%nat →
  map Detector.usage (History.last_n 5 sequence)
  = map (fun x => a + b * x) (Np.arange 5) →
  ∃ confidence : Detector.severity,
    Detector.simple_predictions sequence
    = map (fun '(t, k) =>
             Detector.UsagePrediction t (Rmax 0 (Rmin 100 (a + k * b)))
               confidence)
          [(30%nat, 5); (60%nat, 6); (90%nat, 7)] ∧
    (Rabs b > 5 → confidence = Detector.LOW) ∧
    (Rabs b < 5 → confidence = Detector.MEDIUM).
Proof.
  intros Hlen Hline.
  exists (if decide (Rabs b > 5) then Detector.LOW else Detector.MEDIUM).
  split; [| split].
  - unfold Detector.simple_predictions.
    destruct (Nat.ltb_spec (length sequence) 5); [lia |].
    rewrite Hline. change (length (map _ (Np.arange 5))) with 5%nat.
    rewrite polyfit1_on_line by lia.
    cbn [Nat.leb map fst snd Nat.mul Nat.add INR].
    repeat (f_equal; try lra).
  - intros Hb. by rewrite decide_True.
  - intros Hb. by rewrite decide_False by lra.
Qed.

Lemma linear_usage_is_extrapolated_witness :
  let sequence := series (map (fun x => 80 + 4 * x) (Np.arange 5)) in
  (5 ≤ length sequence)%nat ∧
  map Detector.usage (History.last_n 5 sequence)
  = map (fun x => 80 + 4 * x) (Np.arange 5) ∧
  Detector.simple_predictions sequence
  = [Detector.UsagePrediction 30 100 Detector.MEDIUM;
     Detector.UsagePrediction 60 100 Detector.MEDIUM;
     Detector.UsagePrediction 90 100 Detector.MEDIUM].
Proof.
  intros sequence.
  assert (Hlen : (5 ≤ length sequence)%nat) by (simpl; lia).
  assert (Hline : map Detector.usage (History.last_n 5 sequence)
                  = map (fun x => 80 + 4 * x) (Np.arange 5)).
  { change (History.last_n 5 sequence) with sequence.
    subst sequence. by rewrite usage_series. }
  split; [exact Hlen |]. split; [exact Hline |].
  destruct (linear_usage_is_extrapolated sequence 80 4 Hlen Hline)
    as (confidence & -> & _ & Hmedium).
  rewrite Hmedium by (rewrite Rabs_right by lra; lra).
  cbn [map].
  rewrite !(Rmin_left 100) by lra. rewrite !Rmax_right by lra. done.
Defined.

(** ** What a reported period satisfies *)

Lemma sum_map_le {A} (f g : A → R) (l : list A) :
  (∀ x, x ∈ l → f x <= g x) → Np.sum (map f l) <= Np.sum (map g l).
Proof.
  unfold Np.sum. intros Hle. induction l as [| x l IH]; simpl; [lra |].
  assert (f x <= g x) by (apply Hle, elem_of_cons; by left).
  assert (foldr Rplus 0 (map f l) <= foldr Rplus 0 (map g l)).
  { apply IH. intros y Hy. apply Hle, elem_of_cons. by right. }
  lra.
Qed.

Lemma sum_map_plus {A} (f g : A → R) (l : list A) :
  Np.sum (map (fun x => f x + g x) l) = Np.sum (map f l) + Np.sum (map g l).
Proof.
  unfold Np.sum. induction l as [| x l IH]; simpl; [lra |].
  rewrite IH. lra.
Qed.

Lemma sum_squares_shift (xs : list R) (start len : nat) :
  Np.sum (map (fun i => nth (i + start) xs 0 * nth (i + start) xs 0)
            (seq 0 len))
  = Np.sum (map (fun j => nth j xs 0 * nth j xs 0) (seq start len)).
Proof.
  assert (Hseq : seq start len = map (Nat.add start) (seq 0 len)).
  { pose proof (fmap_add_seq start 0 len) as Hshift.
    rewrite Nat.add_0_r in Hshift. by rewrite <- Hshift. }
  rewrite Hseq, map_map. apply sum_map_ext. intros i _.
  by rewrite (Nat.add_comm start i).
Qed.

Lemma sum_squares_part (xs : list R) (start len : nat) :
  (start + len ≤ length xs)%nat →
  Np.sum (map (fun j => nth j xs 0 * nth j xs 0) (seq start len))
  <= Np.sum (map (fun j => nth j xs 0 * nth j xs 0) (seq 0 (length xs))).
Proof.
  intros Hfit.
  assert (Hpos : ∀ l : list nat,
            0 <= Np.sum (map (fun j => nth j xs 0 * nth j xs 0) l)).
  { intros l. unfold Np.sum. induction l as [| j l IH]; simpl; [lra |].
    pose proof (Rle_0_sqr (nth j xs 0)) as Hsq. unfold Rsqr in Hsq. lra. }
  replace (length xs) with (start + (len + (length xs - start - len)))%nat
    by lia.
  rewrite !seq_app, !map_app, !sum_app. simpl.
  pose proof (Hpos (seq 0 start)).
  pose proof (Hpos (seq (start + len) (length xs - start - len))).
  lra.
Qed.

(** The autocorrelation at any lag is at most the one at lag 0, the sum
    of the squares. *)
Lemma lag_product_le_energy (xs : list R) (k : nat) :
  lag_product xs k <= lag_product xs 0.
Proof.
  set (square := fun j => nth j xs 0 * nth j xs 0).
  assert (Henergy : lag_product xs 0 = Np.sum (map square (seq 0 (length xs)))).
  { unfold lag_product. rewrite Nat.sub_0_r. apply sum_map_ext.
    intros i _. unfold square. by rewrite Nat.add_0_r. }
  assert (Hhalf :
    2 * lag_product xs k
    <= Np.sum (map (fun i => square (i + k)%nat) (seq 0 (length xs - k)))
       + Np.sum (map square (seq 0 (length xs - k)))).
  { rewrite <- sum_map_plus. unfold lag_product.
    assert (Hdouble : ∀ l : list R,
              2 * Np.sum l = Np.sum (map (fun x => 2 * x) l)).
    { intros l. unfold Np.sum. induction l as [| x l IH]; simpl; [lra |].
      rewrite <- IH. lra. }
    rewrite Hdouble, map_map. apply sum_map_le. intros i _. unfold square.
    pose proof (Rle_0_sqr (nth (i + k) xs 0 - nth i xs 0)) as Hsq.
    unfold Rsqr in Hsq. lra. }
  assert (Hshifted :
    Np.sum (map (fun i => square (i + k)%nat) (seq 0 (length xs - k)))
    <= lag_product xs 0).
  { rewrite Henergy. unfold square. rewrite sum_squares_shift.
    destruct (Nat.le_gt_cases k (length xs)) as [Hk | Hk].
    - apply sum_squares_part. lia.
    - replace (length xs - k)%nat with 0%nat by lia.
      change (seq k 0) with (seq 0 0).
      apply (sum_squares_part xs 0 0). lia. }
  assert (Hfront :
    Np.sum (map square (seq 0 (length xs - k))) <= lag_product xs 0).
  { rewrite Henergy. apply (sum_squares_part xs 0). lia. }
  lra.
Qed.

Lemma trend_patterns_not_periodic (sequence : list Detector.sample)
    (p : nat) (s : R) :
  Detector.PERIODIC_PATTERN p s ∉ Detector.trend_patterns sequence.
Proof.
  unfold Detector.trend_patterns.
  destruct (5 <=? _)%nat; [| apply not_elem_of_nil].
  repeat destruct (decide _);
    try apply not_elem_of_nil;
    intros Hin; apply list_elem_of_singleton in Hin; discriminate.
Qed.

(** X9.  A periodic pattern is reported only from 20 stored samples on.
    Its period is one of the lags 2 to 17, and its strength lies between
    the autocorrelation of the last 20 utilisation values at the reported
    period and their autocorrelation at lag 0, the sum of their
    squares. *)
Theorem reported_period_bounds (sequence : list Detector.sample)
    (p : nat) (s : R) :
  Detector.PERIODIC_PATTERN p s ∈ Detector.detect_trends sequence →
  let xs := map Detector.usage (History.last_n 20 sequence) in
  (20 ≤ length sequence)%nat ∧ (2 ≤ p ≤ 17)%nat ∧
  lag_product xs p <= s <= lag_product xs 0.
Proof.
  intros Hin xs. unfold Detector.detect_trends in Hin.
  destruct (length sequence <? 5)%nat; [by apply elem_of_nil in Hin |].
  apply elem_of_app in Hin as [Hin | Hin];
    [by apply trend_patterns_not_periodic in Hin |].
  unfold Detector.periodic_patterns in Hin. fold xs in Hin.
  destruct (Nat.leb_spec 20 (length sequence)) as [Hlen |];
    [| by apply elem_of_nil in Hin].
  assert (Hxs : length xs = 20%nat).
  { unfold xs, History.last_n. rewrite length_map, length_drop. lia. }
  destruct (5 <? _)%nat; [| by apply elem_of_nil in Hin].
  destruct (Detector.peaks (Detector.autocorr xs)) as [| first rest] eqn:Hpeaks;
    [by apply elem_of_nil in Hin |].
  apply list_elem_of_singleton in Hin. injection Hin as -> ->.
  assert (Hfirst : first ∈ Detector.peaks (Detector.autocorr xs)).
  { rewrite Hpeaks. apply elem_of_cons. by left. }
  pose proof Hfirst as Hrange.
  apply peaks_elem in Hrange as [Hrange _].
  rewrite autocorr_length, Hxs in Hrange.
  destruct (strength_is_maximum (Detector.autocorr xs))
    as (q & Hq & Hmax & Hupper); [by rewrite Hpeaks |].
  rewrite Hpeaks in Hmax. simpl in Hmax. rewrite Hmax.
  pose proof (Hupper first Hfirst) as Hlower.
  apply peaks_elem in Hq as [Hq _].
  rewrite autocorr_length, Hxs in Hq.
  rewrite !autocorr_nth in Hlower by lia.
  rewrite autocorr_nth by lia.
  pose proof (lag_product_le_energy xs q).
  split; [done |]. split; [lia |]. lra.
Qed.

Lemma reported_period_bounds_witness :
  let sequence := series (five_cycle 2 1) in
  let xs := map Detector.usage (History.last_n 20 sequence) in
  Detector.PERIODIC_PATTERN 5 (6 * 2 * 2 + 6 * 1 * 1)
    ∈ Detector.detect_trends sequence ∧
  (20 ≤ length sequence)%nat ∧ (2 ≤ 5 ≤ 17)%nat ∧
  lag_product xs 5 <= 6 * 2 * 2 + 6 * 1 * 1 <= lag_product xs 0.
Proof.
  intros sequence xs.
  assert (Hin : Detector.PERIODIC_PATTERN 5 (6 * 2 * 2 + 6 * 1 * 1)
                  ∈ Detector.detect_trends sequence).
  { unfold Detector.detect_trends.
    change (length sequence <? 5)%nat with false. cbv iota.
    apply elem_of_app. right. unfold sequence.
    rewrite five_cycle_patterns by lra.
    apply list_elem_of_singleton. done. }
  split; [exact Hin |].
  exact (reported_period_bounds sequence 5 _ Hin).
Defined.

(** ** Which method answers a detection *)

(** X10.  A detection call whose features could be extracted always
    returns a result, and the number [stored] of samples held after the
    call decides how it was computed: below 5 the status is LEARNING and
    no method is named; at exactly 5 the statistical method answers
    [Insufficient historical data]; from 5 on the method is
    [statistical] unless the model backend is available and [stored] is
    at least 11, where it is [machine_learning] or, with the error
    attached, [statistical_fallback].  ANOMALY_DETECTED is a status of the
    model alone. *)
Theorem detection_method_by_sample_count (sklearn : bool)
    (backend : list (list R) → list R → Py.result (R * bool))
    (sequence : list Detector.sample) (d : Detector.memory_data)
    (cur : list R) :
  Detector.extract_features d = Py.Ok cur →
  let outcome := Detector.detect_memory_patterns sklearn backend sequence d in
  let stored := length outcome.1 in
  ∃ a : Detector.analysis,
    outcome.2 = Py.Ok a ∧
    (Detector.status_of a = Detector.LEARNING ↔ (stored < 5)%nat) ∧
    (Detector.method_tag a = None ↔ (stored < 5)%nat) ∧
    (Detector.status_of a = Detector.Insufficient_historical_data
     ↔ stored = 5%nat) ∧
    (Detector.method_tag a = Some Detector.statistical
     ↔ (5 ≤ stored)%nat ∧ (sklearn = false ∨ (stored ≤ 10)%nat)) ∧
    (Detector.method_tag a = Some Detector.machine_learning ∨
     Detector.method_tag a = Some Detector.statistical_fallback
     ↔ sklearn = true ∧ (11 ≤ stored)%nat) ∧
    (Detector.error a ≠ None
     ↔ Detector.method_tag a = Some Detector.statistical_fallback) ∧
    (Detector.status_of a = Detector.ANOMALY_DETECTED →
     Detector.method_tag a = Some Detector.machine_learning).
Proof.
  intros Hcur outcome stored. subst outcome stored.
  rewrite (detect_memory_patterns_ok _ _ _ _ _ Hcur). cbn [fst snd].
  set (sequence' := History.append 100 sequence _).
  eexists. split; [reflexivity |].
  unfold Detector.analyse.
  destruct (Nat.ltb_spec (length sequence') 5) as [Hshort | Hlong].
  { cbn. split_and!; intuition (try discriminate; try lia). }
  set (historical := map Detector.features _).
  assert (Hhist : length historical = (length sequence' - 1)%nat).
  { unfold historical. rewrite length_map, length_take. lia. }
  destruct (simple_status_cases cur historical) as [Hfew Hmany].
  assert (Hsimple :
    (Detector.simple_anomaly_detection cur historical).2 ≠ Detector.LEARNING ∧
    (Detector.simple_anomaly_detection cur historical).2
      ≠ Detector.ANOMALY_DETECTED ∧
    ((Detector.simple_anomaly_detection cur historical).2
       = Detector.Insufficient_historical_data
     ↔ length sequence' = 5%nat)).
  { destruct (Nat.lt_ge_cases (length historical) 5) as [Hlt | Hge].
    - rewrite (Hfew Hlt). cbn. split_and!; intuition (try discriminate; try lia).
    - destruct (Hmany Hge) as [-> | [-> | [-> | ->]]];
        split_and!; intuition (try discriminate; try lia). }
  clear Hfew Hmany.
  destruct Hsimple as (Hlearning & Hmodel & Hinsufficient).
  destruct sklearn; cbn [andb].
  - destruct (Nat.leb_spec 10 (length historical)) as [Hten | Hten].
    + unfold Detector.ml_anomaly_detection.
      destruct (backend historical cur) as [[score []] | e]; cbn;
        split_and!; intuition (try discriminate; try lia).
    + cbn. split_and!; intuition (try discriminate; try lia).
  - cbn. split_and!; intuition (try discriminate; try lia).
Qed.

Lemma detection_method_by_sample_count_witness :
  Detector.extract_features sample_data = Py.Ok sample_features ∧
  ∃ a : Detector.analysis,
    (Detector.detect_memory_patterns true
       (fun _ _ => Py.Raise (Py.ModelError "not fitted")) [] sample_data).2
    = Py.Ok a ∧
    Detector.status_of a = Detector.LEARNING.
Proof.
  split; [exact extract_sample_data |].
  destruct (detection_method_by_sample_count true
              (fun _ _ => Py.Raise (Py.ModelError "not fitted")) []
              sample_data sample_features extract_sample_data)
    as (a & Hresult & Hlearning & _).
  exists a. split; [exact Hresult |].
  apply Hlearning. rewrite (detect_memory_patterns_ok _ _ _ _ _ extract_sample_data).
  simpl. lia.
Defined.

(** ** Insights *)

Lemma concat_map_nil {A B} (f : A → list B) (l : list A) :
  Forall (fun x => f x = []) l → concat (map f l) = [].
Proof.
  induction 1 as [| x l Hx _ IH]; [done |].
  simpl. by rewrite Hx, IH.
Qed.

Lemma ml_predictions_are_trends (X : list (list R)) :
  Forall (fun p => Insights.prediction_insights p = [])
    (Detector.ml_predictions X).
Proof.
  unfold Detector.ml_predictions.
  destruct (length X <? 5)%nat; [by apply Forall_nil |].
  apply Forall_forall. intros p Hp.
  apply list_elem_of_omap in Hp as (j & _ & Hj).
  destruct (3 <=? _)%nat; [| done].
  destruct (decide _); [| done].
  by injection Hj as <-.
Qed.

(** X11.  When the model answers, the only insight [generate_insights]
    can give for its result is the one on high variability, present
    exactly when the model path found such a pattern: the status
    ANOMALY_DETECTED has no message, and the model's predictions are
    never reported. *)
Theorem model_result_insights
    (backend : list (list R) → list R → Py.result (R * bool))
    (cur : list R) (historical : list (list R))
    (score : R) (is_anomaly : bool) :
  backend historical cur = Py.Ok (score, is_anomaly) →
  Insights.generate_insights
    (Detector.ml_anomaly_detection backend cur historical)
  = match Detector.detect_ml_patterns historical with
    | [] => []
    | _ => [Insights.HighVariability]
    end.
Proof.
  intros Hfit. unfold Detector.ml_anomaly_detection. rewrite Hfit.
  unfold Insights.generate_insights. cbn [Detector.status_of
    Detector.patterns Detector.predictions].
  rewrite (concat_map_nil Insights.prediction_insights)
    by (apply Forall_take, ml_predictions_are_trends).
  rewrite app_nil_r.
  assert (Hstatus : Insights.status_insights
            (if is_anomaly then Detector.ANOMALY_DETECTED
             else Detector.NORMAL) = []) by (by destruct is_anomaly).
  rewrite Hstatus. cbn [app].
  unfold Detector.detect_ml_patterns.
  destruct (length historical <? 10)%nat; [done |].
  by destruct (filter _ _).
Qed.

Lemma model_result_insights_witness :
  let backend := fun (_ : list (list R)) (_ : list R) =>
                   Py.Ok (-0.2, true) : Py.result (R * bool) in
  backend [] sample_features = Py.Ok (-0.2, true) ∧
  Insights.generate_insights
    (Detector.ml_anomaly_detection backend sample_features [])
  = [].
Proof.
  intros backend. split; [reflexivity |].
  exact (model_result_insights backend sample_features [] (-0.2) true
           eq_refl).
Defined.

Lemma steady_predictions (sequence : list Detector.sample) (c : R) :
  (5 ≤ length sequence)%nat →
  Forall (fun item => Detector.usage item = c) sequence →
  Detector.simple_predictions sequence
  = map (fun t => Detector.UsagePrediction t (Rmax 0 (Rmin 100 c))
                    Detector.MEDIUM)
        [30; 60; 90]%nat.
Proof.
  intros Hlen Hsteady. unfold Detector.simple_predictions.
  destruct (Nat.ltb_spec (length sequence) 5); [lia |].
  rewrite (map_usage_steady c) by (by apply Forall_drop).
  assert (Hfive : length (History.last_n 5 sequence) = 5%nat).
  { unfold History.last_n. rewrite length_drop. lia. }
  rewrite Hfive, length_replicate.
  rewrite replicate_as_line, polyfit1_on_line by lia.
  cbn [Nat.leb map fst snd Nat.mul Nat.add INR].
  assert (Hconf : ¬ Rabs 0 > 5) by (rewrite Rabs_R0; lra).
  rewrite !decide_False by exact Hconf.
  repeat (f_equal; try lra).
Qed.

(** X12.  For a system whose utilisation has been the same value [c] in
    all (at least five) stored samples, the statistical analysis finds no
    pattern and predicts [c], cut to [0, 100], for 30, 60 and 90 seconds
    ahead with confidence MEDIUM.  Beside the message of the status, the
    insights are the two high-usage warnings of the first two predictions
    when [c > 90], and nothing otherwise. *)
Theorem steady_system_analysis
    (backend : list (list R) → list R → Py.result (R * bool))
    (cur : list R) (sequence : list Detector.sample) (c : R) :
  (5 ≤ length sequence)%nat →
  Forall (fun item => Detector.usage item = c) sequence →
  let a := Detector.analyse false backend cur sequence in
  Detector.method_tag a = Some Detector.statistical ∧
  Detector.patterns a = [] ∧
  Detector.predictions a
  = map (fun t => Detector.UsagePrediction t (Rmax 0 (Rmin 100 c))
                    Detector.MEDIUM)
        [30; 60; 90]%nat ∧
  Insights.generate_insights a
  = Insights.status_insights (Detector.status_of a)
    ++ (if decide (c > 90)
        then [Insights.PredictedHigh (Rmin 100 c);
              Insights.PredictedHigh (Rmin 100 c)]
        else []).
Proof.
  intros Hlen Hsteady a. subst a. unfold Detector.analyse.
  destruct (Nat.ltb_spec (length sequence) 5); [lia |].
  cbn [andb Detector.method_tag Detector.patterns Detector.predictions].
  rewrite (steady_usage_has_no_pattern sequence c Hsteady).
  rewrite (steady_predictions sequence c Hlen Hsteady).
  split; [done |]. split; [done |]. split; [done |].
  unfold Insights.generate_insights.
  cbn [Detector.status_of Detector.patterns Detector.predictions
       map concat take app Insights.prediction_insights].
  f_equal.
  destruct (decide (c > 90)) as [Hhigh | Hlow].
  - assert (Hclamp : Rmax 0 (Rmin 100 c) = Rmin 100 c).
    { apply Rmax_right. apply Rmin_glb; lra. }
    rewrite Hclamp.
    assert (Hmin : Rmin 100 c > 90) by (apply Rmin_glb_lt; lra).
    rewrite !decide_True by exact Hmin. done.
  - assert (Hclamp : ¬ Rmax 0 (Rmin 100 c) > 90).
    { intros Habove. apply Hlow.
      pose proof (Rmin_r 100 c).
      destruct (Rle_dec 0 (Rmin 100 c)).
      - rewrite Rmax_right in Habove by done. lra.
      - rewrite Rmax_left in Habove by lra. lra. }
    rewrite !decide_False by exact Hclamp. done.
Qed.

Lemma steady_system_analysis_witness :
  let sequence := replicate 6 (Detector.Sample "t" [95]) in
  (5 ≤ length sequence)%nat ∧
  Forall (fun item => Detector.usage item = 95) sequence ∧
  Detector.patterns
    (Detector.analyse false (fun _ _ => Py.Ok (0, false)) [95] sequence)
  = [].
Proof.
  intros sequence.
  assert (Hlen : (5 ≤ length sequence)%nat) by (simpl; lia).
  assert (Hsteady : Forall (fun item => Detector.usage item = 95) sequence).
  { apply Forall_forall. intros item Hin.
    apply elem_of_replicate in Hin as [-> _]. done. }
  split; [exact Hlen |]. split; [exact Hsteady |].
  exact (proj1 (proj2 (steady_system_analysis (fun _ _ => Py.Ok (0, false))
                         [95] sequence 95 Hlen Hsteady))).
Defined.

Lemma simple_predictions_clamped (sequence : list Detector.sample) :
  Forall (fun p => ∃ (t : nat) (u : R) (conf : Detector.severity),
                     p = Detector.UsagePrediction t u conf ∧ 0 <= u <= 100)
    (Detector.simple_predictions sequence).
Proof.
  unfold Detector.simple_predictions.
  destruct (length sequence <? 5)%nat; [by apply Forall_nil |].
  destruct (3 <=? _)%nat; [| by apply Forall_nil].
  apply Forall_forall. intros p Hp.
  apply list_elem_of_fmap in Hp as (i & -> & _).
  do 3 eexists. split; [reflexivity |].
  split; [apply Rmax_l |].
  apply Rmax_lub; [lra | apply Rmin_l].
Qed.

Lemma elem_of_concat_map {A B} (f : A → list B) (l : list A) (y : B) :
  y ∈ concat (map f l) → ∃ x, x ∈ l ∧ y ∈ f x.
Proof.
  induction l as [| x l IH]; simpl; intros Hy.
  - by apply elem_of_nil in Hy.
  - apply elem_of_app in Hy as [Hy | Hy].
    + exists x. split; [apply elem_of_cons; by left | done].
    + destruct (IH Hy) as (x' & Hx' & Hy').
      exists x'. split; [apply elem_of_cons; by right | done].
Qed.

(** X13.  A high-usage warning among the insights of an analysis always
    comes from the statistical method on at least five stored samples,
    and the usage it displays is above 90 and at most 100. *)
Theorem predicted_high_comes_from_statistics (sklearn : bool)
    (backend : list (list R) → list R → Py.result (R * bool))
    (cur : list R) (sequence : list Detector.sample) (u : R) :
  let a := Detector.analyse sklearn backend cur sequence in
  Insights.PredictedHigh u ∈ Insights.generate_insights a →
  90 < u <= 100 ∧ (5 ≤ length sequence)%nat ∧
  Detector.method_tag a = Some Detector.statistical.
Proof.
  intros a Hin. unfold Insights.generate_insights in Hin.
  assert (Hstatus : ∀ s, Insights.PredictedHigh u
                           ∉ Insights.status_insights s).
  { intros s Hs. destruct s; simpl in Hs;
      try (by apply elem_of_nil in Hs);
      apply list_elem_of_singleton in Hs; discriminate. }
  assert (Hpattern : ∀ ps, Insights.PredictedHigh u
                             ∉ concat (map Insights.pattern_insights ps)).
  { intros ps Hps. apply elem_of_concat_map in Hps as (p & _ & Hp).
    destruct p; simpl in Hp;
      try (by apply elem_of_nil in Hp);
      apply list_elem_of_singleton in Hp; discriminate. }
  apply elem_of_app in Hin as [Hin | Hin]; [by apply Hstatus in Hin |].
  apply elem_of_app in Hin as [Hin | Hin]; [by apply Hpattern in Hin |].
  apply elem_of_concat_map in Hin as (p & Hp & Hu).
  apply elem_of_take in Hp as (i & Hp & _).
  apply list_elem_of_lookup_2 in Hp.
  subst a. unfold Detector.analyse in *.
  destruct (Nat.ltb_spec (length sequence) 5) as [| Hlen];
    [by apply elem_of_nil in Hp |].
  assert (Hstatistical :
    p ∈ Detector.simple_predictions sequence → 90 < u <= 100).
  { intros Hsimple.
    pose proof (simple_predictions_clamped sequence) as Hall.
    rewrite Forall_forall in Hall.
    destruct (Hall p Hsimple) as (t & v & conf & -> & Hv).
    simpl in Hu. destruct (decide (v > 90)); [| by apply elem_of_nil in Hu].
    apply list_elem_of_singleton in Hu. injection Hu as ->. lra. }
  destruct (sklearn && _).
  - unfold Detector.ml_anomaly_detection in *.
    destruct (backend _ cur) as [[score is_anomaly] | e];
      cbn [Detector.predictions] in Hp.
    + pose proof (ml_predictions_are_trends
                    (map Detector.features
                       (take (length sequence - 1) sequence))) as Hall.
      rewrite Forall_forall in Hall. rewrite (Hall p Hp) in Hu.
      by apply elem_of_nil in Hu.
    + by apply elem_of_nil in Hp.
  - cbn [Detector.predictions Detector.method_tag] in *. auto.
Qed.

Lemma predicted_high_comes_from_statistics_witness :
  let sequence := replicate 6 (Detector.Sample "t" [95]) in
  let a := Detector.analyse false (fun _ _ => Py.Ok (0, false)) [95]
             sequence in
  Insights.PredictedHigh (Rmin 100 95) ∈ Insights.generate_insights a ∧
  90 < Rmin 100 95 <= 100.
Proof.
  intros sequence a.
  assert (Hin : Insights.PredictedHigh (Rmin 100 95)
                  ∈ Insights.generate_insights a).
  { unfold a, Detector.analyse, Insights.generate_insights.
    change (length sequence <? 5)%nat with false.
    cbn [andb Detector.status_of Detector.patterns Detector.predictions].
    apply elem_of_app. right. apply elem_of_app. right.
    assert (Hsteady : Forall (fun item => Detector.usage item = 95) sequence).
    { apply Forall_forall. intros item Hitem.
      apply elem_of_replicate in Hitem as [-> _]. done. }
    rewrite (steady_predictions sequence 95) by (simpl; lia || exact Hsteady).
    cbn [map take concat Insights.prediction_insights].
    assert (Hclamp : Rmax 0 (Rmin 100 95) = Rmin 100 95).
    { apply Rmax_right. apply Rmin_glb; lra. }
    rewrite Hclamp.
    assert (Hmin : Rmin 100 95 > 90) by (apply Rmin_glb_lt; lra).
    rewrite !decide_True by exact Hmin.
    apply elem_of_cons. by left. }
  split; [exact Hin |].
  exact (proj1 (predicted_high_comes_from_statistics false
                  (fun _ _ => Py.Ok (0, false)) [95] sequence _ Hin)).
Defined.

(** ** The monitor's leak scan *)

Lemma detect_memory_leak_step_history history proc :
  (Monitor.detect_memory_leak_step history proc).1
  = History.record 100 history (Monitor.pid proc) (Monitor.rss proc).
Proof.
  unfold Monitor.detect_memory_leak_step.
  destruct (_ && _); [| done]. by destruct (Np.gt _ 5).
Qed.

Lemma detect_memory_leak_one history proc :
  Monitor.detect_memory_leak history [proc]
  = Monitor.detect_memory_leak_step history proc.
Proof.
  unfold Monitor.detect_memory_leak. simpl.
  by destruct (Monitor.detect_memory_leak_step history proc).
Qed.

Lemma detect_memory_leak_step_found history proc :
  (Monitor.detect_memory_leak_step history proc).2 = [] ∨
  ∃ l, (Monitor.detect_memory_leak_step history proc).2 = [l] ∧
       leak_of proc l.
Proof.
  unfold Monitor.detect_memory_leak_step.
  destruct (_ && _); [| by left].
  destruct (Np.gt _ 5) eqn:Hgt; [| by left].
  right. eexists. split; [reflexivity |]. by repeat split.
Qed.

Lemma leak_loop_facts (history : gmap Z (list R))
    (procs : list Monitor.process) :
  let result :=
    foldl (fun '(h, leaks) proc =>
             let '(h', found) := Monitor.detect_memory_leak_step h proc in
             (h', leaks ++ found))
          (history, []) procs in
  (length result.2 ≤ length procs)%nat ∧
  Forall (fun l => ∃ proc, proc ∈ procs ∧ leak_of proc l) result.2 ∧
  ∀ p, p ∉ map Monitor.pid procs →
       History.window result.1 p = History.window history p.
Proof.
  cbv zeta. induction procs as [| proc procs IH] using rev_ind.
  - simpl. split; [lia |]. split; [by apply Forall_nil | done].
  - rewrite foldl_app. cbn [foldl].
    destruct (foldl _ _ procs) as [h leaks]. cbn [fst snd] in IH.
    destruct IH as (Hcount & Hleaks & Hother).
    pose proof (detect_memory_leak_step_history h proc) as Hstore.
    pose proof (detect_memory_leak_step_found h proc) as Hfound.
    destruct (Monitor.detect_memory_leak_step h proc) as [h' found].
    cbn [fst snd] in *. subst h'.
    assert (Hprocs : ∀ l, (∃ q, q ∈ procs ∧ leak_of q l) →
                          ∃ q, q ∈ procs ++ [proc] ∧ leak_of q l).
    { intros l (q & Hq & Hl). exists q. split; [| done].
      apply elem_of_app. by left. }
    split; [| split].
    + rewrite !length_app. simpl.
      destruct Hfound as [-> | (l & -> & _)]; simpl; lia.
    + apply Forall_app. split.
      * eapply Forall_impl; [exact Hleaks | exact Hprocs].
      * destruct Hfound as [-> | (l & -> & Hl)]; [by apply Forall_nil |].
        apply Forall_singleton. exists proc. split; [| done].
        apply elem_of_app. right. apply list_elem_of_singleton. done.
    + intros p Hp. rewrite map_app in Hp.
      rewrite window_record_other.
      * apply Hother. intros Hin. apply Hp, elem_of_app. by left.
      * intros <-. apply Hp, elem_of_app. right. simpl.
        apply list_elem_of_singleton. done.
Qed.

(** X14.  One scan of [detect_memory_leak] reports at most one leak for
    each of the first twenty processes given.  Every leak it reports
    names one of them, with that process's current resident size, has a
    growth above 5 and the risk HIGH exactly when the growth is above 10,
    MEDIUM otherwise; and the scan leaves the history of every other
    process as it was. *)
Theorem leak_reports_are_bounded (history : gmap Z (list R))
    (process_data : list Monitor.process) :
  let result := Monitor.detect_memory_leak history process_data in
  (length result.2 ≤ Nat.min 20 (length process_data))%nat ∧
  Forall (fun l =>
            ∃ proc, proc ∈ take 20 process_data ∧
                    Monitor.leak_pid l = Monitor.pid proc ∧
                    Monitor.leak_name l = Monitor.name proc ∧
                    Monitor.current_memory l = Monitor.rss proc ∧
                    Np.gt (Monitor.growth_rate l) 5 = true ∧
                    Monitor.risk_level l
                    = (if Np.gt (Monitor.growth_rate l) 10
                       then Detector.HIGH else Detector.MEDIUM))
         result.2 ∧
  ∀ p, p ∉ map Monitor.pid (take 20 process_data) →
       History.window result.1 p = History.window history p.
Proof.
  intros result. subst result. unfold Monitor.detect_memory_leak.
  destruct (leak_loop_facts history (take 20 process_data))
    as (Hcount & Hleaks & Hother).
  rewrite length_take in Hcount.
  split; [exact Hcount |]. split; [| exact Hother].
  eapply Forall_impl; [exact Hleaks |].
  intros l (proc & Hproc & Hl). exists proc. by split.
Qed.

Lemma append_elem {A} (N : nat) (w : list A) (x y : A) :
  y ∈ History.append N w x → y ∈ w ∨ y = x.
Proof.
  unfold History.append. intros Hin.
  assert (Hall : y ∈ w ++ [x]).
  { destruct (_ <? _)%nat; [| done].
    by apply (subseteq_drop 1 (w ++ [x])). }
  apply elem_of_app in Hall as [? | Hlast]; [by left |].
  right. by apply list_elem_of_singleton in Hlast.
Qed.

Lemma steady_values (xs : list R) (c : R) :
  Forall (fun x => x = c) xs → xs = replicate (length xs) c.
Proof.
  induction 1 as [| x xs -> _ IH]; [done |]. simpl. by rewrite <- IH.
Qed.

(** X15.  A process whose recorded resident sizes are all equal to its
    current one is not reported by the leak scan, whatever that size is,
    zero included. *)
Theorem steady_process_is_no_leak (history : gmap Z (list R))
    (proc : Monitor.process) :
  Forall (fun size => size = Monitor.rss proc)
    (History.window history (Monitor.pid proc)) →
  (Monitor.detect_memory_leak history [proc]).2 = [].
Proof.
  intros Hsteady.
  rewrite detect_memory_leak_one, detect_memory_leak_step_leaks.
  set (data := History.append 100 _ _).
  assert (Hdata : data = replicate (length data) (Monitor.rss proc)).
  { apply steady_values, Forall_forall. intros y Hy.
    apply append_elem in Hy as [Hy | ->]; [| done].
    rewrite Forall_forall in Hsteady. by apply Hsteady. }
  cbv zeta.
  destruct (Nat.leb_spec 10 (length data)) as [Hten |]; [| done].
  destruct (1 <? length data)%nat; [| done]. cbn [andb].
  rewrite Hdata, length_replicate.
  rewrite replicate_as_line, polyfit1_on_line by lia.
  rewrite <- replicate_as_line, mean_replicate by lia.
  cbn [fst]. unfold Np.divide.
  destruct (decide (Monitor.rss proc = 0)) as [Hzero | Hpos].
  - rewrite !decide_False by lra. done.
  - cbn [Np.times Np.gt].
    rewrite bool_decide_eq_false_2; [done |].
    unfold Rdiv. rewrite Rmult_0_l. lra.
Qed.

Lemma steady_process_is_no_leak_witness :
  let history : gmap Z (list R) := {[ 7%Z := replicate 12 64 ]} in
  let proc := Monitor.Process 7 "steady" 64 128 1 0 0 0 in
  Forall (fun size => size = Monitor.rss proc)
    (History.window history (Monitor.pid proc)) ∧
  (Monitor.detect_memory_leak history [proc]).2 = [].
Proof.
  intros history proc.
  assert (Hsteady : Forall (fun size => size = Monitor.rss proc)
                      (History.window history (Monitor.pid proc))).
  { unfold History.window, history. simpl. rewrite lookup_singleton_eq.
    simpl. repeat constructor. }
  split; [exact Hsteady |].
  exact (steady_process_is_no_leak history proc Hsteady).
Defined.

(** ** Growth rates of linear growth *)

Lemma sum_arange (n : nat) :
  Np.sum (Np.arange n) = INR n * (INR n - 1) / 2.
Proof.
  unfold Np.arange, Np.sum. induction n as [| n IH].
  - simpl. lra.
  - rewrite seq_S, map_app, foldr_app. cbn [map foldr Nat.add].
    assert (Hshift : ∀ (l : list R) (x : R),
              foldr Rplus x l = foldr Rplus 0 l + x).
    { intros l x. induction l as [| y l IHl]; simpl; [lra |].
      rewrite IHl. lra. }
    rewrite Hshift, IH, S_INR. lra.
Qed.

Lemma sum_on_line (xs : list R) (a b : R) :
  Np.sum (map (fun x => a + b * x) xs)
  = INR (length xs) * a + b * Np.sum xs.
Proof.
  unfold Np.sum. induction xs as [| x xs IH].
  - simpl. lra.
  - cbn [map foldr length]. rewrite IH, S_INR. lra.
Qed.

Lemma mean_on_line (n : nat) (a b : R) :
  (0 < n)%nat →
  Np.mean (map (fun x => a + b * x) (Np.arange n))
  = a + b * (INR n - 1) / 2.
Proof.
  intros Hn. unfold Np.mean.
  rewrite sum_on_line, sum_arange, length_map.
  unfold Np.arange. rewrite length_map, length_seq.
  assert (0 < INR n) by (by apply lt_0_INR).
  field. lra.
Qed.

(** X16.  When the resident sizes recorded for a process, the current
    one included, grow linearly, [a + b * i] over [n >= 10] samples with a
    non-zero mean, the growth the leak scan computes is the step over the
    mean size in percent, [100 b / (a + b (n - 1) / 2)]; the process is
    reported exactly when this is above 5, with risk HIGH when above
    10. *)
Theorem linear_growth_leak (history : gmap Z (list R))
    (proc : Monitor.process) (a b : R) :
  let data :=
    History.append 100 (History.window history (Monitor.pid proc))
      (Monitor.rss proc) in
  let mean := a + b * (INR (length data) - 1) / 2 in
  let growth := b / mean * 100 in
  (10 ≤ length data)%nat →
  data = map (fun x => a + b * x) (Np.arange (length data)) →
  mean ≠ 0 →
  (Monitor.detect_memory_leak history [proc]).2
  = if bool_decide (growth > 5) then
      [Monitor.Leak (Monitor.pid proc) (Monitor.name proc)
         (Np.Finite growth) (Monitor.rss proc)
         (if bool_decide (growth > 10)
          then Detector.HIGH else Detector.MEDIUM)]
    else [].
Proof.
  intros data mean growth Hten Hline Hmean.
  rewrite detect_memory_leak_one, detect_memory_leak_step_leaks.
  fold data. cbv zeta.
  rewrite (proj2 (Nat.leb_le 10 _) Hten).
  destruct (Nat.ltb_spec 1 (length data)); [| lia]. cbn [andb].
  assert (Hfit : Np.polyfit1 (Np.arange (length data)) data = (b, a)).
  { rewrite Hline at 2. apply polyfit1_on_line. lia. }
  assert (Hm : Np.mean data = mean).
  { rewrite Hline at 1. apply mean_on_line. lia. }
  rewrite Hfit, Hm. cbn [fst]. unfold Np.divide. rewrite decide_False by done.
  cbn [Np.times Np.gt]. done.
Qed.

Lemma linear_growth_leak_witness :
  let history : gmap Z (list R) :=
    {[ 7%Z := map (fun x => 100 + 10 * x) (Np.arange 9) ]} in
  let proc := Monitor.Process 7 "grower" (100 + 10 * INR 9) 0 0 0 0 0 in
  let data :=
    History.append 100 (History.window history (Monitor.pid proc))
      (Monitor.rss proc) in
  (10 ≤ length data)%nat ∧
  data = map (fun x => 100 + 10 * x) (Np.arange (length data)) ∧
  100 + 10 * (INR (length data) - 1) / 2 ≠ 0 ∧
  length (Monitor.detect_memory_leak history [proc]).2 = 1%nat.
Proof.
  intros history proc data.
  assert (Hdata : data = map (fun x => 100 + 10 * x) (Np.arange 10)).
  { unfold data, History.window, history. simpl.
    rewrite lookup_singleton_eq. done. }
  assert (Hten : (10 ≤ length data)%nat) by (rewrite Hdata; simpl; lia).
  assert (Hline : data = map (fun x => 100 + 10 * x)
                           (Np.arange (length data))).
  { rewrite Hdata at 1. by rewrite Hdata. }
  assert (Hmean : 100 + 10 * (INR (length data) - 1) / 2 ≠ 0).
  { rewrite Hdata. simpl. lra. }
  split; [exact Hten |]. split; [exact Hline |]. split; [exact Hmean |].
  rewrite (linear_growth_leak history proc 100 10 Hten Hline Hmean).
  fold data. rewrite Hdata.
  rewrite bool_decide_eq_true_2; [done |]. simpl. lra.
Defined.

Lemma sum_scaled (c : R) (xs : list R) :
  Np.sum (map (Rmult c) xs) = c * Np.sum xs.
Proof.
  unfold Np.sum. induction xs as [| x xs IH]; simpl; [lra |].
  rewrite IH. lra.
Qed.

Lemma mean_scaled (c : R) (xs : list R) :
  Np.mean (map (Rmult c) xs) = c * Np.mean xs.
Proof.
  unfold Np.mean. rewrite sum_scaled, length_map.
  unfold Rdiv. ring.
Qed.

Lemma polyfit1_scaled (c : R) (xs ys : list R) :
  (Np.polyfit1 xs (map (Rmult c) ys)).1 = c * (Np.polyfit1 xs ys).1.
Proof.
  unfold Np.polyfit1. cbn [fst]. rewrite mean_scaled.
  assert (Hproducts : ∀ (mx my : R) (l : list R),
    Np.sum (zip_with (fun x y => (x - mx) * (y - c * my)) l
              (map (Rmult c) ys))
    = c * Np.sum (zip_with (fun x y => (x - mx) * (y - my)) l ys)).
  { intros mx my l. unfold Np.sum. revert l.
    induction ys as [| y ys' IH]; intros [| x l]; simpl; try lra.
    rewrite IH. lra. }
  rewrite Hproducts. unfold Rdiv. ring.
Qed.

(** X17.  The growth rate of the tracker does not depend on the unit the
    memory sizes are measured in: multiplying every size by the same
    positive factor leaves it as it is. *)
Theorem growth_rate_is_scale_free (c : R) (memory_values : list R) :
  c > 0 →
  Tracker.calculate_growth_rate (map (Rmult c) memory_values)
  = Tracker.calculate_growth_rate memory_values.
Proof.
  intros Hc. unfold Tracker.calculate_growth_rate.
  rewrite length_map. destruct (_ <? 2)%nat; [done |].
  rewrite polyfit1_scaled, mean_scaled.
  destruct (decide (Np.mean memory_values > 0)) as [Hpos | Hneg].
  - rewrite decide_True by nra. field. lra.
  - rewrite decide_False; [done |]. intros Habove. apply Hneg. nra.
Qed.

Lemma growth_rate_is_scale_free_witness :
  1024 > 0 ∧
  Tracker.calculate_growth_rate (map (Rmult 1024) spec_sequence)
  = 20150 / 414909.
Proof.
  assert (Hc : 1024 > 0) by lra.
  split; [exact Hc |].
  rewrite (growth_rate_is_scale_free 1024 spec_sequence Hc).
  exact spec_sequence_growth_rate.
Defined.

(** ** The monitor's anomaly scan *)

Lemma metric_anomaly_found proc patterns m :
  let fingerprint := Monitor.calculate_memory_fingerprint proc in
  MonitorAnalysis.metric_anomaly proc fingerprint patterns m = [] ∨
  ∃ a, MonitorAnalysis.metric_anomaly proc fingerprint patterns m = [a] ∧
       anomaly_of proc a.
Proof.
  intros fingerprint. unfold MonitorAnalysis.metric_anomaly.
  destruct (map _ (take _ patterns)) as [| v values]; [by left |].
  set (std := Np.std (v :: values)). set (mean := Np.mean (v :: values)).
  destruct (decide (std > 0)) as [Hstd |]; [| by left].
  destruct (decide (_ > MonitorAnalysis.anomaly_threshold)) as [Hz |];
    [| by left].
  right. eexists. split; [reflexivity |].
  unfold anomaly_of. cbn.
  split_and!; try done.
  unfold MonitorAnalysis.anomaly_threshold in Hz.
  apply Rmult_gt_compat_r with (r := std) in Hz; [| done].
  unfold Rdiv in Hz. rewrite Rmult_assoc, Rinv_l, Rmult_1_r in Hz by lra.
  lra.
Qed.

Lemma detect_anomalies_step_patterns process_patterns proc :
  (MonitorAnalysis.detect_anomalies_step process_patterns proc).1
  = let entry :=
      default (MonitorAnalysis.PatternEntry [] (Monitor.name proc))
        (process_patterns !! Monitor.pid proc) in
    <[Monitor.pid proc :=
        MonitorAnalysis.PatternEntry
          (History.append 20 (MonitorAnalysis.samples entry)
             (Monitor.calculate_memory_fingerprint proc))
          (MonitorAnalysis.name entry)]> process_patterns.
Proof.
  unfold MonitorAnalysis.detect_anomalies_step. by destruct (5 <=? _)%nat.
Qed.

Lemma detect_anomalies_step_found process_patterns proc :
  let found :=
    (MonitorAnalysis.detect_anomalies_step process_patterns proc).2 in
  (length found ≤ 4)%nat ∧ Forall (anomaly_of proc) found.
Proof.
  unfold MonitorAnalysis.detect_anomalies_step.
  set (patterns := History.append 20 _ _).
  destruct (5 <=? _)%nat; cbn [snd];
    [| split; [simpl; lia | by apply Forall_nil]].
  unfold MonitorAnalysis.metrics. cbn [map concat].
  pose proof (metric_anomaly_found proc patterns MonitorAnalysis.memory_ratio)
    as H1.
  pose proof (metric_anomaly_found proc patterns MonitorAnalysis.shared_ratio)
    as H2.
  pose proof (metric_anomaly_found proc patterns MonitorAnalysis.data_ratio)
    as H3.
  pose proof (metric_anomaly_found proc patterns MonitorAnalysis.stack_ratio)
    as H4.
  cbv zeta in H1, H2, H3, H4.
  destruct H1 as [-> | (a1 & -> & Ha1)], H2 as [-> | (a2 & -> & Ha2)],
    H3 as [-> | (a3 & -> & Ha3)], H4 as [-> | (a4 & -> & Ha4)];
    (split; [simpl; lia
            | simpl; repeat (constructor; [assumption |]); constructor]).
Qed.

Lemma anomaly_loop_facts (process_patterns : gmap Z MonitorAnalysis.pattern_entry)
    (procs : list Monitor.process) :
  let result :=
    foldl (fun '(patterns, anomalies) proc =>
             let '(patterns', found) :=
               MonitorAnalysis.detect_anomalies_step patterns proc in
             (patterns', anomalies ++ found))
          (process_patterns, []) procs in
  (length result.2 ≤ 4 * length procs)%nat ∧
  Forall (fun a => ∃ proc, proc ∈ procs ∧ anomaly_of proc a) result.2 ∧
  (∀ p, p ∉ map Monitor.pid procs → result.1 !! p = process_patterns !! p) ∧
  ((∀ p e, process_patterns !! p = Some e →
           (length (MonitorAnalysis.samples e) ≤ 20)%nat) →
   ∀ p e, result.1 !! p = Some e →
          (length (MonitorAnalysis.samples e) ≤ 20)%nat) ∧
  ∀ p e, process_patterns !! p = Some e →
         ∃ e', result.1 !! p = Some e' ∧
               MonitorAnalysis.name e' = MonitorAnalysis.name e.
Proof.
  cbv zeta. induction procs as [| proc procs IH] using rev_ind.
  - simpl. split_and!; [lia | by apply Forall_nil | done | done |].
    intros p e He. by exists e.
  - rewrite foldl_app. cbn [foldl].
    destruct (foldl _ _ procs) as [patterns anomalies]. cbn [fst snd] in IH.
    destruct IH as (Hcount & Hfound & Hother & Hbound & Hname).
    pose proof (detect_anomalies_step_patterns patterns proc) as Hstore.
    pose proof (detect_anomalies_step_found patterns proc) as Hstep.
    destruct (MonitorAnalysis.detect_anomalies_step patterns proc)
      as [patterns' found].
    cbn [fst snd] in *. cbv zeta in Hstore, Hstep.
    destruct Hstep as [Hfour Hall]. subst patterns'.
    split_and!.
    + rewrite !length_app. simpl. lia.
    + apply Forall_app. split.
      * eapply Forall_impl; [exact Hfound |].
        intros a (q & Hq & Ha). exists q. split; [| done].
        apply elem_of_app. by left.
      * eapply Forall_impl; [exact Hall |].
        intros a Ha. exists proc. split; [| done].
        apply elem_of_app. right. by apply list_elem_of_singleton.
    + intros p Hp. rewrite map_app in Hp.
      rewrite lookup_insert_ne.
      * apply Hother. intros Hin. apply Hp, elem_of_app. by left.
      * intros <-. apply Hp, elem_of_app. right. simpl.
        by apply list_elem_of_singleton.
    + intros Hstart p e He.
      destruct (decide (p = Monitor.pid proc)) as [-> | Hne].
      * rewrite lookup_insert_eq in He. injection He as <-.
        cbn [MonitorAnalysis.samples].
        apply append_length_bound.
        destruct (patterns !! Monitor.pid proc) as [e0 |] eqn:He0; simpl.
        -- by apply (Hbound Hstart _ _ He0).
        -- lia.
      * rewrite lookup_insert_ne in He by done.
        by apply (Hbound Hstart _ _ He).
    + intros p e He. destruct (Hname p e He) as (e0 & He0 & Hsame).
      destruct (decide (p = Monitor.pid proc)) as [-> | Hne].
      * rewrite lookup_insert_eq. eexists. split; [reflexivity |].
        rewrite He0. simpl. done.
      * rewrite lookup_insert_ne by done. by exists e0.
Qed.


(** X20.  The samples kept for a process never exceed twenty: when no
    entry of the stored patterns holds more, none does after a scan.  The
    name stored with an entry is the one the process had when it was
    first seen; a scan never changes it. *)
Theorem pattern_samples_are_bounded
    (process_patterns : gmap Z MonitorAnalysis.pattern_entry)
    (current_data : list Monitor.process) :
  (∀ p e, process_patterns !! p = Some e →
          (length (MonitorAnalysis.samples e) ≤ 20)%nat) →
  let result := MonitorAnalysis.detect_anomalies process_patterns current_data in
  (∀ p e, result.1 !! p = Some e →
          (length (MonitorAnalysis.samples e) ≤ 20)%nat) ∧
  (∀ p e, process_patterns !! p = Some e →
          ∃ e', result.1 !! p = Some e' ∧
                MonitorAnalysis.name e' = MonitorAnalysis.name e).
Proof.
  intros Hstart result. subst result. unfold MonitorAnalysis.detect_anomalies.
  destruct (anomaly_loop_facts process_patterns (take 50 current_data))
    as (_ & _ & _ & Hbound & Hname).
  split; [by apply Hbound | exact Hname].
Qed.

Lemma pattern_samples_are_bounded_witness :
  let proc := Monitor.Process 7 "worker" 64 128 1 0 0 0 in
  (∀ (p : Z) (e : MonitorAnalysis.pattern_entry),
     (∅ : gmap Z MonitorAnalysis.pattern_entry) !! p = Some e →
     (length (MonitorAnalysis.samples e) ≤ 20)%nat) ∧
  ∀ p e, (MonitorAnalysis.detect_anomalies ∅ [proc; proc]).1 !! p = Some e →
         (length (MonitorAnalysis.samples e) ≤ 20)%nat.
Proof.
  intros proc.
  assert (Hstart : ∀ (p : Z) (e : MonitorAnalysis.pattern_entry),
            (∅ : gmap Z MonitorAnalysis.pattern_entry) !! p = Some e →
            (length (MonitorAnalysis.samples e) ≤ 20)%nat).
  { intros p e He. by rewrite lookup_empty in He. }
  split; [exact Hstart |].
  exact (proj1 (pattern_samples_are_bounded ∅ [proc; proc] Hstart)).
Defined.

Lemma detect_anomalies_one process_patterns proc :
  MonitorAnalysis.detect_anomalies process_patterns [proc]
  = MonitorAnalysis.detect_anomalies_step process_patterns proc.
Proof.
  unfold MonitorAnalysis.detect_anomalies. simpl.
  by destruct (MonitorAnalysis.detect_anomalies_step process_patterns proc).
Qed.

(** X21.  A process is not reported as anomalous while fewer than four
    samples are stored for it, and neither when every stored sample
    equals its current fingerprint. *)
Theorem unchanged_fingerprint_is_no_anomaly
    (process_patterns : gmap Z MonitorAnalysis.pattern_entry)
    (proc : Monitor.process) :
  let stored :=
    match process_patterns !! Monitor.pid proc with
    | Some entry => MonitorAnalysis.samples entry
    | None => []
    end in
  (length stored < 4)%nat ∨
  Forall (fun f => f = Monitor.calculate_memory_fingerprint proc) stored →
  (MonitorAnalysis.detect_anomalies process_patterns [proc]).2 = [].
Proof.
  intros stored Hcase. rewrite detect_anomalies_one.
  unfold MonitorAnalysis.detect_anomalies_step.
  set (fingerprint := Monitor.calculate_memory_fingerprint proc) in *.
  assert (Hstored :
    MonitorAnalysis.samples
      (default (MonitorAnalysis.PatternEntry [] (Monitor.name proc))
         (process_patterns !! Monitor.pid proc)) = stored).
  { unfold stored. by destruct (process_patterns !! Monitor.pid proc). }
  rewrite Hstored. set (patterns := History.append 20 stored fingerprint).
  destruct (Nat.leb_spec 5 (length patterns)) as [Hfive |]; [| done].
  cbn [snd].
  destruct Hcase as [Hfew | Hsame].
  { unfold patterns in Hfive. rewrite append_below in Hfive by lia.
    rewrite length_app in Hfive. simpl in Hfive. lia. }
  assert (Hall : Forall (fun f => f = fingerprint) patterns).
  { apply Forall_forall. intros f Hf.
    apply append_elem in Hf as [Hf | ->]; [| done].
    rewrite Forall_forall in Hsame. by apply Hsame. }
  assert (Hmetric : ∀ m,
    MonitorAnalysis.metric_anomaly proc fingerprint patterns m = []).
  { intros m. unfold MonitorAnalysis.metric_anomaly.
    set (values := map _ (take _ patterns)).
    assert (Hvalues : values
                      = replicate (length values)
                          (MonitorAnalysis.value fingerprint m)).
    { apply steady_values, Forall_forall. intros v Hv.
      apply list_elem_of_fmap in Hv as (f & -> & Hf).
      apply (subseteq_take _ patterns) in Hf.
      rewrite Forall_forall in Hall. by rewrite (Hall f Hf). }
    destruct values as [| v values'] eqn:Hshape; [done |].
    rewrite Hvalues, std_replicate by (simpl; lia).
    by rewrite decide_False by lra. }
  unfold MonitorAnalysis.metrics. cbn [map concat].
  by rewrite !Hmetric.
Qed.

Lemma unchanged_fingerprint_is_no_anomaly_witness :
  let proc := Monitor.Process 7 "worker" 64 128 1 0 0 0 in
  ((length ([] : list Monitor.fingerprint) < 4)%nat ∨
   Forall (fun f => f = Monitor.calculate_memory_fingerprint proc) []) ∧
  (MonitorAnalysis.detect_anomalies ∅ [proc]).2 = [].
Proof.
  intros proc.
  assert (Hcase : (length ([] : list Monitor.fingerprint) < 4)%nat ∨
                  Forall (fun f => f = Monitor.calculate_memory_fingerprint proc)
                    []) by (left; simpl; lia).
  split; [exact Hcase |].
  apply (unchanged_fingerprint_is_no_anomaly ∅ proc).
  rewrite lookup_empty. exact Hcase.
Defined.

(** ** Optimization suggestions *)

Lemma process_suggestions_zero_total (procs : list Monitor.process) :
  procs ≠ [] →
  MonitorAnalysis.process_suggestions 0 procs
  = Py.Raise Py.ZeroDivisionError.
Proof.
  destruct procs as [| proc rest]; [done |]. intros _.
  cbn [MonitorAnalysis.process_suggestions]. by rewrite py_div_zero.
Qed.

Lemma process_suggestions_returns (total_mem : R)
    (procs : list Monitor.process) :
  total_mem ≠ 0 →
  ∃ heavy, MonitorAnalysis.process_suggestions total_mem procs = Py.Ok heavy.
Proof.
  intros Htotal. induction procs as [| proc rest [heavy IH]].
  - by exists [].
  - cbn [MonitorAnalysis.process_suggestions].
    rewrite py_div_ok by done. cbn. rewrite IH. cbn. eauto.
Qed.

(** X22.  [generate_optimization_suggestions] raises exactly when a
    divisor is zero: the total resident size of a non-empty process list,
    or the total of the physical memory.  It raises nothing but
    ZeroDivisionError. *)
Theorem suggestions_raise_on_zero_totals
    (system_mem : MonitorAnalysis.system_memory)
    (process_data : list Monitor.process) :
  ((∃ e, MonitorAnalysis.generate_optimization_suggestions system_mem
           process_data = Py.Raise e)
   ↔ (process_data ≠ [] ∧ Np.sum (map Monitor.rss process_data) = 0) ∨
     MonitorAnalysis.physical_total system_mem = 0) ∧
  ∀ e, MonitorAnalysis.generate_optimization_suggestions system_mem
         process_data = Py.Raise e →
       e = Py.ZeroDivisionError.
Proof.
  unfold MonitorAnalysis.generate_optimization_suggestions.
  set (total_mem := Np.sum (map Monitor.rss process_data)).
  assert (Hten : take 10 process_data ≠ [] ↔ process_data ≠ []).
  { by destruct process_data. }
  destruct (decide (total_mem = 0)) as [Hzero | Hpos].
  - destruct (decide (process_data = [])) as [-> | Hne].
    + cbn. unfold Py.div.
      destruct (decide (MonitorAnalysis.physical_total system_mem = 0))
        as [Hphysical | Hphysical];
        cbn; (split; [| by intros e' [= <-]]).
      * split; [by right | eauto].
      * split; [by intros [e' He] | by intros [[? _] | ?]].
    + rewrite Hzero, process_suggestions_zero_total by (by apply Hten).
      cbn. split; [| by intros e' [= <-]].
      split; [by left | eauto].
  - destruct (process_suggestions_returns total_mem (take 10 process_data)
                Hpos) as [heavy ->].
    cbn. unfold Py.div.
    destruct (decide (MonitorAnalysis.physical_total system_mem = 0))
      as [Hphysical | Hphysical];
      cbn; (split; [| by intros e' [= <-]]).
    + split; [by right | eauto].
    + split; [by intros [e' He] | by intros [[_ ?] | ?]].
Qed.

Lemma sum_nonneg (xs : list R) :
  Forall (fun x => 0 <= x) xs → 0 <= Np.sum xs.
Proof.
  unfold Np.sum. induction 1 as [| x xs Hx _ IH]; simpl; lra.
Qed.

Lemma sum_take_le (n : nat) (xs : list R) :
  Forall (fun x => 0 <= x) xs → Np.sum (take n xs) <= Np.sum xs.
Proof.
  intros Hall. rewrite <- (take_drop n xs) at 2. rewrite sum_app.
  pose proof (sum_nonneg (drop n xs) (Forall_drop _ n _ Hall)). lra.
Qed.

(** The processes reported by the loop weigh more than a fifth of the
    total each. *)
Lemma process_suggestions_weight (total_mem : R)
    (procs : list Monitor.process) (heavy : list MonitorAnalysis.suggestion) :
  total_mem > 0 →
  Forall (fun proc => 0 <= Monitor.rss proc) procs →
  MonitorAnalysis.process_suggestions total_mem procs = Py.Ok heavy →
  Forall (fun s => ∃ proc, proc ∈ procs ∧
                     s = MonitorAnalysis.HeavyProcess (Monitor.pid proc)
                           (Monitor.name proc)
                           (Monitor.rss proc / total_mem * 100) ∧
                     Monitor.rss proc / total_mem * 100 > 20) heavy ∧
  0.2 * total_mem * INR (length heavy)
  <= Np.sum (map Monitor.rss procs) ∧
  (heavy ≠ [] →
   0.2 * total_mem * INR (length heavy) < Np.sum (map Monitor.rss procs)).
Proof.
  intros Htotal Hall. revert heavy.
  induction Hall as [| proc rest Hproc Hrest IH]; intros heavy Hok.
  - injection Hok as <-. simpl.
    split; [by apply Forall_nil |]. unfold Np.sum. simpl. split; [lra | done].
  - cbn [MonitorAnalysis.process_suggestions] in Hok.
    rewrite py_div_ok in Hok by lra. cbn in Hok.
    destruct (MonitorAnalysis.process_suggestions total_mem rest)
      as [others | e]; [| done].
    destruct (IH others eq_refl) as (Hothers & Hweight & Hstrict).
    cbn in Hok. injection Hok as <-.
    assert (Hlift : Forall (fun s => ∃ q, q ∈ proc :: rest ∧
                     s = MonitorAnalysis.HeavyProcess (Monitor.pid q)
                           (Monitor.name q)
                           (Monitor.rss q / total_mem * 100) ∧
                     Monitor.rss q / total_mem * 100 > 20) others).
    { eapply Forall_impl; [exact Hothers |].
      intros s (q & Hq & Hs). exists q. split; [| done].
      apply elem_of_cons. by right. }
    assert (Hsum : Np.sum (map Monitor.rss (proc :: rest))
                   = Monitor.rss proc + Np.sum (map Monitor.rss rest))
      by done.
    rewrite Hsum.
    destruct (decide (Monitor.rss proc / total_mem * 100 > 20))
      as [Hheavy | Hlight].
    + assert (Hshare : Monitor.rss proc > 0.2 * total_mem).
      { unfold Rdiv in Hheavy.
        assert (Monitor.rss proc
                = Monitor.rss proc * / total_mem * total_mem) as ->
          by (field; lra).
        nra. }
      cbn [app length]. rewrite S_INR.
      split; [| split; [lra | intros _; lra]].
      apply Forall_cons. split; [| exact Hlift].
      exists proc. split; [apply elem_of_cons; by left | done].
    + cbn [app]. split; [exact Hlift |].
      split; [lra |]. intros Hne. specialize (Hstrict Hne). lra.
Qed.

(** X23.  When no resident size is negative, the suggestions returned
    are, in this order, at most two on the system (memory above 80
    percent, swap above 50 percent), at most four on processes, each
    among the first ten and holding more than 20 percent of the total
    resident size of all processes, and at most one on the cache: never
    more than seven. *)
Theorem suggestions_are_bounded
    (system_mem : MonitorAnalysis.system_memory)
    (process_data : list Monitor.process)
    (suggestions : list MonitorAnalysis.suggestion) :
  Forall (fun proc => 0 <= Monitor.rss proc) process_data →
  MonitorAnalysis.generate_optimization_suggestions system_mem process_data
  = Py.Ok suggestions →
  ∃ on_system on_processes on_cache,
    suggestions = on_system ++ on_processes ++ on_cache ∧
    (length on_system ≤ 2)%nat ∧
    Forall (fun s => MonitorAnalysis.type_of s = MonitorAnalysis.SYSTEM)
      on_system ∧
    (length on_processes ≤ 4)%nat ∧
    Forall (fun s =>
              ∃ proc, proc ∈ take 10 process_data ∧
                s = MonitorAnalysis.HeavyProcess (Monitor.pid proc)
                      (Monitor.name proc)
                      (Monitor.rss proc
                       / Np.sum (map Monitor.rss process_data) * 100) ∧
                Monitor.rss proc
                / Np.sum (map Monitor.rss process_data) * 100 > 20)
      on_processes ∧
    (length on_cache ≤ 1)%nat ∧
    Forall (fun s => s = MonitorAnalysis.LowCacheUtilization) on_cache ∧
    (length suggestions ≤ 7)%nat.
Proof.
  intros Hall Hok.
  unfold MonitorAnalysis.generate_optimization_suggestions in Hok.
  set (total_mem := Np.sum (map Monitor.rss process_data)) in *.
  destruct (MonitorAnalysis.process_suggestions total_mem
              (take 10 process_data)) as [heavy | e] eqn:Hheavy; [| done].
  cbn in Hok.
  destruct (Py.div _ _) as [cache_ratio | e]; [| done].
  cbn in Hok. injection Hok as <-.
  assert (Hfour : (length heavy ≤ 4)%nat ∧
    Forall (fun s => ∃ proc, proc ∈ take 10 process_data ∧
              s = MonitorAnalysis.HeavyProcess (Monitor.pid proc)
                    (Monitor.name proc)
                    (Monitor.rss proc / total_mem * 100) ∧
              Monitor.rss proc / total_mem * 100 > 20) heavy).
  { assert (Htotal : 0 <= total_mem).
    { apply sum_nonneg, Forall_fmap. by eapply Forall_impl. }
    destruct (decide (total_mem = 0)) as [Hzero | Hne].
    - destruct (take 10 process_data) as [| proc rest] eqn:Hten.
      + injection Hheavy as <-. split; [simpl; lia | by apply Forall_nil].
      + rewrite Hzero, process_suggestions_zero_total in Hheavy by done.
        done.
    - destruct (process_suggestions_weight total_mem (take 10 process_data)
                  heavy) as (Hshape & Hweight & Hstrict);
        [lra | by apply Forall_take | done |].
      split; [| exact Hshape].
      assert (Hfirst : Np.sum (map Monitor.rss (take 10 process_data))
                       <= total_mem).
      { rewrite <- List.firstn_map. apply sum_take_le.
        apply Forall_fmap. by eapply Forall_impl. }
      destruct (Nat.le_gt_cases (length heavy) 4) as [| Hmany]; [done |].
      assert (Hne' : heavy ≠ []) by (destruct heavy; [simpl in *; lia | done]).
      specialize (Hstrict Hne').
      assert (Hfive : 5 <= INR (length heavy)).
      { replace 5 with (INR 5) by (simpl; lra). apply le_INR. lia. }
      nra. }
  destruct Hfour as [Hfour Hshape].
  eexists _, heavy, _. split; [reflexivity |].
  assert (Hsys : ∀ (P Q : Prop) (dp : Decision P) (dq : Decision Q)
                   (x y : MonitorAnalysis.suggestion),
    MonitorAnalysis.type_of x = MonitorAnalysis.SYSTEM →
    MonitorAnalysis.type_of y = MonitorAnalysis.SYSTEM →
    (length ((if dp then [x] else []) ++ (if dq then [y] else [])) ≤ 2)%nat ∧
    Forall (fun s => MonitorAnalysis.type_of s = MonitorAnalysis.SYSTEM)
      ((if dp then [x] else []) ++ (if dq then [y] else []))).
  { intros P Q dp dq x y Hx Hy. destruct dp, dq; simpl;
      (split; [lia | repeat (constructor; [assumption |]); constructor]). }
  destruct (Hsys _ _
              (decide (MonitorAnalysis.physical_percent system_mem > 80))
              (decide (MonitorAnalysis.swap_percent system_mem > 50))
              (MonitorAnalysis.HighMemoryUsage
                 (MonitorAnalysis.physical_percent system_mem))
              (MonitorAnalysis.HighSwapUsage
                 (MonitorAnalysis.swap_percent system_mem))
              eq_refl eq_refl) as [Htwo Hsystem].
  assert (Hcache : (length (if decide (cache_ratio < 0.1)%R
                            then [MonitorAnalysis.LowCacheUtilization]
                            else []) ≤ 1)%nat ∧
                   Forall (fun s => s = MonitorAnalysis.LowCacheUtilization)
                     (if decide (cache_ratio < 0.1)
                      then [MonitorAnalysis.LowCacheUtilization] else [])).
  { destruct (decide (cache_ratio < 0.1)); simpl;
      (split; [lia | repeat (constructor; [reflexivity |]); constructor]). }
  destruct Hcache as [Hone Hcache].
  split; [exact Htwo |]. split; [exact Hsystem |].
  split; [exact Hfour |]. split; [exact Hshape |].
  split; [exact Hone |]. split; [exact Hcache |].
  rewrite !length_app in Htwo. rewrite !length_app. lia.
Qed.

Lemma suggestions_are_bounded_witness :
  let system_mem := MonitorAnalysis.SystemMemory 85 8 4 10 in
  let process_data :=
    [Monitor.Process 1 "big" 3 0 0 0 0 0; Monitor.Process 2 "small" 1 0 0 0 0 0]
  in
  let suggestions :=
    [MonitorAnalysis.HighMemoryUsage 85;
     MonitorAnalysis.HeavyProcess 1 "big" (3 / Np.sum [3; 1] * 100);
     MonitorAnalysis.HeavyProcess 2 "small" (1 / Np.sum [3; 1] * 100)] in
  Forall (fun proc => 0 <= Monitor.rss proc) process_data ∧
  MonitorAnalysis.generate_optimization_suggestions system_mem process_data
  = Py.Ok suggestions ∧
  (length suggestions ≤ 7)%nat.
Proof.
  intros system_mem process_data suggestions.
  assert (Hall : Forall (fun proc => 0 <= Monitor.rss proc) process_data).
  { repeat (constructor; [simpl; lra |]). constructor. }
  assert (Hok : MonitorAnalysis.generate_optimization_suggestions system_mem
                  process_data = Py.Ok suggestions).
  { unfold MonitorAnalysis.generate_optimization_suggestions, suggestions.
    cbn [process_data map take MonitorAnalysis.process_suggestions
         Monitor.rss Monitor.pid Monitor.name system_mem
         MonitorAnalysis.physical_percent MonitorAnalysis.swap_percent
         MonitorAnalysis.physical_cached MonitorAnalysis.physical_total].
    assert (Hsum : Np.sum [3; 1] ≠ 0) by (unfold Np.sum; simpl; lra).
    rewrite !(py_div_ok _ (Np.sum [3; 1])) by exact Hsum.
    rewrite (py_div_ok 4 8) by lra. cbn.
    rewrite (decide_True (P := 85 > 80)) by lra.
    rewrite (decide_False (P := 10 > 50)) by lra.
    rewrite (decide_True (P := 3 / Np.sum [3; 1] * 100 > 20))
      by (unfold Np.sum; simpl; lra).
    rewrite (decide_True (P := 1 / Np.sum [3; 1] * 100 > 20))
      by (unfold Np.sum; simpl; lra).
    rewrite (decide_False (P := 4 / 8 < 0.1)) by lra.
    done. }
  split; [exact Hall |]. split; [exact Hok |].
  destruct (suggestions_are_bounded system_mem process_data suggestions
              Hall Hok) as (s1 & s2 & s3 & _ & _ & _ & _ & _ & _ & _ & Hlen).
  exact Hlen.
Defined.

(** ** The fingerprint statistics and when they are computed *)

Lemma std_nonneg (xs : list R) : 0 <= Np.std xs.
Proof. unfold Np.std. apply sqrt_pos. Qed.

Lemma mean_positive (xs : list R) :
  xs ≠ [] → Forall (fun x => x > 0) xs → Np.mean xs > 0.
Proof.
  intros Hne Hall. unfold Np.mean.
  assert (Hn : 0 < INR (length xs)).
  { destruct xs; [done |]. apply lt_0_INR. simpl. lia. }
  assert (Hsum : 0 < Np.sum xs).
  { unfold Np.sum. destruct Hall as [| x xs' Hx Hrest]; [done |].
    simpl. pose proof (sum_nonneg xs') as Hpos.
    unfold Np.sum in Hpos.
    assert (0 <= foldr Rplus 0 xs').
    { apply Hpos. eapply Forall_impl; [exact Hrest |]. intros y Hy. lra. }
    lra. }
  apply Rdiv_lt_0_compat; lra.
Qed.

Lemma corrcoef_range (xs ys : list R) :
  Np.corrcoef xs ys = Np.NaN ∨
  ∃ r, Np.corrcoef xs ys = Np.Finite r ∧ -1 <= r <= 1.
Proof.
  unfold Np.corrcoef.
  destruct (Np.divide _ _) as [r | | |].
  - right. eexists. split; [reflexivity |].
    split; [apply Rmax_l |].
    apply Rmax_lub; [lra | apply Rmin_l].
  - right. exists 1. split; [done | lra].
  - right. exists (-1). split; [done | lra].
  - by left.
Qed.

(** The mean and the standard deviation of the resident size in
    fingerprint statistics are those of the entries of positive resident
    size; the mean is positive. *)
Lemma dna_statistics_rss (process_history : list Tracker.proc_info)
    (pattern : Tracker.dna_pattern) :
  Tracker.dna_statistics process_history = Some pattern →
  let sizes :=
    map Tracker.rss
      (filter (fun entry => Tracker.rss entry > 0) process_history) in
  Tracker.mean_rss pattern = Np.mean sizes ∧
  Tracker.std_rss pattern = Np.std sizes ∧
  Np.mean sizes > 0.
Proof.
  unfold Tracker.dna_statistics.
  destruct (_ <? 5)%nat; [done |].
  assert (Hcol : Np.column 0 (Tracker.feature_rows process_history)
                 = map Tracker.rss
                     (filter (fun entry => Tracker.rss entry > 0)
                        process_history))
    by apply column_rss_feature_rows.
  assert (Hempty : Tracker.feature_rows process_history = [] ↔
                   filter (fun entry => Tracker.rss entry > 0)
                     process_history = []).
  { unfold Tracker.feature_rows. by destruct (filter _ _). }
  destruct (Tracker.feature_rows process_history) as [| row rows]; [done |].
  intros Heq. cbv zeta. injection Heq as <-.
  cbn [Tracker.mean_rss Tracker.std_rss].
  change (nth 0 row 0 :: Np.column 0 rows) with (Np.column 0 (row :: rows)).
  rewrite Hcol. split; [done |]. split; [done |].
  apply mean_positive.
  - destruct (filter _ _); [| done].
    by destruct (proj2 Hempty eq_refl).
  - apply Forall_fmap, Forall_forall. intros entry Hentry.
    by apply list_elem_of_filter in Hentry as [? _].
Qed.

Lemma dna_statistics_mean_positive (process_history : list Tracker.proc_info)
    (pattern : Tracker.dna_pattern) :
  Tracker.dna_statistics process_history = Some pattern →
  Tracker.mean_rss pattern > 0.
Proof.
  intros Hpattern.
  destruct (dna_statistics_rss process_history pattern Hpattern)
    as (-> & _ & Hmean).
  exact Hmean.
Qed.

(** X24.  The fingerprint statistics are absent exactly for a history of
    fewer than five entries or without any entry of positive resident
    size.  When present, they are those of the entries of positive
    resident size: the mean resident size is positive, so that the growth
    rate is the fitted slope divided by it; no standard deviation is
    negative; the correlation with the processor share is the integer 0
    exactly when a single entry is left, and otherwise NaN or a number
    in [-1, 1]. *)
Theorem dna_statistics_outcome (process_history : list Tracker.proc_info) :
  let positive :=
    filter (fun entry => Tracker.rss entry > 0) process_history in
  (Tracker.dna_statistics process_history = None
   ↔ (length process_history < 5)%nat ∨ positive = []) ∧
  ∀ pattern : Tracker.dna_pattern,
    Tracker.dna_statistics process_history = Some pattern →
    Tracker.mean_rss pattern = Np.mean (map Tracker.rss positive) ∧
    Tracker.mean_rss pattern > 0 ∧
    Tracker.growth_rate pattern
    = Tracker.calculate_growth_rate (map Tracker.rss positive) ∧
    ((2 ≤ length positive)%nat →
     Tracker.growth_rate pattern
     = (Np.polyfit1 (Np.arange (length positive))
          (map Tracker.rss positive)).1
       / Tracker.mean_rss pattern) ∧
    0 <= Tracker.std_rss pattern ∧ 0 <= Tracker.std_vms pattern ∧
    0 <= Tracker.memory_variability pattern ∧
    0 <= Tracker.thread_stability pattern ∧
    (Tracker.cpu_correlation pattern = Tracker.IntZero
     ↔ length positive = 1%nat) ∧
    (Tracker.cpu_correlation pattern = Tracker.IntZero ∨
     Tracker.cpu_correlation pattern = Tracker.Corr Np.NaN ∨
     ∃ r, Tracker.cpu_correlation pattern = Tracker.Corr (Np.Finite r) ∧
          -1 <= r <= 1).
Proof.
  intros positive. unfold Tracker.dna_statistics.
  assert (Hcol : Np.column 0 (Tracker.feature_rows process_history)
                 = map Tracker.rss positive)
    by apply column_rss_feature_rows.
  assert (Hrows : length (Tracker.feature_rows process_history)
                  = length positive).
  { unfold Tracker.feature_rows. by rewrite length_map. }
  assert (Hempty : Tracker.feature_rows process_history = []
                   ↔ positive = []).
  { unfold Tracker.feature_rows. fold positive. by destruct positive. }
  destruct (Nat.ltb_spec (length process_history) 5) as [Hshort | Hlong].
  { split; [| done]. split; [by left | done]. }
  destruct (Tracker.feature_rows process_history) as [| row rows] eqn:Hfeat.
  { split; [| done]. split; [intros _; right; by apply Hempty | done]. }
  assert (Hne : positive ≠ []).
  { intros Hnil. by apply Hempty in Hnil. }
  split.
  { split; [done |]. intros [? | ?]; [lia | done]. }
  intros pattern [= <-].
  cbn [Tracker.mean_rss Tracker.std_rss Tracker.std_vms
       Tracker.memory_variability Tracker.thread_stability
       Tracker.growth_rate Tracker.cpu_correlation].
  repeat match goal with
         | |- context [nth ?j row 0 :: Np.column ?j rows] =>
             change (nth j row 0 :: Np.column j rows)
               with (Np.column j (row :: rows))
         end.
  rewrite Hcol.
  assert (Hmean : Np.mean (map Tracker.rss positive) > 0).
  { apply mean_positive; [by destruct positive |].
    apply Forall_fmap, Forall_forall. intros entry Hentry.
    unfold positive in Hentry. by apply list_elem_of_filter in Hentry as [? _]. }
  split; [done |]. split; [exact Hmean |]. split; [done |].
  split.
  { intros Htwo. unfold Tracker.calculate_growth_rate.
    rewrite length_map.
    destruct (Nat.ltb_spec (length positive) 2); [lia |].
    by rewrite decide_True by exact Hmean. }
  split; [apply std_nonneg |]. split; [apply std_nonneg |].
  split; [apply std_nonneg |]. split; [apply std_nonneg |].
  cbn [length] in Hrows.
  destruct (Nat.ltb_spec 1 (S (length rows))) as [Hmany | Hone].
  - split; [split; [done | intros ?; lia] |].
    destruct (corrcoef_range (map Tracker.rss positive)
                (Np.column 6 (row :: rows))) as [-> | (r & -> & Hr)].
    + right. by left.
    + right. right. by exists r.
  - split; [split; [intros _; lia | done] |]. by left.
Qed.

Lemma append_length_ge {A} (N k : nat) (w : list A) (x : A) :
  (k ≤ N)%nat → (k ≤ length w)%nat →
  (k ≤ length (History.append N w x))%nat.
Proof.
  intros HkN Hk. unfold History.append. rewrite length_app. simpl.
  destruct (Nat.ltb_spec N (length w + 1)).
  - rewrite length_drop, length_app. simpl. lia.
  - rewrite length_app. simpl. lia.
Qed.

Lemma append_length_le {A} (N : nat) (w : list A) (x : A) :
  (length (History.append N w x) ≤ length w + 1)%nat.
Proof.
  unfold History.append. rewrite length_app. simpl.
  destruct (_ <? _)%nat; [rewrite length_drop |]; rewrite length_app;
    simpl; lia.
Qed.

Lemma update_process_dna_histories stored st pid :
  Tracking.process_histories (Tracking.update_process_dna stored st pid)
  = Tracking.process_histories st.
Proof.
  unfold Tracking.update_process_dna.
  destruct (_ <? 5)%nat; [done |].
  destruct (Tracker.dna_statistics _); [| done]. by destruct stored.
Qed.

Lemma track_one_histories stored st info :
  Tracking.process_histories (Tracking.track_one stored st info)
  = Tracker.record_sample (Tracking.process_histories st) info.
Proof.
  unfold Tracking.track_one.
  destruct (_ =? 0)%nat; [| done].
  by rewrite update_process_dna_histories.
Qed.

Lemma tracking_run_histories (steps : list (bool * Tracker.proc_info)) :
  Tracking.process_histories (tracking_run steps)
  = foldl Tracker.record_sample ∅ (map snd steps).
Proof.
  unfold tracking_run.
  induction steps as [| step steps IH] using rev_ind; [done |].
  rewrite map_app, !foldl_app. cbn [foldl map].
  by rewrite track_one_histories, IH.
Qed.

Lemma process_history_length_le (samples : list Tracker.proc_info) (p : Z) :
  (length (History.window (foldl Tracker.record_sample ∅ samples) p)
   ≤ length (filter (fun info => Tracker.pid info = p) samples))%nat.
Proof.
  induction samples as [| info samples IH] using rev_ind.
  - simpl. unfold History.window. by rewrite lookup_empty.
  - rewrite foldl_app, filter_app, length_app. cbn [foldl].
    unfold Tracker.record_sample at 1.
    destruct (decide (Tracker.pid info = p)) as [Heq | Hne].
    + rewrite filter_cons_True by done. rewrite filter_nil.
      rewrite <- Heq at 1. rewrite window_record, Heq.
      pose proof (append_length_le Tracker.maxlen
                    (History.window (foldl Tracker.record_sample ∅ samples) p)
                    info).
      simpl. lia.
    + rewrite filter_cons_False by done. rewrite filter_nil.
      rewrite window_record_other by done. simpl. lia.
Qed.

(** The invariant of tracking: a process that has fingerprint statistics
    has at least ten history entries, and the mean resident size of the
    statistics is positive. *)
Lemma tracking_invariant (steps : list (bool * Tracker.proc_info))
    (p : Z) (pattern : Tracker.dna_pattern) :
  Tracking.process_dna (tracking_run steps) !! p = Some pattern →
  (10 ≤ length (History.window
                  (Tracking.process_histories (tracking_run steps)) p))%nat ∧
  Tracker.mean_rss pattern > 0.
Proof.
  unfold tracking_run. revert pattern.
  induction steps as [| [stored info] steps IH] using rev_ind;
    intros pattern Hdna.
  - simpl in Hdna. by rewrite lookup_empty in Hdna.
  - rewrite foldl_app in *. cbn [foldl fst snd] in *.
    set (st := foldl _ Tracking.initial steps) in *.
    rewrite track_one_histories.
    assert (Hgrow : ∀ k,
      (k ≤ 10)%nat →
      (k ≤ length (History.window (Tracking.process_histories st) p))%nat →
      (k ≤ length (History.window
                     (Tracker.record_sample (Tracking.process_histories st)
                        info) p))%nat).
    { intros k Hk Hlen. unfold Tracker.record_sample.
      destruct (decide (Tracker.pid info = p)) as [<- | Hne].
      - rewrite window_record. apply append_length_ge; [| done].
        unfold Tracker.maxlen. lia.
      - by rewrite window_record_other. }
    unfold Tracking.track_one in Hdna.
    set (st' := Tracking.State _ _) in Hdna.
    destruct (Nat.eqb_spec
                (length (History.window (Tracking.process_histories st')
                           (Tracker.pid info)) mod 10) 0) as [Hmod | Hmod];
      [| by (destruct (IH pattern Hdna) as [Hlen Hmean];
             split; [apply Hgrow; [lia | done] | done])].
    unfold Tracking.update_process_dna in Hdna.
    destruct (Nat.ltb_spec
                (length (History.window (Tracking.process_histories st')
                           (Tracker.pid info))) 5) as [Hshort | Hlong];
      [by (destruct (IH pattern Hdna) as [Hlen Hmean];
           split; [apply Hgrow; [lia | done] | done]) |].
    destruct (Tracker.dna_statistics _) as [new |] eqn:Hnew;
      [| by (destruct (IH pattern Hdna) as [Hlen Hmean];
             split; [apply Hgrow; [lia | done] | done])].
    destruct stored;
      [| by (destruct (IH pattern Hdna) as [Hlen Hmean];
             split; [apply Hgrow; [lia | done] | done])].
    cbn [Tracking.process_dna] in Hdna.
    destruct (decide (Tracker.pid info = p)) as [<- | Hne].
    + rewrite lookup_insert_eq in Hdna. injection Hdna as <-.
      split.
      * change (Tracker.record_sample (Tracking.process_histories st) info)
          with (Tracking.process_histories st').
        set (n := length (History.window (Tracking.process_histories st')
                            (Tracker.pid info))) in *.
        assert (n = 10 * (n / 10) + n mod 10)%nat by apply Nat.div_mod_eq.
        lia.
      * by apply dna_statistics_mean_positive in Hnew.
    + rewrite lookup_insert_ne in Hdna by done.
      destruct (IH pattern Hdna) as [Hlen Hmean].
      split; [apply Hgrow; [lia | done] | done].
Qed.

(** X25.  However the tracker is run, a process has fingerprint
    statistics only once at least ten of its samples are in its history,
    and their mean resident size is positive.  So
    [detect_memory_anomalies] never answers [insufficient_recent_data]:
    it answers [insufficient_data] for every process tracked fewer than
    ten times and, for a process with statistics, [analyzed] over the
    last ten entries of its history. *)
Theorem fingerprint_needs_ten_samples
    (steps : list (bool * Tracker.proc_info)) (p : Z) :
  let st := tracking_run steps in
  let history := History.window (Tracking.process_histories st) p in
  (∀ pattern, Tracking.process_dna st !! p = Some pattern →
              (10 ≤ length history)%nat ∧ Tracker.mean_rss pattern > 0 ∧
              Tracking.detect_memory_anomalies st p
              = (Tracker.analyzed,
                 Tracker.memory_leak_check pattern
                 ++ Tracker.unusual_usage_check pattern
                      (History.last_n 10 history)
                 ++ Tracker.thread_check pattern) ∧
              length (History.last_n 10 history) = 10%nat) ∧
  (Tracking.detect_memory_anomalies st p).1
  ≠ Tracker.insufficient_recent_data ∧
  ((length (filter (fun step => Tracker.pid step.2 = p) steps) < 10)%nat →
   Tracking.detect_memory_anomalies st p = (Tracker.insufficient_data, [])).
Proof.
  intros st history.
  assert (Hdna : ∀ pattern,
    Tracking.process_dna st !! p = Some pattern →
    (10 ≤ length history)%nat ∧ Tracker.mean_rss pattern > 0 ∧
    Tracking.detect_memory_anomalies st p
    = (Tracker.analyzed,
       Tracker.memory_leak_check pattern
       ++ Tracker.unusual_usage_check pattern (History.last_n 10 history)
       ++ Tracker.thread_check pattern) ∧
    length (History.last_n 10 history) = 10%nat).
  { intros pattern Hpattern.
    destruct (tracking_invariant steps p pattern Hpattern) as [Hlen Hmean].
    fold st in Hlen. fold history in Hlen.
    assert (Hrecent : length (History.last_n 10 history) = 10%nat).
    { unfold History.last_n. rewrite length_drop. lia. }
    split; [exact Hlen |]. split; [exact Hmean |]. split; [| exact Hrecent].
    unfold Tracking.detect_memory_anomalies, Tracker.detect_memory_anomalies.
    rewrite Hpattern. fold history. by rewrite Hrecent. }
  split; [exact Hdna |]. split.
  - destruct (Tracking.process_dna st !! p) as [pattern |] eqn:Hpattern.
    + destruct (Hdna pattern eq_refl) as (_ & _ & -> & _). done.
    + unfold Tracking.detect_memory_anomalies. by rewrite Hpattern.
  - intros Hfew.
    destruct (Tracking.process_dna st !! p) as [pattern |] eqn:Hpattern.
    + destruct (Hdna pattern eq_refl) as (Hlen & _).
      unfold history, st in Hlen. rewrite tracking_run_histories in Hlen.
      pose proof (process_history_length_le (map snd steps) p) as Hcount.
      assert (Hfilter :
        length (filter (fun info => Tracker.pid info = p) (map snd steps))
        = length (filter (fun step => Tracker.pid step.2 = p) steps)).
      { clear. induction steps as [| step steps IH]; [done |]. simpl.
        destruct (decide (Tracker.pid step.2 = p)).
        - rewrite !filter_cons_True by done. simpl. by rewrite IH.
        - by rewrite !filter_cons_False by done. }
      lia.
    + unfold Tracking.detect_memory_anomalies. by rewrite Hpattern.
Qed.

Lemma fingerprint_needs_ten_samples_witness :
  let steps :=
    map (fun size => (true, Tracker.ProcInfo 42 "worker" size 0 0 0 0 0 0 1 0
                              "t")) spec_sequence in
  (length (filter (fun step => Tracker.pid step.2 = 7%Z) steps) < 10)%nat ∧
  Tracking.detect_memory_anomalies (tracking_run steps) 7
  = (Tracker.insufficient_data, []).
Proof.
  intros steps.
  assert (Hfew : (length (filter (fun step => Tracker.pid step.2 = 7%Z) steps)
                  < 10)%nat).
  { unfold steps, spec_sequence. cbn [map].
    repeat rewrite filter_cons_False by (simpl; lia).
    rewrite filter_nil. simpl. lia. }
  split; [exact Hfew |].
  exact (proj2 (proj2 (fingerprint_needs_ten_samples steps 7)) Hfew).
Defined.

(** X26.  The tracker recomputes the fingerprint of a process when the
    number of entries in its history, after the new one, is a multiple of
    ten, and leaves the fingerprints alone otherwise.  Once the history
    is full, at 200 entries, that is at every sample: if the database
    accepts it, the statistics of the new history replace the old
    ones. *)
Theorem fingerprint_update_schedule (stored : bool) (st : Tracking.state)
    (info : Tracker.proc_info) :
  let p := Tracker.pid info in
  let before := History.window (Tracking.process_histories st) p in
  let after := History.append 200 before info in
  (length before ≤ 200)%nat →
  History.window
    (Tracking.process_histories (Tracking.track_one stored st info)) p
  = after ∧
  (length after = Nat.min (length before + 1) 200) ∧
  ((length after mod 10)%nat ≠ 0%nat →
   Tracking.process_dna (Tracking.track_one stored st info)
   = Tracking.process_dna st) ∧
  (length before = 200%nat → stored = true →
   ∀ pattern, Tracker.dna_statistics after = Some pattern →
              Tracking.process_dna (Tracking.track_one stored st info)
              = <[p := pattern]> (Tracking.process_dna st)).
Proof.
  intros p before after Hbound.
  assert (Hafter : History.window
            (Tracker.record_sample (Tracking.process_histories st) info) p
          = after).
  { unfold Tracker.record_sample. by rewrite window_record. }
  assert (Hlen : length after = Nat.min (length before + 1) 200).
  { unfold after, History.append. rewrite length_app. simpl.
    destruct (Nat.ltb_spec 200 (length before + 1)).
    - rewrite length_drop, length_app. simpl. lia.
    - rewrite length_app. simpl. lia. }
  split; [by rewrite track_one_histories |]. split; [exact Hlen |].
  unfold Tracking.track_one. cbn [Tracking.process_histories].
  fold p. rewrite Hafter.
  split.
  - intros Hmod. by destruct (Nat.eqb_spec (length after mod 10) 0).
  - intros Hfull -> pattern Hpattern.
    assert (Htwo : length after = 200%nat) by lia.
    rewrite Htwo. change (200 mod 10 =? 0)%nat with true. cbv iota.
    unfold Tracking.update_process_dna. cbn [Tracking.process_histories].
    rewrite Hafter, Htwo. change (200 <? 5)%nat with false. cbv iota.
    by rewrite Hpattern.
Qed.

Lemma fingerprint_update_schedule_witness :
  let info := Tracker.ProcInfo 42 "worker" 1000 0 0 0 0 0 0 1 0 "t" in
  (length (History.window (Tracking.process_histories Tracking.initial)
             (Tracker.pid info)) ≤ 200)%nat ∧
  Tracking.process_dna (Tracking.track_one true Tracking.initial info)
  = Tracking.process_dna Tracking.initial.
Proof.
  intros info.
  assert (Hbound : (length (History.window
                              (Tracking.process_histories Tracking.initial)
                              (Tracker.pid info)) ≤ 200)%nat).
  { unfold History.window. simpl. rewrite lookup_empty. simpl. lia. }
  split; [exact Hbound |].
  destruct (fingerprint_update_schedule true Tracking.initial info Hbound)
    as (_ & _ & Hkeep & _).
  apply Hkeep. unfold History.window. simpl. rewrite lookup_empty. simpl. lia.
Defined.

(** X27.  Statistics computed from a history of at most ten entries, all
    of positive resident size, never make that history unusual: the
    average over the last ten entries is the mean of the statistics
    itself.  This is the situation at the first fingerprint of a
    process. *)
Theorem first_fingerprint_is_not_unusual
    (history : list Tracker.proc_info) (pattern : Tracker.dna_pattern) :
  Tracker.dna_statistics history = Some pattern →
  (length history ≤ 10)%nat →
  Forall (fun entry => Tracker.rss entry > 0) history →
  Tracker.unusual_usage_check pattern (History.last_n 10 history) = [] ∧
  ∀ current expected : R,
    Tracker.UNUSUAL_MEMORY_USAGE current expected
      ∉ (Tracker.detect_memory_anomalies (Some pattern) history).2.
Proof.
  intros Hpattern Hlen Hpositive.
  destruct (dna_statistics_rss history pattern Hpattern)
    as (Hmean & Hstd & _).
  rewrite filter_all in Hmean, Hstd by done.
  assert (Hrecent : History.last_n 10 history = history).
  { unfold History.last_n.
    replace (length history - 10)%nat with 0%nat by lia. apply drop_0. }
  assert (Hcheck : Tracker.unusual_usage_check pattern history = []).
  { unfold Tracker.unusual_usage_check.
    destruct history as [| entry rest]; [done |].
    rewrite Hmean, Hstd.
    rewrite decide_False; [done |].
    pose proof (std_nonneg (map Tracker.rss (entry :: rest))).
    rewrite Rminus_diag, Rabs_R0. lra. }
  rewrite Hrecent. split; [exact Hcheck |].
  intros current expected Hin.
  unfold Tracker.detect_memory_anomalies in Hin.
  rewrite Hrecent in Hin.
  destruct (_ <? 5)%nat; cbn [snd] in Hin; [by apply elem_of_nil in Hin |].
  rewrite Hcheck in Hin. cbn [app] in Hin.
  apply elem_of_app in Hin as [Hin | Hin].
  - unfold Tracker.memory_leak_check in Hin.
    destruct (decide _); [| by apply elem_of_nil in Hin].
    by apply list_elem_of_singleton in Hin.
  - unfold Tracker.thread_check in Hin.
    destruct (decide _); [| by apply elem_of_nil in Hin].
    by apply list_elem_of_singleton in Hin.
Qed.

Lemma first_fingerprint_is_not_unusual_witness :
  ∃ pattern : Tracker.dna_pattern,
    Tracker.dna_statistics (history_of spec_sequence) = Some pattern ∧
    (length (history_of spec_sequence) ≤ 10)%nat ∧
    Forall (fun entry => Tracker.rss entry > 0) (history_of spec_sequence) ∧
    Tracker.unusual_usage_check pattern
      (History.last_n 10 (history_of spec_sequence)) = [].
Proof.
  assert (Hpositive : Forall (fun entry => Tracker.rss entry > 0)
                        (history_of spec_sequence)).
  { unfold history_of, spec_sequence. cbn [map].
    repeat (constructor; [simpl; lra |]). constructor. }
  assert (Hlen : (length (history_of spec_sequence) ≤ 10)%nat)
    by (simpl; lia).
  destruct (Tracker.dna_statistics (history_of spec_sequence))
    as [pattern |] eqn:Hpattern.
  - exists pattern. split; [done |]. split; [exact Hlen |].
    split; [exact Hpositive |].
    exact (proj1 (first_fingerprint_is_not_unusual
                    (history_of spec_sequence) pattern Hpattern Hlen
                    Hpositive)).
  - exfalso. unfold Tracker.dna_statistics in Hpattern.
    change (length (history_of spec_sequence) <? 5)%nat with false in Hpattern.
    cbv iota in Hpattern. unfold Tracker.feature_rows in Hpattern.
    rewrite spec_history_positive in Hpattern. done.
Defined.
